(** * ClinicalAide: STG structure parser, location resolver, entity extractor
      and chunk builder

    A shallow embedding of [stg-ocr-parse/rag_pipeline_builder.py] and
    [stg-ocr-parse/medical_ocr_extractor.py], followed by the properties of
    the specification that hold of it and the places where the two differ,
    and by further properties of the code: of the resolver, of structure
    parsing and the lines of a table of contents, of merging and the
    chunks, of the page extractors, the scan and its driver.

    Conventions.
    - Python [int] is [Z]; Python [str] is [string], one [ascii] per code
      point, so the model covers text whose code points lie in
      U+0000..U+00FF; the character tables ([isspace], [isupper], [lower],
      the classes of [re]) are Python's tables restricted to that range.
    - [None] is [Datatypes.None]; a nullable SQL column is an [option].
    - A SQL table is the list of its rows in insertion order.
    - [re] is modelled by a backtracking matcher over a parsed pattern, so
      the patterns below are the pattern strings of the source.
    - The PDF reader and the SQLite store are outside the model: the page
      texts and the rows read from the OCR database are inputs. *)

From Stdlib Require Import ZArith List String Ascii Bool Lia Arith DecimalString Sorted.
Import ListNotations.

Local Open Scope list_scope.
Local Open Scope string_scope.

(* ================================================================== *)
(** * Python string primitives *)
(* ================================================================== *)

Module PyStr.

(** [len(s)] *)
Definition len (s : string) : Z := Z.of_nat (String.length s).

(** [s[:n]] for a non-negative literal [n]. *)
Definition slice_to (n : nat) (s : string) : string := substring 0 n s.

(** Truth value of a [str]: non-empty. *)
Definition truthy (s : string) : bool :=
  match s with EmptyString => false | String _ _ => true end.

(** Truth value of an optional [str] (a nullable TEXT column). *)
Definition truthy_opt (o : option string) : bool :=
  match o with Some s => truthy s | None => false end.

(** The text an f-string inserts for an optional [str]. *)
Definition fmt_opt (o : option string) : string :=
  match o with Some s => s | None => "None" end.

(** [str(z)] for an [int]. *)
Definition str_of_int (z : Z) : string := NilZero.string_of_int (Z.to_int z).

(** The text an f-string inserts for an optional [int]. *)
Definition fmt_opt_int (o : option Z) : string :=
  match o with Some z => str_of_int z | None => "None" end.

(** The double quote, as a one-character string. *)
Definition dq : string := String "034"%char EmptyString.

(** [c * n] for a one-character string. *)
Fixpoint repeat_char (c : ascii) (n : nat) : string :=
  match n with O => EmptyString | S k => String c (repeat_char c k) end.


(** ** Character tables (code points below 256) *)

Definition code (c : ascii) : nat := nat_of_ascii c.
Definition in_range (lo hi : nat) (c : ascii) : bool :=
  Nat.leb lo (code c) && Nat.leb (code c) hi.

Definition is_digit (c : ascii) : bool := in_range 48 57 c.
Definition is_space (c : ascii) : bool :=
  in_range 9 13 c || in_range 28 32 c || Nat.eqb (code c) 133 || Nat.eqb (code c) 160.
Definition is_upper (c : ascii) : bool :=
  in_range 65 90 c || in_range 192 214 c || in_range 216 222 c.
Definition is_lower_cased (c : ascii) : bool :=
  in_range 97 122 c || in_range 224 246 c || in_range 248 254 c.
Definition is_word (c : ascii) : bool :=
  in_range 48 57 c || in_range 65 90 c || in_range 97 122 c || Nat.eqb (code c) 95
  || Nat.eqb (code c) 170 || Nat.eqb (code c) 178 || Nat.eqb (code c) 179 || Nat.eqb (code c) 181
  || Nat.eqb (code c) 185 || Nat.eqb (code c) 186 || in_range 188 190 c
  || in_range 192 214 c || in_range 216 246 c || in_range 248 255 c.
Definition lower (c : ascii) : ascii :=
  if is_upper c then ascii_of_nat (code c + 32) else c.
Definition upper (c : ascii) : ascii :=
  if is_lower_cased c then ascii_of_nat (code c - 32) else c.

(** ** [str] methods *)

(** [s.lower()] *)
Fixpoint str_lower (s : string) : string :=
  match s with
  | EmptyString => EmptyString
  | String c s' => String (lower c) (str_lower s')
  end.

(** [s.lstrip()], [s.rstrip()], [s.strip()] *)
Fixpoint lstrip (s : string) : string :=
  match s with
  | EmptyString => EmptyString
  | String c s' => if is_space c then lstrip s' else s
  end.

Fixpoint rstrip (s : string) : string :=
  match s with
  | EmptyString => EmptyString
  | String c s' =>
      match rstrip s' with
      | EmptyString => if is_space c then EmptyString else String c EmptyString
      | r => String c r
      end
  end.

Definition strip (s : string) : string := rstrip (lstrip s).

(** [needle in hay] *)
Fixpoint contains (needle hay : string) : bool :=
  prefix needle hay ||
  match hay with
  | EmptyString => false
  | String _ hay' => contains needle hay'
  end.

(** [s.split(sep)] for a one-character separator. *)
Fixpoint split_on (sep : ascii) (s : string) : list string :=
  match s with
  | EmptyString => [EmptyString]
  | String c s' =>
      if Ascii.eqb c sep then EmptyString :: split_on sep s'
      else match split_on sep s' with
           | h :: t => String c h :: t
           | [] => [String c EmptyString]
           end
  end.

(** [s.split()]: the maximal runs of non-whitespace characters. *)
Fixpoint split_ws (s : string) : list string :=
  match s with
  | EmptyString => []
  | String c s' =>
      if is_space c then split_ws s'
      else
        match s' with
        | EmptyString => [String c EmptyString]
        | String d _ =>
            if is_space d then String c EmptyString :: split_ws s'
            else match split_ws s' with
                 | w :: ws => String c w :: ws
                 | [] => [String c EmptyString]
                 end
        end
  end.

(** [s[0].isupper()]; the source only asks this of a non-empty string. *)
Definition first_isupper (s : string) : bool :=
  match s with
  | EmptyString => false
  | String c _ => is_upper c
  end.

(** [int(s)] for a string of decimal digits. *)
Definition int_of_digits (s : string) : Z :=
  fold_left (fun acc c => (10 * acc + Z.of_nat (code c - 48))%Z)
            (list_ascii_of_string s) 0%Z.

End PyStr.

(* ================================================================== *)
(** * The [re] module: backtracking matcher *)
(* ================================================================== *)

Module Re.
Import PyStr.
Local Open Scope nat_scope.

(** ** Expressions *)

(** A member of a bracketed class: a character, a range, or one of the
    categories [\s], [\d], [\w]. *)
Inductive citem : Type :=
| CChar (c : ascii)
| CRange (lo hi : ascii)
| CSpace
| CDigit
| CWord.

(** A parsed pattern.  [RBol], [REol] and [RWordB] are the assertions
    [^], [$] and [\b]; [RRep greedy lo hi r] repeats [r] between [lo] and
    [hi] times ([None]: no upper bound); [RGroup i r] is the capturing group
    number [i]. *)
Inductive regex : Type :=
| REps
| RChar (c : ascii)
| RAny
| RSet (neg : bool) (items : list citem)
| RBol
| REol
| RWordB
| RCat (r1 r2 : regex)
| RAlt (r1 r2 : regex)
| RRep (greedy : bool) (lo : nat) (hi : option nat) (r : regex)
| RGroup (i : nat) (r : regex).

(** The flags the source passes: [re.IGNORECASE], [re.DOTALL]. *)
Record flags := mkFlags { ignorecase : bool; dotall : bool }.

(** The state of a match attempt: the offset in the text, the character
    before it, the text still to read, and the groups captured so far, the
    latest capture of a group first. *)
Record mstate := mkState {
  pos  : nat;
  prev : option ascii;
  rest : list ascii;
  caps : list (nat * list ascii)
}.

(** The state after the character [x] was read and [xs] is left. *)
Definition advance (s : mstate) (x : ascii) (xs : list ascii) : mstate :=
  mkState (S (pos s)) (Some x) xs (caps s).

(** A literal character of the pattern against a character of the text. *)
Definition char_matches (fl : flags) (c x : ascii) : bool :=
  if ignorecase fl then Ascii.eqb (lower c) (lower x) else Ascii.eqb c x.

(** Under [IGNORECASE] a range holds [x] when it holds one of the case
    variants of [x]; the categories do not depend on case. *)
Definition item_matches (fl : flags) (it : citem) (x : ascii) : bool :=
  match it with
  | CChar c => char_matches fl c x
  | CRange lo hi =>
      if ignorecase fl
      then in_range (code lo) (code hi) (lower x)
           || in_range (code lo) (code hi) (upper (lower x))
      else in_range (code lo) (code hi) x
  | CSpace => is_space x
  | CDigit => is_digit x
  | CWord => is_word x
  end.

Definition set_matches (fl : flags) (neg : bool) (items : list citem)
           (x : ascii) : bool :=
  xorb neg (existsb (fun it => item_matches fl it x) items).

Definition newline : ascii := "010"%char.

(** The dot: any character, a newline only under [DOTALL]. *)
Definition any_matches (fl : flags) (x : ascii) : bool :=
  dotall fl || negb (Ascii.eqb x newline).

(** [$] without [MULTILINE]: at the end of the text, or before a newline
    that ends it. *)
Definition at_eol (l : list ascii) : bool :=
  match l with
  | [] => true
  | [x] => Ascii.eqb x newline
  | _ => false
  end.

Definition opt_word (o : option ascii) : bool :=
  match o with Some c => is_word c | None => false end.

(** [\b]: exactly one of the two neighbouring characters is a word
    character. *)
Definition at_word_boundary (s : mstate) : bool :=
  xorb (opt_word (prev s)) (opt_word (hd_error (rest s))).

(** What remains to be matched after an expression, as a function of the
    state the expression leaves; [None] makes the matcher backtrack. *)
Definition kont := mstate -> option mstate.

(** Read one character satisfying [p]. *)
Definition step_char (p : ascii -> bool) (k : kont) (s : mstate) : option mstate :=
  match rest s with
  | x :: xs => if p x then k (advance s x xs) else None
  | [] => None
  end.

Definition dec (hi : option nat) : option nat := option_map Nat.pred hi.

Definition exhausted (hi : option nat) : bool :=
  match hi with Some O => true | _ => false end.

(** The loop of a repetition.  The first [lo] turns are mandatory; after
    them a greedy loop tries another turn before the continuation, a lazy
    one the continuation before another turn.  A turn past the mandatory
    ones must read at least one character (the patterns of the source only
    repeat expressions that do), so [lo] plus the length of the text, plus
    one, is fuel enough. *)
Fixpoint rep_loop (body : kont -> kont) (greedy : bool) (k : kont)
         (fuel lo : nat) (hi : option nat) (s : mstate) {struct fuel}
  : option mstate :=
  match fuel with
  | O => None
  | S fuel' =>
      match lo with
      | S lo' => body (rep_loop body greedy k fuel' lo' (dec hi)) s
      | O =>
          if exhausted hi then k s
          else
            let again := fun s' =>
              if List.length (rest s') <? List.length (rest s)
              then rep_loop body greedy k fuel' 0 (dec hi) s'
              else None in
            if greedy
            then match body again s with
                 | Some e => Some e
                 | None => k s
                 end
            else match k s with
                 | Some e => Some e
                 | None => body again s
                 end
      end
  end.

(** Record for group [i] the text read since [start] was what remained. *)
Definition set_cap (i : nat) (start : list ascii) (s : mstate) : mstate :=
  mkState (pos s) (prev s) (rest s)
    ((i, firstn (List.length start - List.length (rest s)) start) :: caps s).

(** The matcher: [m fl r k s] matches [r] at [s] and then [k], trying the
    alternatives in the order of Python's backtracking. *)
Fixpoint m (fl : flags) (r : regex) (k : kont) (s : mstate) {struct r}
  : option mstate :=
  match r with
  | REps => k s
  | RChar c => step_char (char_matches fl c) k s
  | RAny => step_char (any_matches fl) k s
  | RSet neg items => step_char (set_matches fl neg items) k s
  | RBol => if pos s =? 0 then k s else None
  | REol => if at_eol (rest s) then k s else None
  | RWordB => if at_word_boundary s then k s else None
  | RCat r1 r2 => m fl r1 (m fl r2 k) s
  | RAlt r1 r2 =>
      match m fl r1 k s with
      | Some e => Some e
      | None => m fl r2 k s
      end
  | RRep greedy lo hi r1 =>
      rep_loop (m fl r1) greedy k (S (lo + List.length (rest s))) lo hi s
  | RGroup i r1 =>
      m fl r1 (fun s' => k (set_cap i (rest s) s')) s
  end.

(** ** Pattern syntax *)

Definition ch (c x : ascii) : bool := Ascii.eqb c x.

(** The decimal number at the head of [cs], and what follows it. *)
Fixpoint parse_nat_acc (acc : nat) (cs : list ascii) : nat * list ascii :=
  match cs with
  | x :: xs => if in_range 48 57 x
               then parse_nat_acc (10 * acc + (code x - 48)) xs
               else (acc, cs)
  | [] => (acc, [])
  end.

Definition starts_with_digit (cs : list ascii) : bool :=
  match cs with x :: _ => in_range 48 57 x | [] => false end.

(** [{m}], [{m,}], [{m,n}] after the opening brace. *)
Definition parse_braces (cs : list ascii)
  : option (nat * option nat * list ascii) :=
  if starts_with_digit cs then
    let '(lo, cs1) := parse_nat_acc 0 cs in
    match cs1 with
    | x :: cs2 =>
        if ch "}" x then Some (lo, Some lo, cs2)
        else if ch "," x then
          if starts_with_digit cs2 then
            let '(hi, cs3) := parse_nat_acc 0 cs2 in
            match cs3 with
            | y :: cs4 => if ch "}" y then Some (lo, Some hi, cs4) else None
            | [] => None
            end
          else
            match cs2 with
            | y :: cs4 => if ch "}" y then Some (lo, None, cs4) else None
            | [] => None
            end
        else None
    | [] => None
    end
  else None.

(** A trailing [?] makes the repetition lazy. *)
Definition with_laziness (lo : nat) (hi : option nat) (a : regex)
           (cs : list ascii) : regex * list ascii :=
  match cs with
  | q :: cs' => if ch "?" q then (RRep false lo hi a, cs')
                else (RRep true lo hi a, cs)
  | [] => (RRep true lo hi a, [])
  end.

Definition parse_quant (a : regex) (cs : list ascii)
  : option (regex * list ascii) :=
  match cs with
  | x :: xs =>
      if ch "*" x then Some (with_laziness 0 None a xs)
      else if ch "+" x then Some (with_laziness 1 None a xs)
      else if ch "?" x then Some (with_laziness 0 (Some 1) a xs)
      else if ch "{" x then
        match parse_braces xs with
        | Some (lo, hi, cs1) => Some (with_laziness lo hi a cs1)
        | None => None
        end
      else Some (a, cs)
  | [] => Some (a, [])
  end.

(** The escapes the matcher knows; another letter after a backslash is
    refused. *)
Definition parse_escape (x : ascii) : option (citem + unit) :=
  if ch "s" x then Some (inl CSpace)
  else if ch "d" x then Some (inl CDigit)
  else if ch "w" x then Some (inl CWord)
  else if ch "b" x then Some (inr tt)
  else if ch "n" x then Some (inl (CChar newline))
  else if ch "t" x then Some (inl (CChar "009"%char))
  else if ch "r" x then Some (inl (CChar "013"%char))
  else if in_range 48 57 x || in_range 65 90 x || in_range 97 122 x then None
  else Some (inl (CChar x)).

(** One member of a bracketed class: the item and what follows it. *)
Definition class_atom (cs : list ascii) : option (citem * list ascii) :=
  match cs with
  | x :: xs =>
      if ch "\" x then
        match xs with
        | y :: ys =>
            match parse_escape y with
            | Some (inl it) => Some (it, ys)
            | _ => None
            end
        | [] => None
        end
      else Some (CChar x, xs)
  | [] => None
  end.

Fixpoint parse_class_items (fuel : nat) (cs : list ascii) (acc : list citem)
  : option (list citem * list ascii) :=
  match fuel with
  | O => None
  | S fuel' =>
      match cs with
      | [] => None
      | x :: xs =>
          if ch "]" x then Some (rev acc, xs)
          else
            match class_atom cs with
            | Some (CChar c, d :: cs2) =>
                if ch "-" d then
                  match cs2 with
                  | e :: _ =>
                      if ch "]" e
                      then parse_class_items fuel' (d :: cs2) (CChar c :: acc)
                      else
                        match class_atom cs2 with
                        | Some (CChar hi, cs3) =>
                            parse_class_items fuel' cs3 (CRange c hi :: acc)
                        | _ => None
                        end
                  | [] => None
                  end
                else parse_class_items fuel' (d :: cs2) (CChar c :: acc)
            | Some (it, cs1) => parse_class_items fuel' cs1 (it :: acc)
            | None => None
            end
      end
  end.

Definition parse_class (cs : list ascii) : option (regex * list ascii) :=
  let '(neg, cs1) :=
    match cs with
    | x :: xs => if ch "^" x then (true, xs) else (false, cs)
    | [] => (false, cs)
    end in
  match parse_class_items (S (List.length cs1)) cs1 [] with
  | Some (items, cs2) => Some (RSet neg items, cs2)
  | None => None
  end.

(** Recursive descent: alternation, sequence, atom.  The counter [g] is the
    number of capturing groups opened so far; a group is numbered when its
    parenthesis opens. *)
Fixpoint parse_alt (fuel g : nat) (cs : list ascii) {struct fuel}
  : option (regex * nat * list ascii) :=
  match fuel with
  | O => None
  | S fuel' =>
      match parse_seq fuel' g cs with
      | Some (r1, g1, x :: cs1) =>
          if ch "|" x then
            match parse_alt fuel' g1 cs1 with
            | Some (r2, g2, cs2) => Some (RAlt r1 r2, g2, cs2)
            | None => None
            end
          else Some (r1, g1, x :: cs1)
      | other => other
      end
  end

with parse_seq (fuel g : nat) (cs : list ascii) {struct fuel}
  : option (regex * nat * list ascii) :=
  match fuel with
  | O => None
  | S fuel' =>
      match cs with
      | [] => Some (REps, g, [])
      | x :: _ =>
          if ch "|" x || ch ")" x then Some (REps, g, cs)
          else
            match parse_atom fuel' g cs with
            | Some (a, g1, cs1) =>
                match parse_quant a cs1 with
                | Some (a', cs2) =>
                    match parse_seq fuel' g1 cs2 with
                    | Some (r, g2, cs3) => Some (RCat a' r, g2, cs3)
                    | None => None
                    end
                | None => None
                end
            | None => None
            end
      end
  end

with parse_atom (fuel g : nat) (cs : list ascii) {struct fuel}
  : option (regex * nat * list ascii) :=
  match fuel with
  | O => None
  | S fuel' =>
      match cs with
      | [] => None
      | x :: xs =>
          if ch "(" x then
            match xs with
            | q :: c :: xs' =>
                if ch "?" q then
                  if ch ":" c then
                    match parse_alt fuel' g xs' with
                    | Some (r, g1, y :: cs1) =>
                        if ch ")" y then Some (r, g1, cs1) else None
                    | _ => None
                    end
                  else None
                else
                  match parse_alt fuel' (S g) xs with
                  | Some (r, g1, y :: cs1) =>
                      if ch ")" y then Some (RGroup (S g) r, g1, cs1)
                      else None
                  | _ => None
                  end
            | _ =>
                match parse_alt fuel' (S g) xs with
                | Some (r, g1, y :: cs1) =>
                    if ch ")" y then Some (RGroup (S g) r, g1, cs1)
                    else None
                | _ => None
                end
            end
          else if ch "[" x then
            match parse_class xs with
            | Some (r, cs1) => Some (r, g, cs1)
            | None => None
            end
          else if ch "\" x then
            match xs with
            | y :: ys =>
                match parse_escape y with
                | Some (inl (CChar c)) => Some (RChar c, g, ys)
                | Some (inl it) => Some (RSet false [it], g, ys)
                | Some (inr _) => Some (RWordB, g, ys)
                | None => None
                end
            | [] => None
            end
          else if ch "." x then Some (RAny, g, xs)
          else if ch "^" x then Some (RBol, g, xs)
          else if ch "$" x then Some (REol, g, xs)
          else if ch "*" x || ch "+" x || ch "?" x || ch "{" x
          then None
          else Some (RChar x, g, xs)
      end
  end.

(** A compiled pattern: the expression and its number of groups. *)
Definition parse (pattern : string) : option (regex * nat) :=
  let cs := list_ascii_of_string pattern in
  match parse_alt (3 * List.length cs + 3) 0 cs with
  | Some (r, g, []) => Some (r, g)
  | _ => None
  end.

(** An expression no text matches: what a pattern outside the supported
    syntax compiles to.  Every pattern of the source parses (see
    [source_patterns_parse]). *)
Definition never : regex := RSet false [].

Definition compile (pattern : string) : regex * nat :=
  match parse pattern with
  | Some c => c
  | None => (never, 0)
  end.

(** ** Match objects and the functions of [re] *)

Record Match := mkMatch {
  m_start   : nat;
  m_end     : nat;
  m_text    : list ascii;
  m_caps    : list (nat * list ascii);
  m_ngroups : nat
}.

Fixpoint lookup_cap (i : nat) (l : list (nat * list ascii))
  : option (list ascii) :=
  match l with
  | [] => None
  | (j, v) :: l' => if i =? j then Some v else lookup_cap i l'
  end.

(** [match.group(i)]: [None] for a group that took no part in the match. *)
Definition group (mt : Match) (i : nat) : option string :=
  match i with
  | O => Some (string_of_list_ascii (m_text mt))
  | _ => option_map string_of_list_ascii (lookup_cap i (m_caps mt))
  end.

(** [match.group(i)] where the group always takes part. *)
Definition group_str (mt : Match) (i : nat) : string :=
  match group mt i with Some s => s | None => EmptyString end.

Definition init_state (p : nat) (pv : option ascii) (l : list ascii) : mstate :=
  mkState p pv l [].

Definition match_here (fl : flags) (c : regex * nat) (p : nat)
           (pv : option ascii) (l : list ascii) : option Match :=
  match m fl (fst c) (fun s => Some s) (init_state p pv l) with
  | Some e => Some (mkMatch p (pos e) (firstn (pos e - p) l) (caps e) (snd c))
  | None => None
  end.

(** The leftmost match at or after the current position; the result also
    carries what is left of the text after the match and the character
    before it. *)
Fixpoint search_at (fl : flags) (c : regex * nat) (p : nat)
         (pv : option ascii) (l : list ascii) {struct l}
  : option (Match * option ascii * list ascii) :=
  match m fl (fst c) (fun s => Some s) (init_state p pv l) with
  | Some e =>
      Some (mkMatch p (pos e) (firstn (pos e - p) l) (caps e) (snd c),
            prev e, rest e)
  | None =>
      match l with
      | [] => None
      | x :: l' => search_at fl c (S p) (Some x) l'
      end
  end.

(** [re.match(pattern, text, flags)] *)
Definition re_match (pattern : string) (text : string) (fl : flags)
  : option Match :=
  match_here fl (compile pattern) 0 None (list_ascii_of_string text).

(** [re.search(pattern, text, flags)] *)
Definition re_search (pattern : string) (text : string) (fl : flags)
  : option Match :=
  option_map (fun r => fst (fst r))
    (search_at fl (compile pattern) 0 None (list_ascii_of_string text)).

(** The scan of [re.finditer] and [re.sub].  After a match that consumed
    text the scan resumes where it ended; after an empty one it moves one
    character on.  (The patterns the source scans with never match the
    empty string.) *)
Fixpoint finditer_from (fuel : nat) (fl : flags) (c : regex * nat) (p : nat)
         (pv : option ascii) (l : list ascii) : list Match :=
  match fuel with
  | O => []
  | S fuel' =>
      match search_at fl c p pv l with
      | None => []
      | Some (mt, pv', l') =>
          mt ::
          (if m_end mt =? m_start mt
           then match l' with
                | [] => []
                | x :: l'' => finditer_from fuel' fl c (S (m_end mt)) (Some x) l''
                end
           else finditer_from fuel' fl c (m_end mt) pv' l')
      end
  end.

(** [list(re.finditer(pattern, text, flags))] *)
Definition re_finditer (pattern : string) (text : string) (fl : flags)
  : list Match :=
  let l := list_ascii_of_string text in
  finditer_from (S (List.length l)) fl (compile pattern) 0 None l.

Fixpoint sub_from (fuel : nat) (fl : flags) (c : regex * nat)
         (repl : list ascii) (p : nat) (pv : option ascii) (l : list ascii)
  : list ascii :=
  match fuel with
  | O => l
  | S fuel' =>
      match search_at fl c p pv l with
      | None => l
      | Some (mt, pv', l') =>
          firstn (m_start mt - p) l ++ repl ++
          (if m_end mt =? m_start mt
           then match l' with
                | [] => []
                | x :: l'' =>
                    x :: sub_from fuel' fl c repl (S (m_end mt)) (Some x) l''
                end
           else sub_from fuel' fl c repl (m_end mt) pv' l')
      end
  end.

(** [re.sub(pattern, repl, text)] for a replacement without escapes. *)
Definition re_sub (pattern repl text : string) : string :=
  let l := list_ascii_of_string text in
  string_of_list_ascii
    (sub_from (S (List.length l)) (mkFlags false false) (compile pattern)
              (list_ascii_of_string repl) 0 None l).

Definition NOFLAGS : flags := mkFlags false false.
Definition IGNORECASE : flags := mkFlags true false.
Definition IGNORECASE_DOTALL : flags := mkFlags true true.
End Re.

(* ================================================================== *)
(** * rag_pipeline_builder.py *)
(* ================================================================== *)

Module Rag.
Import PyStr.
Local Open Scope Z_scope.

(** A section dict: [{'number', 'title', 'page'}]. *)
Record SectionD := mkSection {
  sec_number : string;
  sec_title  : string;
  page       : Z
}.

(** A chapter dict: [{'number', 'title', 'start_page', 'sections'}]. *)
Record Chapter := mkChapter {
  number     : Z;
  title      : string;
  start_page : Z;
  sections   : list SectionD
}.

(** ** [_find_chapter_section] (lines 253-266)

    Both result variables are initialised once, before the loop over the
    chapters; the inner loop over a matching chapter's sections only ever
    assigns [section_num], it never clears it. *)

Definition section_step (page_number : Z) (section_num : option string)
           (section : SectionD) : option string :=
  if page_number >=? page section then Some (sec_number section)
  else section_num.

Definition chapter_step (page_number : Z)
           (st : option Z * option string) (chapter : Chapter)
  : option Z * option string :=
  if page_number >=? start_page chapter
  then (Some (number chapter),
        fold_left (section_step page_number) (sections chapter) (snd st))
  else st.

Definition _find_chapter_section (chapters : list Chapter) (page_number : Z)
  : option Z * option string :=
  fold_left (chapter_step page_number) chapters (None, None).

(** ** Section assignment in [_extract_chapters] (lines 90-94)

    The section is appended to the first chapter of the list whose
    [start_page] is at most the section's page; the [break] ends the scan. *)

Fixpoint assign_section (chapters : list Chapter) (section : SectionD)
  : list Chapter :=
  match chapters with
  | [] => []
  | chapter :: rest =>
      if start_page chapter <=? page section
      then mkChapter (number chapter) (title chapter) (start_page chapter)
                     (sections chapter ++ [section])%list :: rest
      else chapter :: assign_section rest section
  end.

(** ** Rows of the tables the builder reads and writes *)

(** A row of the OCR database's [conditions], as selected on line 208. *)
Record OcrCondition := mkOcrCondition {
  oc_id                : Z;
  oc_name              : string;
  oc_icd10_code        : option string;
  oc_clinical_features : option string;
  oc_investigations    : option string;
  oc_treatment         : option string;
  oc_page_number       : option Z
}.

(** A row of the OCR database's [medications], as selected on line 230. *)
Record OcrMedication := mkOcrMedication {
  om_id           : Z;
  om_generic_name : string;
  om_strength     : option string;
  om_route        : option string;
  om_page_number  : option Z
}.

(** A row of [conditions_enhanced], as selected on lines 276-280. *)
Record ConditionRow := mkConditionRow {
  condition_id   : Z;
  name           : string;
  chapter_num    : option Z;
  section_num    : option string;
  page_num       : Z;
  clinical       : option string;
  investigations : option string;
  treatment      : option string;
  ref            : string
}.

(** A row of [medications_enhanced], as selected on lines 329-333. *)
Record MedicationRow := mkMedicationRow {
  med_id          : Z;
  med_name        : string;
  med_chapter_num : option Z;
  med_section_num : option string;
  med_page_num    : Z;
  strength        : option string;
  route           : option string;
  dosage          : option string;
  med_ref         : string
}.

(** A row inserted into [content_chunks]; [id] is generated by the store. *)
Record ChunkRow := mkChunkRow {
  content            : string;
  chunk_type         : string;
  source_id          : Z;
  chapter_number     : option Z;
  chapter_title      : string;
  section_number     : option string;
  page_number        : Z;
  condition_name     : string;
  reference_citation : string;
  metadata           : string
}.

(** ** [_merge_ocr_with_chapters] (lines 207-245) *)

(** [int(x) if x else 0] on a nullable INTEGER column. *)
Definition page_or_zero (o : option Z) : Z :=
  match o with Some z => z | None => 0 end.

Definition condition_reference (chapter_num : option Z)
           (section_num : option string) (page_num : Z) : string :=
  if truthy_opt section_num
  then "Chapter " ++ fmt_opt_int chapter_num ++ ", Section "
         ++ fmt_opt section_num ++ ", Page " ++ str_of_int page_num
  else "Chapter " ++ fmt_opt_int chapter_num ++ ", Page "
         ++ str_of_int page_num.

Definition medication_reference (chapter_num : option Z) (page_num : Z)
  : string :=
  "Chapter " ++ fmt_opt_int chapter_num ++ ", Page " ++ str_of_int page_num.

(** The row written for one OCR condition; [rowid] is the AUTOINCREMENT id
    the freshly created table hands out. *)
Definition merge_condition (chapters : list Chapter) (rowid : Z)
           (row : OcrCondition) : ConditionRow :=
  let page_num := page_or_zero (oc_page_number row) in
  let '(chapter_num, section_num) := _find_chapter_section chapters page_num in
  mkConditionRow rowid (oc_name row) chapter_num section_num page_num
    (oc_clinical_features row) (oc_investigations row) (oc_treatment row)
    (condition_reference chapter_num section_num page_num).

(** The row written for one OCR medication; [dosage_info] is not among the
    inserted columns and stays NULL. *)
Definition merge_medication (chapters : list Chapter) (rowid : Z)
           (row : OcrMedication) : MedicationRow :=
  let page_num := page_or_zero (om_page_number row) in
  let '(chapter_num, section_num) := _find_chapter_section chapters page_num in
  mkMedicationRow rowid (om_generic_name row) chapter_num section_num page_num
    (om_strength row) (om_route row) None
    (medication_reference chapter_num page_num).

Fixpoint merge_from {A B : Type} (f : Z -> A -> B) (rowid : Z) (rows : list A)
  : list B :=
  match rows with
  | [] => []
  | r :: rest => f rowid r :: merge_from f (rowid + 1) rest
  end.

Definition merge_conditions (chapters : list Chapter)
           (rows : list OcrCondition) : list ConditionRow :=
  merge_from (merge_condition chapters) 1 rows.

Definition merge_medications (chapters : list Chapter)
           (rows : list OcrMedication) : list MedicationRow :=
  merge_from (merge_medication chapters) 1 rows.

(** ** [_create_content_chunks] (lines 268-364) *)

(** The title of the first chapter whose number equals [chapter_num];
    the empty string when there is none (lines 286-290, 339-343). *)
Fixpoint lookup_chapter_title (chapters : list Chapter)
         (chapter_num : option Z) : string :=
  match chapters with
  | [] => ""
  | chapter :: rest =>
      match chapter_num with
      | Some n => if number chapter =? n then title chapter
                  else lookup_chapter_title rest chapter_num
      | None => lookup_chapter_title rest chapter_num
      end
  end.

(** [json.dumps({key: id, "type": ty})]. *)
Definition json_dumps_meta (key : string) (id : Z) (ty : string) : string :=
  "{" ++ dq ++ key ++ dq ++ ": " ++ str_of_int id ++ ", "
      ++ dq ++ "type" ++ dq ++ ": " ++ dq ++ ty ++ dq ++ "}".

Definition condition_chunk (row : ConditionRow) (chapter_title : string)
           (chunk_content : string) (ty : string) : ChunkRow :=
  mkChunkRow (slice_to 2000 chunk_content) ty (condition_id row)
    (chapter_num row) chapter_title (section_num row) (page_num row)
    (name row) (ref row)
    (json_dumps_meta "condition_id" (condition_id row) ty).

(** The chunks inserted for one condition row, in insertion order. *)
Definition condition_chunks (chapters : list Chapter) (row : ConditionRow)
  : list ChunkRow :=
  let chapter_title := lookup_chapter_title chapters (chapter_num row) in
  let treatment_chunk :=
    if truthy_opt (treatment row)
    then [condition_chunk row chapter_title
            ("Treatment for " ++ name row ++ ": " ++ fmt_opt (treatment row))
            "treatment"]
    else [] in
  let clinical_chunk :=
    if truthy_opt (clinical row)
    then [condition_chunk row chapter_title
            ("Clinical features of " ++ name row ++ ": "
               ++ fmt_opt (clinical row))
            "clinical_features"]
    else [] in
  let investigations_chunk :=
    if truthy_opt (investigations row)
    then [condition_chunk row chapter_title
            ("Investigations for " ++ name row ++ ": "
               ++ fmt_opt (investigations row))
            "investigations"]
    else [] in
  (treatment_chunk ++ clinical_chunk ++ investigations_chunk)%list.

(** The text of the medication chunk (lines 346-352). *)
Definition medication_content (row : MedicationRow) : string :=
  let c0 := "Medication: " ++ med_name row in
  let c1 := if truthy_opt (strength row)
            then c0 ++ ", Strength: " ++ fmt_opt (strength row) else c0 in
  let c2 := if truthy_opt (route row)
            then c1 ++ ", Route: " ++ fmt_opt (route row) else c1 in
  if truthy_opt (dosage row)
  then c2 ++ ", Dosage: " ++ fmt_opt (dosage row) else c2.

(** The chunk inserted for one medication row: the content is passed to
    the INSERT as built (line 359). *)
Definition medication_chunk (chapters : list Chapter) (row : MedicationRow)
  : ChunkRow :=
  let chapter_title := lookup_chapter_title chapters (med_chapter_num row) in
  mkChunkRow (medication_content row) "medication" (med_id row)
    (med_chapter_num row) chapter_title (med_section_num row)
    (med_page_num row) (med_name row) (med_ref row)
    (json_dumps_meta "medication_id" (med_id row) "medication").

(** The rows of [content_chunks] after the builder ran. *)
Definition _create_content_chunks (chapters : list Chapter)
           (conditions : list ConditionRow) (medications : list MedicationRow)
  : list ChunkRow :=
  (flat_map (condition_chunks chapters) conditions
     ++ map (medication_chunk chapters) medications)%list.

End Rag.

(* ================================================================== *)
(** * rag_pipeline_builder.py: the structure parser *)
(* ================================================================== *)

Module Toc.
Import PyStr Re Rag.
Local Open Scope Z_scope.

Definition chapter_pattern : string :=
  "Chapter\s+(\d+)\.\s+(.+?)\.+\s*(\d+)".

Definition section_pattern : string :=
  "(\d{1,3})\.\s+([^.]+?)\.+\s*(\d+)".

(** Lines 72-80: a line matching the chapter pattern appends a chapter
    with no sections. *)
Definition chapter_of_line (line : string) : option Chapter :=
  match re_match chapter_pattern line NOFLAGS with
  | Some chapter_match =>
      Some (mkChapter (int_of_digits (group_str chapter_match 1))
                      (strip (group_str chapter_match 2))
                      (int_of_digits (group_str chapter_match 3))
                      [])
  | None => None
  end.

(** Lines 83-89: a line matching the section pattern whose leading number
    exceeds 100 yields a section. *)
Definition section_of_line (line : string) : option SectionD :=
  match re_match section_pattern line NOFLAGS with
  | Some section_match =>
      if int_of_digits (group_str section_match 1) >? 100
      then Some (mkSection (group_str section_match 1)
                           (strip (group_str section_match 2))
                           (int_of_digits (group_str section_match 3)))
      else None
  | None => None
  end.

(** The body of the loop over the lines (lines 70-94). *)
Definition process_line (chapters : list Chapter) (line : string)
  : list Chapter :=
  let chapters1 :=
    match chapter_of_line line with
    | Some chapter => (chapters ++ [chapter])%list
    | None => chapters
    end in
  match section_of_line line with
  | Some section => assign_section chapters1 section
  | None => chapters1
  end.

(** [_extract_chapters] over the texts of the table-of-contents pages
    (the pages with index 2 to 8 of the document). *)
Definition _extract_chapters (toc_pages : list string) : list Chapter :=
  fold_left
    (fun chapters text => fold_left process_line (split_on newline text) chapters)
    toc_pages [].

End Toc.

(* ================================================================== *)
(** * medical_ocr_extractor.py *)
(* ================================================================== *)

Module Ocr.
Import PyStr Re.
Local Open Scope Z_scope.

(** [MedicalCondition]; [confidence] is never assigned and keeps its
    default, so it is left out. *)
Record MedicalCondition := mkCondition {
  name              : string;
  icd_code          : string;
  clinical_features : string;
  investigations    : string;
  treatment         : string;
  page_number       : Z
}.

(** [MedicalTreatment] *)
Record MedicalTreatment := mkTreatment {
  condition_name : string;
  first_line     : string;
  second_line    : string;
  dosage         : string;
  duration       : string;
  t_page_number  : Z
}.

(** A medication dict: ['strength'] and ['route'] are optional keys. *)
Record Medication := mkMedication {
  med_name        : string;
  med_page_number : Z;
  med_strength    : option string;
  med_route       : option string
}.

(** ** The tables of [__init__] (lines 45-104) *)

Definition condition_patterns : list string :=
  [ "^([A-Z][a-zA-Z\s\-]+?)\s*\((?:ICD[:\s-]*)?([A-Z]\d{2}(?:\.\d+)?)\)";
    "^((?:Acute|Chronic|Severe|Mild|Primary|Secondary)\s+[A-Za-z\s]+)$";
    "^([A-Z][a-z]+(?:itis|osis|emia|pathy|trophy|plasia|oma))\s*";
    "^([A-Z][a-z]+\s+(?:infection|disease|syndrome|disorder))\s*";
    "^([A-Z][a-z]+\s+(?:pain|fever|cough|diarr?hoea))\s*" ].

Definition medical_sections : list (string * list string) :=
  [ ("clinical_features",
     [ "clinical features"; "signs and symptoms"; "clinical presentation";
       "presenting features"; "clinical manifestations" ]);
    ("investigations",
     [ "investigations"; "diagnostic tests"; "laboratory tests";
       "diagnostic procedures"; "tests required" ]);
    ("treatment",
     [ "treatment"; "management"; "therapy"; "drug therapy";
       "pharmacological treatment"; "medication" ]);
    ("complications",
     [ "complications"; "sequelae"; "adverse outcomes" ]) ].

Definition treatment_patterns : list string :=
  [ "First[- ]line[:\s]+([^.\n]+)";
    "Second[- ]line[:\s]+([^.\n]+)";
    "Alternative[:\s]+([^.\n]+)";
    "Drug[:\s]+([A-Z][a-z]+(?:\s+\d+\s*mg)?)";
    "Dose[:\s]+([^.\n]+)";
    "Duration[:\s]+([^.\n]+)" ].

Definition medication_patterns : list string :=
  [ "([A-Z][a-z]+)\s+(\d+(?:\.\d+)?)\s*(mg|g|ml|IU|mcg|units?)(?:\s+(\w+))?";
    "([A-Z][a-z]+)\s+(?:tablets?|capsules?|injection|syrup)\s+(\d+(?:\.\d+)?)\s*(mg|ml)" ].

Definition skip_patterns : list string :=
  [ "Department of"; "Ministry of"; "University of"; "World Health";
    "Ghana National"; "Table of Contents"; "Chapter \d+"; "Page \d+";
    "\d{4}" ].

(** ** [_extract_section_content] (lines 357-375) *)

(** [self.medical_sections[section_type]], when the key is present. *)
Fixpoint lookup_section (section_type : string)
         (table : list (string * list string)) : option (list string) :=
  match table with
  | [] => None
  | (k, v) :: rest =>
      if String.eqb k section_type then Some v
      else lookup_section section_type rest
  end.

(** [sum(self.medical_sections.values(), [])] *)
Definition all_keywords : list string :=
  flat_map snd medical_sections.

(** The f-string of line 367: the keywords are joined with ["$|"]. *)
Definition section_pattern_for (keyword : string) : string :=
  keyword ++ "[:\s]+(.*?)(?:" ++ String.concat "$|" all_keywords ++ "|$)".

Definition whitespace_pattern : string := "\s+".

(** [re.sub(r'\s+', ' ', s)] *)
Definition normalize_whitespace (s : string) : string :=
  re_sub whitespace_pattern " " s.

(** The loop over the keywords: the first keyword whose pattern is found
    decides the result. *)
Fixpoint section_content_loop (text : string) (keywords : list string)
  : string :=
  match keywords with
  | [] => ""
  | keyword :: rest =>
      match re_search (section_pattern_for keyword) text IGNORECASE_DOTALL with
      | Some mt =>
          let content := normalize_whitespace (strip (group_str mt 1)) in
          if (300 <? String.length content)%nat then slice_to 300 content
          else content
      | None => section_content_loop text rest
      end
  end.

Definition _extract_section_content (text section_type : string) : string :=
  match lookup_section section_type medical_sections with
  | None => ""
  | Some keywords => section_content_loop text keywords
  end.

(** ** [_extract_clinical_features] (lines 337-355) *)

Definition cf_patterns : list string :=
  [ "clinical features[:\s]+(.*?)(?:investigations|treatment|complications|$)";
    "signs and symptoms[:\s]+(.*?)(?:investigations|treatment|complications|$)";
    "presentation[:\s]+(.*?)(?:investigations|treatment|complications|$)" ].

Fixpoint clinical_features_loop (text : string) (patterns : list string)
  : string :=
  match patterns with
  | [] => ""
  | pattern :: rest =>
      match re_search pattern text IGNORECASE_DOTALL with
      | Some mt =>
          let features := normalize_whitespace (strip (group_str mt 1)) in
          if (500 <? String.length features)%nat then slice_to 500 features
          else features
      | None => clinical_features_loop text rest
      end
  end.

Definition _extract_clinical_features (text condition_name : string)
  : string :=
  clinical_features_loop text cf_patterns.

(** ** [_is_valid_medical_condition] (lines 287-318) *)

Definition organisation_words : list string :=
  [ "Department"; "Ministry"; "University"; "Ghana"; "WHO" ].

Definition medical_indicators : list string :=
  [ "infection"; "disease"; "syndrome"; "disorder"; "pain"; "fever";
    "itis"; "osis"; "emia"; "pathy"; "trophy"; "plasia"; "oma";
    "acute"; "chronic"; "severe"; "mild"; "primary"; "secondary";
    "malaria"; "pneumonia"; "diarrhea"; "hypertension"; "diabetes" ].

(** [re.search(pattern, text)] read as a truth value. *)
Definition found (pattern text : string) : bool :=
  match re_search pattern text NOFLAGS with Some _ => true | None => false end.

(** The two patterns of line 299: a leading number, a four-digit year. *)
Definition validator_patterns : list string := [ "^\d+"; "\b\d{4}\b" ].

Definition _is_valid_medical_condition (name : string) : bool :=
  if (len name <? 5) || (len name >? 60) then false
  else if existsb (fun skip => contains skip name) organisation_words then false
  else if existsb (fun pattern => found pattern name) validator_patterns
  then false
  else
    let name_lower := str_lower name in
    if existsb (fun indicator => contains indicator name_lower)
               medical_indicators
    then true
    else if first_isupper name
            && (Z.of_nat (List.length (split_ws name)) <=? 4)
    then true
    else false.

(** ** [_is_valid_medication_name] (lines 320-335) *)

Definition skip_words : list string :=
  [ "Table"; "Page"; "Chapter"; "Section"; "And"; "The"; "For"; "With" ].

Definition _is_valid_medication_name (name : string) : bool :=
  if (len name <? 3) || (len name >? 30) then false
  else if negb (first_isupper name) then false
  else if existsb (fun skip => contains skip name) skip_words then false
  else true.

(** ** [_extract_conditions_from_page] (lines 174-218) *)

(** The loop over the condition patterns for one line: a pattern that
    matches a name the validator refuses passes the turn to the next
    pattern; the first accepted name ends the loop. *)
Fixpoint condition_of_line (text line : string) (page_num : Z)
         (patterns : list string) : option MedicalCondition :=
  match patterns with
  | [] => None
  | pattern :: rest =>
      match re_search pattern line NOFLAGS with
      | Some mt =>
          let condition_name := strip (group_str mt 1) in
          if negb (_is_valid_medical_condition condition_name)
          then condition_of_line text line page_num rest
          else
            Some (mkCondition condition_name
                    (if (1 <? m_ngroups mt)%nat then group_str mt 2 else "")
                    (_extract_clinical_features text condition_name)
                    (_extract_section_content text "investigations")
                    (_extract_section_content text "treatment")
                    page_num)
      | None => condition_of_line text line page_num rest
      end
  end.

Definition conditions_of_line (text : string) (page_num : Z) (raw : string)
  : list MedicalCondition :=
  let line := strip raw in
  if (len line <? 5) || (len line >? 100) then []
  else if existsb (fun pattern => found pattern line) skip_patterns then []
  else
    match condition_of_line text line page_num condition_patterns with
    | Some condition => [condition]
    | None => []
    end.

Definition _extract_conditions_from_page (text : string) (page_num : Z)
  : list MedicalCondition :=
  flat_map (conditions_of_line text page_num) (split_on newline text).

(** ** [_extract_treatments_from_page] (lines 220-252) *)

(** The if/elif chain of lines 238-248 on the lower-cased pattern. *)
Definition classify_treatment (pattern : string) (condition_name : string)
           (page_num : Z) (treatment_text : string) : MedicalTreatment :=
  let pattern_lower := str_lower pattern in
  if contains "first" pattern_lower
  then mkTreatment condition_name treatment_text "" "" "" page_num
  else if contains "second" pattern_lower
          || contains "alternative" pattern_lower
  then mkTreatment condition_name "" treatment_text "" "" page_num
  else if contains "dose" pattern_lower
  then mkTreatment condition_name "" "" treatment_text "" page_num
  else if contains "duration" pattern_lower
  then mkTreatment condition_name "" "" "" treatment_text page_num
  else mkTreatment condition_name treatment_text "" "" "" page_num.

(** The treatments one pattern contributes: one for each of its matches
    whose stripped capture has more than five characters. *)
Definition treatments_of_pattern (text condition_name : string)
           (page_num : Z) (pattern : string) : list MedicalTreatment :=
  flat_map
    (fun mt =>
       let treatment_text := strip (group_str mt 1) in
       if len treatment_text >? 5
       then [classify_treatment pattern condition_name page_num treatment_text]
       else [])
    (re_finditer pattern text IGNORECASE).

Definition _extract_treatments_from_page (text condition_name : string)
           (page_num : Z) : list MedicalTreatment :=
  flat_map (treatments_of_pattern text condition_name page_num)
           treatment_patterns.

(** ** [_extract_medications_from_page] (lines 254-285) *)

Definition medication_of_match (page_num : Z) (mt : Match)
  : list Medication :=
  let med_name := strip (group_str mt 1) in
  if negb (_is_valid_medication_name med_name) then []
  else
    [ mkMedication med_name page_num
        (if (3 <=? m_ngroups mt)%nat
         then Some (group_str mt 2 ++ group_str mt 3)
         else None)
        (if (4 <=? m_ngroups mt)%nat
         then match group mt 4 with
              | Some r => if truthy r then Some r else None
              | None => None
              end
         else None) ].

Definition _extract_medications_from_page (text : string) (page_num : Z)
  : list Medication :=
  flat_map
    (fun pattern =>
       flat_map (medication_of_match page_num)
                (re_finditer pattern text NOFLAGS))
    medication_patterns.

(** ** The page scan of [extract_medical_content] (lines 130-159)

    The document hands over the pages in order, each with its one-based
    number.  The state of the loop is the three result lists and the
    [current_condition] slot. *)

Record ScanState := mkScan {
  conditions        : list MedicalCondition;
  treatments        : list MedicalTreatment;
  medications       : list Medication;
  current_condition : option MedicalCondition;
  pages_processed   : Z
}.

Definition scan_init : ScanState := mkScan [] [] [] None 0.

(** One turn of the loop (lines 139-159). *)
Definition scan_page (st : ScanState) (pg : Z * string) : ScanState :=
  let '(page_no, text) := pg in
  let page_conditions := _extract_conditions_from_page text page_no in
  let current :=
    match rev page_conditions with
    | c :: _ => Some c
    | [] => current_condition st
    end in
  let page_treatments :=
    match current with
    | Some c => _extract_treatments_from_page text (name c) page_no
    | None => []
    end in
  let page_medications := _extract_medications_from_page text page_no in
  mkScan (conditions st ++ page_conditions)%list
         (treatments st ++ page_treatments)%list
         (medications st ++ page_medications)%list
         current
         (pages_processed st + 1).

Definition scan_pages (pages : list (Z * string)) : ScanState :=
  fold_left scan_page pages scan_init.

End Ocr.

(* ================================================================== *)
(** * Vocabulary of the specification *)
(* ================================================================== *)

Module Spec.
Import PyStr Re.
Local Open Scope Z_scope.

(** A chapter list sorted by [start_page]; the data model lets no two
    chapters share a start page, so the order is strict. *)
Definition sorted_by_start_page (chapters : list Rag.Chapter) : Prop :=
  StronglySorted (fun a b => Rag.start_page a < Rag.start_page b) chapters.

(** [c] is a chapter of the list with the greatest [start_page] not above
    [p]. *)
Definition covers (chapters : list Rag.Chapter) (p : Z) (c : Rag.Chapter)
  : Prop :=
  In c chapters /\ Rag.start_page c <= p /\
  forall c', In c' chapters -> Rag.start_page c' <= p ->
             Rag.start_page c' <= Rag.start_page c.

(** The chapter [c] with [section] appended to its sections. *)
Definition with_section (c : Rag.Chapter) (section : Rag.SectionD)
  : Rag.Chapter :=
  Rag.mkChapter (Rag.number c) (Rag.title c) (Rag.start_page c)
                (Rag.sections c ++ [section])%list.

(** The fields of a treatment record that hold text. *)
Definition populated_fields (t : Ocr.MedicalTreatment) : list string :=
  filter truthy
    [Ocr.first_line t; Ocr.second_line t; Ocr.dosage t; Ocr.duration t].

(** The conditions a scan has discovered on the given pages, in order. *)
Definition discovered (pages : list (Z * string)) : list Ocr.MedicalCondition :=
  flat_map (fun pg => Ocr._extract_conditions_from_page (snd pg) (fst pg)) pages.

(** The most recently discovered condition, if any was discovered. *)
Definition most_recent_condition (pages : list (Z * string))
  : option Ocr.MedicalCondition :=
  hd_error (rev (discovered pages)).

(** ** Keyword-introduced sections of a page text

    The vocabulary works on the characters of the text. *)

(** [l] starts with the word [w], letter case ignored. *)
Fixpoint starts_ci (w l : list ascii) : bool :=
  match w, l with
  | [], _ => true
  | a :: w', x :: l' => Ascii.eqb (lower a) (lower x) && starts_ci w' l'
  | _ :: _, [] => false
  end.

(** A colon or a whitespace character: what separates a keyword from the
    text it introduces. *)
Definition is_sep (c : ascii) : bool := Ascii.eqb ":" c || is_space c.

Fixpoint drop_seps (l : list ascii) : list ascii :=
  match l with
  | x :: l' => if is_sep x then drop_seps l' else l
  | [] => []
  end.

(** The keyword stands at the head of [l] and at least one separator follows
    it: what comes after the separators. *)
Definition keyword_here (kw l : list ascii) : option (list ascii) :=
  if starts_ci kw l then
    match skipn (List.length kw) l with
    | x :: l' => if is_sep x then Some (drop_seps l') else None
    | [] => None
    end
  else None.

(** The text introduced by the first occurrence of the keyword in [l]. *)
Fixpoint after_keyword (kw l : list ascii) : option (list ascii) :=
  match keyword_here kw l with
  | Some r => Some r
  | None =>
      match l with
      | [] => None
      | _ :: l' => after_keyword kw l'
      end
  end.

(** The text introduced by the first keyword of the list, in the order of
    the list, that occurs in [text]. *)
Fixpoint first_hit (keywords : list string) (text : string)
  : option (list ascii) :=
  match keywords with
  | [] => None
  | kw :: rest =>
      match after_keyword (list_ascii_of_string kw)
                          (list_ascii_of_string text) with
      | Some r => Some r
      | None => first_hit rest text
      end
  end.

(** The characters of [l] before the first place where [stop] holds. *)
Fixpoint take_until (stop : list ascii -> bool) (l : list ascii)
  : list ascii :=
  match l with
  | [] => []
  | x :: l' => if stop l then [] else x :: take_until stop l'
  end.

(** Where the capture of the clinical-features patterns ends: at one of the
    three words, letter case ignored, or at the end of the text (a final
    newline counts as the end). *)
Definition stop_cf (l : list ascii) : bool :=
  starts_ci (list_ascii_of_string "investigations") l
  || starts_ci (list_ascii_of_string "treatment") l
  || starts_ci (list_ascii_of_string "complications") l
  || at_eol l.

(** Following the words of the specification: the capture ends at the next
    occurrence of any keyword of any section type, or at the end of the
    text. *)
Definition stop_any_keyword (l : list ascii) : bool :=
  existsb (fun kw => starts_ci (list_ascii_of_string kw) l) Ocr.all_keywords
  || at_eol l.

(** The synonyms the clinical-features call site looks for. *)
Definition cf_keywords : list string :=
  [ "clinical features"; "signs and symptoms"; "presentation" ].

(** Strip, collapse runs of whitespace to one space, cut at [cap]. *)
Definition tidy (cap : nat) (body : list ascii) : string :=
  slice_to cap
    (Ocr.normalize_whitespace (strip (string_of_list_ascii body))).

(** Following the words of the specification: section-content extraction
    as the claim describes it. *)
Definition spec_section_content (cap : nat) (keywords : list string)
           (text : string) : string :=
  match first_hit keywords text with
  | Some after => tidy cap (take_until stop_any_keyword after)
  | None => ""
  end.

(** Some keyword of some section type stands at the head of [l], letter
    case ignored. *)
Definition keyword_at (l : list ascii) : bool :=
  existsb (fun kw => starts_ci (list_ascii_of_string kw) l) Ocr.all_keywords.

(** Some keyword of some section type occurs somewhere in [l]. *)
Fixpoint keyword_in (l : list ascii) : bool :=
  keyword_at l
  || match l with
     | [] => false
     | _ :: l' => keyword_in l'
     end.

(** ** Markers and fields of a treatment record *)

(** The text fields of a treatment record. *)
Inductive TreatmentField := FirstLine | SecondLine | Dosage | Duration.

(** Following the words of the specification: the field each marker fills.
    The markers are the treatment patterns of the source in the order of
    their table: first-line, second-line, alternative, drug, dose and
    duration; the drug marker has no field of its own and goes to the first
    line. *)
Definition marker_fields : list (string * TreatmentField) :=
  combine Ocr.treatment_patterns
          [FirstLine; SecondLine; SecondLine; FirstLine; Dosage; Duration].

(** The record that holds [txt] in [field] and the empty text in the other
    three fields. *)
Definition record_with (field : TreatmentField) (cond : string) (page : Z)
           (txt : string) : Ocr.MedicalTreatment :=
  match field with
  | FirstLine => Ocr.mkTreatment cond txt "" "" "" page
  | SecondLine => Ocr.mkTreatment cond "" txt "" "" page
  | Dosage => Ocr.mkTreatment cond "" "" txt "" page
  | Duration => Ocr.mkTreatment cond "" "" "" txt page
  end.

End Spec.

(* ================================================================== *)
(** * Shapes of the keyword patterns *)
(* ================================================================== *)

Module Shape.
Import PyStr Re Spec.
Local Open Scope list_scope.
Local Open Scope nat_scope.

(** The state after [n] characters were consumed. *)
Fixpoint advance_n (n : nat) (s : mstate) : mstate :=
  match n with
  | O => s
  | S n' =>
      match rest s with
      | x :: xs => advance_n n' (advance s x xs)
      | [] => s
      end
  end.

(** The literal word [w] followed by [r]. *)
Definition lits (w : list ascii) (r : regex) : regex :=
  fold_right (fun c acc => RCat (RChar c) acc) r w.

(** The length of the longest prefix of [l] whose characters satisfy [p]. *)
Fixpoint run_length (p : ascii -> bool) (l : list ascii) : nat :=
  match l with
  | x :: l' => if p x then S (run_length p l') else O
  | [] => O
  end.

(** Expressions without groups, repetitions or context assertions. *)
Fixpoint simple (r : regex) : bool :=
  match r with
  | REps | RChar _ | RAny | RSet _ _ | REol => true
  | RCat a b | RAlt a b => simple a && simple b
  | _ => false
  end.

(** One or more colons or whitespace characters, greedy. *)
Definition SEP : regex := RRep true 1 None (RSet false [CChar ":"; CSpace]).

(** Group 1: any characters, as few as possible. *)
Definition GRP : regex := RGroup 1 (RCat (RRep false 0 None RAny) REps).

(** The shape of a keyword pattern: keyword, separators, lazy capture, tail. *)
Definition kw_ast (kw : list ascii) (T : regex) : regex :=
  lits kw (RCat SEP (RCat GRP (RCat T REps))).

(** [T] matches at the head of [l]. *)
Definition accepts (fl : flags) (T : regex) (l : list ascii) : bool :=
  match m fl T (fun s => Some s) (init_state 0 None l) with
  | Some _ => true
  | None => false
  end.

(** An alternation of literal words, each either anchored to the end of the
    text or not, closed by the end-of-text assertion. *)
Definition alt_of (ws : list (list ascii * bool)) : regex :=
  fold_right
    (fun (wa : list ascii * bool) (acc : regex) =>
       RAlt (lits (fst wa) (if snd wa then RCat REol REps else REps)) acc)
    (RCat REol REps) ws.

(** The places such an alternation accepts. *)
Definition stop_of (ws : list (list ascii * bool)) (l : list ascii) : bool :=
  existsb
    (fun wa : list ascii * bool =>
       starts_ci (fst wa) l
       && (negb (snd wa) || at_eol (skipn (List.length (fst wa)) l)))
    ws
  || at_eol l.

(** The words that end the capture of the clinical-features patterns. *)
Definition cf_words : list (list ascii * bool) :=
  map (fun w => (list_ascii_of_string w, false))
      [ "investigations"; "treatment"; "complications" ]%string.

(** The words of line 367: the join puts a dollar sign after every keyword
    but the last. *)
Definition generic_words : list (list ascii * bool) :=
  map (fun w => (list_ascii_of_string w, true))
      (removelast Ocr.all_keywords)
  ++ [ (list_ascii_of_string (last Ocr.all_keywords EmptyString), false) ].

(** The tail of the clinical-features patterns. *)
Definition T_cf : regex := alt_of cf_words.

(** The tail of the patterns of line 367. *)
Definition T_generic : regex := alt_of generic_words.

(** Where the capture of a pattern of line 367 ends. *)
Definition stop_generic : list ascii -> bool := stop_of generic_words.

End Shape.

(* ================================================================== *)
(** * Example data *)
(* ================================================================== *)

Module Examples.
Import PyStr.
Local Open Scope Z_scope.

(** Two chapters; only the first has a section. *)
Definition example_chapters : list Rag.Chapter :=
  [ Rag.mkChapter 1 "General" 10 [Rag.mkSection "101" "Fever" 12];
    Rag.mkChapter 2 "Malaria" 50 [] ].

(** A condition row with its three text fields filled in. *)
Definition example_condition : Rag.ConditionRow :=
  Rag.mkConditionRow 7 "Severe Malaria" (Some 2) None 60
    (Some "Fever and chills") (Some "Blood film") (Some "Artesunate")
    "Chapter 2, Page 60".

(** A medication row whose strength is a number of 2000 digits followed by
    its unit. *)
Definition long_strength_medication : Rag.MedicationRow :=
  Rag.mkMedicationRow 1 "Paracetamol" (Some 2) None 60
    (Some (repeat_char "5" 2000 ++ "mg")) None None "Chapter 2, Page 60".

(** Chapters in an order of discovery that is not the order of their start
    pages, and the section line of scenario B. *)
Definition unordered_chapters : list Rag.Chapter :=
  [ Rag.mkChapter 9 "Appendix" 150 [];
    Rag.mkChapter 1 "General" 20 [];
    Rag.mkChapter 5 "Malaria" 100 [] ].

Definition scenario_b_line : string := "186. Severe Malaria..........112".

Definition scenario_b_section : Rag.SectionD :=
  Rag.mkSection "186" "Severe Malaria" 112.

(** A page with a first-line marker and no condition heading. *)
Definition marker_only_page : Z * string :=
  (1, "First-line: Artesunate injection").

(** The page text of scenario C, and the same text under a marker the
    extractor knows. *)
Definition scenario_c_text : string := "Treatment: Artesunate 2.4mg/kg IV".
Definition first_line_text : string := "First-line: Artesunate 2.4mg/kg IV".

(** A page where another section follows the treatment section, and one
    where a management section follows the clinical features. *)
Definition treatment_then_investigations : string :=
  "Treatment: rest. Investigations: none".

Definition features_then_management : string :=
  "Clinical features: fever. Management: rest".

End Examples.

(* ================================================================== *)
(** * The driver of the extractor *)
(* ================================================================== *)

Module Driver.
Import PyStr Re Ocr.
Local Open Scope Z_scope.

(** [list(range(a, b))] *)
Definition py_range (a b : Z) : list Z :=
  map (fun k => a + Z.of_nat k) (seq 0 (Z.to_nat (b - a))).

(** [extract_medical_content] (lines 113-172) up to the hand-over to the
    store.  The document is given by [total_pages], its [len], and by
    [page_text], the text of [doc[page_num]].  The early return of line 123
    is [None]; otherwise the result is the state of the loop when it ends:
    the three lists handed to [_store_medical_data] and the page counter. *)
Definition extract_medical_content (page_text : Z -> string)
           (total_pages start_page max_pages : Z) : option ScanState :=
  if start_page >=? total_pages then None
  else
    let end_page := Z.min (start_page + max_pages) total_pages in
    Some (scan_pages
            (map (fun page_num => (page_num + 1, page_text page_num))
                 (py_range (start_page - 1) end_page))).

End Driver.

(* ================================================================== *)
(** * Vocabulary of the further properties *)
(* ================================================================== *)

Module Notions.
Import PyStr.
Local Open Scope Z_scope.

(** What structure parsing fixes of a chapter once and for all. *)
Definition skeleton (c : Rag.Chapter) : Z * string * Z :=
  (Rag.number c, Rag.title c, Rag.start_page c).

(** The number of sections of all chapters together. *)
Definition section_count (chapters : list Rag.Chapter) : nat :=
  List.length (flat_map Rag.sections chapters).

(** Chapters in non-decreasing order of start page. *)
Definition ascending (chapters : list Rag.Chapter) : Prop :=
  StronglySorted (fun a b => Rag.start_page a <= Rag.start_page b) chapters.

(** The chapter starts at or before the page of the section. *)
Definition reaches (section : Rag.SectionD) (c : Rag.Chapter) : bool :=
  Rag.start_page c <=? Rag.page section.

(** The number of text fields of a condition row that hold text. *)
Definition field_count (row : Rag.ConditionRow) : nat :=
  List.length
    (filter truthy_opt
       [Rag.treatment row; Rag.clinical row; Rag.investigations row]).

(** What merging hands on unchanged from an OCR condition. *)
Definition carried (row : Rag.ConditionRow)
  : string * option string * option string * option string * Z :=
  (Rag.name row, Rag.clinical row, Rag.investigations row, Rag.treatment row,
   Rag.page_num row).

Definition carried_ocr (row : Rag.OcrCondition)
  : string * option string * option string * option string * Z :=
  (Rag.oc_name row, Rag.oc_clinical_features row, Rag.oc_investigations row,
   Rag.oc_treatment row, Rag.page_or_zero (Rag.oc_page_number row)).

(** The chunk types the builder writes for a condition. *)
Definition condition_chunk_types : list string :=
  [ "treatment"; "clinical_features"; "investigations" ].

(** The optional part of a medication chunk's text for one attribute. *)
Definition attribute_text (label : string) (o : option string) : string :=
  if truthy_opt o then label ++ fmt_opt o else "".

(** The page numbers from [first] to [last], both included, in order. *)
Definition page_numbers (first last : Z) : list Z :=
  map (fun k => first + Z.of_nat k) (seq 0 (Z.to_nat (last - first + 1))).

(** The only whitespace a text holds is the plain space. *)
Definition plain_spaced_chars (l : list ascii) : Prop :=
  Forall (fun c => is_space c = true -> c = " "%char) l.

Definition plain_spaced (s : string) : Prop :=
  plain_spaced_chars (list_ascii_of_string s).

End Notions.

(** Shapes of the lines of a table of contents, and what it means for a
    continuation of the matcher to succeed on a given remaining text. *)
Module LineShape.
Import PyStr Re.

(** Every character of [s] satisfies [p]. *)
Fixpoint all_chars (p : ascii -> bool) (s : string) : bool :=
  match s with
  | EmptyString => true
  | String c s' => p c && all_chars p s'
  end.

(** A non-empty string of characters satisfying [p]. *)
Definition run_of (p : ascii -> bool) (s : string) : Prop :=
  s <> EmptyString /\ all_chars p s = true.

(** The first character of [s], if any, does not satisfy [p]. *)
Definition not_headed (p : ascii -> bool) (s : string) : Prop :=
  match s with
  | EmptyString => True
  | String c _ => p c = false
  end.

Definition is_dot (c : ascii) : bool := Ascii.eqb "." c.

(** A character a title may hold: neither a full stop nor a newline. *)
Definition title_char (c : ascii) : bool :=
  negb (is_dot c) && negb (Ascii.eqb c newline).

(** The text of a title entry: non-empty, made of title characters, not
    starting with whitespace. *)
Definition title_text (s : string) : Prop :=
  run_of title_char s /\ not_headed is_space s.

(** A continuation that succeeds on every state whose remaining text is
    [tl], turning the captures [c] of that state into [F c]. *)
Definition good (k : kont) (tl : list ascii)
           (F : list (nat * list ascii) -> list (nat * list ascii)) : Prop :=
  forall s, rest s = tl -> exists e, k s = Some e /\ caps e = F (caps s).

(** The first character of [l], if any, does not satisfy [p]. *)
Definition head_fails (p : ascii -> bool) (l : list ascii) : Prop :=
  match l with
  | [] => True
  | x :: _ => p x = false
  end.

(** What the chapter pattern and the section pattern share after the
    leading number and its full stop: whitespace, the title read lazily,
    the leader dots, optional whitespace, the page number. *)
Definition entry_tail (b : regex) : regex :=
  RCat (RRep true 1 None (RSet false [CSpace]))
  (RCat (RGroup 2 (RCat (RRep false 1 None b) REps))
  (RCat (RRep true 1 None (RChar "."))
  (RCat (RRep true 0 None (RSet false [CSpace]))
  (RCat (RGroup 3 (RCat (RRep true 1 None (RSet false [CDigit])) REps))
        REps)))).

End LineShape.

Module Pages.
Import PyStr.
Local Open Scope Z_scope.

Definition nl : string := String Re.newline "".

(** A page with two condition headings around a first-line marker. *)
Definition two_conditions_text : string :=
  "Severe Malaria" ++ nl ++ "First-line: Artesunate injection" ++ nl
  ++ "Chronic Hepatitis".

Definition two_conditions_page : Z * string := (40, two_conditions_text).

Definition severe_malaria : Ocr.MedicalCondition :=
  Ocr.mkCondition "Severe Malaria" "" "" "" "" 40.

Definition chronic_hepatitis : Ocr.MedicalCondition :=
  Ocr.mkCondition "Chronic Hepatitis" "" "" "" "" 40.

(** The treatment record the scan of that page returns. *)
Definition artesunate_record : Ocr.MedicalTreatment :=
  Ocr.mkTreatment "Chronic Hepatitis" "Artesunate injection" "" "" "" 40.

(** A chapter line of a table of contents. *)
Definition chapter_line : string := "Chapter 1. General ..... 10".


(** A page whose treatment section runs to the end of the text. *)
Definition treatment_to_the_end : string := "Treatment: rest and fluids".

(** A document of empty pages. *)
Definition blank_document : Z -> string := fun _ => "".

End Pages.

(* ================================================================== *)
(** * Properties of the matcher *)
(* ================================================================== *)

Module ReFacts.
Import PyStr Re Spec Shape.
Local Open Scope list_scope.
Local Open Scope nat_scope.

Lemma step_char_some (p : ascii -> bool) (k : kont) (s e : mstate) :
  step_char p k s = Some e ->
  exists x xs, rest s = x :: xs /\ p x = true /\ k (advance s x xs) = Some e.
Proof.
  unfold step_char. destruct (rest s) as [|x xs]; [discriminate|].
  destruct (p x) eqn:E; [|discriminate].
  intros H. now exists x, xs.
Qed.

(** A repetition with a mandatory first turn over a single character needs
    that character at the head of the text. *)
Lemma rep_loop_mandatory_first (p : ascii -> bool) (greedy : bool) (k : kont)
      (fuel lo : nat) (hi : option nat) (s e : mstate) :
  rep_loop (step_char p) greedy k fuel (S lo) hi s = Some e ->
  exists x xs, rest s = x :: xs /\ p x = true.
Proof.
  destruct fuel as [|fuel]; [discriminate|]. simpl.
  intros H. apply step_char_some in H.
  destruct H as [x [xs [H1 [H2 _]]]]. now exists x, xs.
Qed.

Lemma rest_advance_n (n : nat) (s : mstate) :
  rest (advance_n n s) = skipn n (rest s).
Proof.
  revert s. induction n as [|n IH]; intros s; simpl; [reflexivity|].
  destruct (rest s) as [|x xs] eqn:E; [now rewrite E|].
  now rewrite IH.
Qed.

Lemma caps_advance_n (n : nat) (s : mstate) :
  caps (advance_n n s) = caps s.
Proof.
  revert s. induction n as [|n IH]; intros s; simpl; [reflexivity|].
  destruct (rest s) as [|x xs]; [reflexivity|].
  now rewrite IH.
Qed.

Lemma advance_n_cons (n : nat) (s : mstate) (x : ascii) (xs : list ascii) :
  rest s = x :: xs -> advance_n (S n) s = advance_n n (advance s x xs).
Proof. intros E. simpl. now rewrite E. Qed.

Lemma take_until_prefix (stop : list ascii -> bool) (l : list ascii) :
  firstn (List.length (take_until stop l)) l = take_until stop l.
Proof.
  induction l as [|x l IH]; simpl; [reflexivity|].
  destruct (stop (x :: l)); simpl; [reflexivity | now rewrite IH].
Qed.

Lemma take_until_length (stop : list ascii -> bool) (l : list ascii) :
  List.length (take_until stop l) <= List.length l.
Proof.
  induction l as [|x l IH]; simpl; [lia|].
  destruct (stop (x :: l)); simpl; lia.
Qed.

Lemma take_until_split (stop : list ascii -> bool) (l : list ascii) :
  l = take_until stop l ++ skipn (List.length (take_until stop l)) l.
Proof.
  transitivity (firstn (List.length (take_until stop l)) l
                  ++ skipn (List.length (take_until stop l)) l).
  - symmetry. apply firstn_skipn.
  - now rewrite take_until_prefix.
Qed.

Lemma take_until_stops (stop : list ascii -> bool) (l : list ascii) :
  stop [] = true ->
  stop (skipn (List.length (take_until stop l)) l) = true.
Proof.
  intros H0. induction l as [|x l IH]; simpl; [assumption|].
  destruct (stop (x :: l)) eqn:E; simpl; assumption.
Qed.

Lemma take_until_ext (stop1 stop2 : list ascii -> bool) (l : list ascii) :
  (forall l', stop1 l' = stop2 l') ->
  take_until stop1 l = take_until stop2 l.
Proof.
  intros H. induction l as [|x l IH]; simpl; [reflexivity|].
  now rewrite H, IH.
Qed.

Lemma run_length_ext (p q : ascii -> bool) (l : list ascii) :
  (forall x, p x = q x) -> run_length p l = run_length q l.
Proof.
  intros H. induction l as [|x l IH]; simpl; [reflexivity|].
  now rewrite H, IH.
Qed.

Lemma skipn_run_length_seps (l : list ascii) :
  skipn (run_length is_sep l) l = drop_seps l.
Proof.
  induction l as [|x l IH]; simpl; [reflexivity|].
  destruct (is_sep x); simpl; [assumption | reflexivity].
Qed.

Section IgnoreCaseDotAll.
Variable fl : flags.
Hypothesis Hic : ignorecase fl = true.
Hypothesis Hdot : dotall fl = true.

Lemma char_matches_ci (a x : ascii) :
  char_matches fl a x = Ascii.eqb (lower a) (lower x).
Proof. unfold char_matches. now rewrite Hic. Qed.

Lemma lower_colon (x : ascii) :
  Ascii.eqb (lower ":") (lower x) = Ascii.eqb ":" x.
Proof.
  destruct x as [[] [] [] [] [] [] [] []]; reflexivity.
Qed.

Lemma sep_set_is_sep (x : ascii) :
  set_matches fl false [CChar ":"; CSpace] x = is_sep x.
Proof.
  unfold set_matches, is_sep. cbn [existsb item_matches xorb].
  rewrite char_matches_ci, lower_colon. now rewrite orb_false_r.
Qed.

Lemma any_matches_all (x : ascii) : any_matches fl x = true.
Proof. unfold any_matches. now rewrite Hdot. Qed.

(** A literal word matches exactly a text that starts with it. *)
Lemma m_lits (w : list ascii) (r : regex) (k : kont) (s : mstate) :
  m fl (lits w r) k s
  = if starts_ci w (rest s)
    then m fl r k (advance_n (List.length w) s)
    else None.
Proof.
  revert s. induction w as [|a w IH]; intros s; [reflexivity|].
  cbn [lits fold_right m]. unfold step_char. 
  destruct (rest s) as [|x xs] eqn:E; cbn [starts_ci]; [reflexivity|].
  rewrite char_matches_ci.
  destruct (Ascii.eqb (lower a) (lower x)); cbn [andb]; [|reflexivity].
  fold (lits w r). rewrite IH. cbn [rest advance].
  cbn [List.length]. rewrite (advance_n_cons _ _ _ _ E). reflexivity.
Qed.


(** A simple expression leaves the captures alone. *)
Lemma simple_keeps_caps (r : regex) :
  simple r = true ->
  forall (k : kont) (s e : mstate),
    m fl r k s = Some e -> exists s', k s' = Some e /\ caps s' = caps s.
Proof.
  induction r; cbn [simple]; try discriminate; intros Hs k s e H;
    cbn [m] in H.
  - now exists s.
  - apply step_char_some in H. destruct H as [x [xs [_ [_ H]]]].
    now exists (advance s x xs).
  - apply step_char_some in H. destruct H as [x [xs [_ [_ H]]]].
    now exists (advance s x xs).
  - apply step_char_some in H. destruct H as [x [xs [_ [_ H]]]].
    now exists (advance s x xs).
  - destruct (at_eol (rest s)); [|discriminate]. now exists s.
  - apply andb_true_iff in Hs. destruct Hs as [H1 H2].
    apply (IHr1 H1) in H. destruct H as [s1 [H E1]].
    apply (IHr2 H2) in H. destruct H as [s2 [H E2]].
    exists s2. split; [assumption | congruence].
  - apply andb_true_iff in Hs. destruct Hs as [H1 H2].
    destruct (m fl r1 k s) as [e1|] eqn:E.
    + injection H as <-. now apply (IHr1 H1) in E.
    + now apply (IHr2 H2) in H.
Qed.

Lemma step_char_indep (p : ascii -> bool) (k1 k2 : kont) (s1 s2 : mstate) :
  (forall t1 t2, rest t1 = rest t2 -> (k1 t1 = None <-> k2 t2 = None)) ->
  rest s1 = rest s2 ->
  (step_char p k1 s1 = None <-> step_char p k2 s2 = None).
Proof.
  intros Hk E. unfold step_char. rewrite E.
  destruct (rest s2) as [|x xs]; [tauto|].
  destruct (p x); [|tauto]. now apply Hk.
Qed.

(** Whether a simple expression matches depends on the remaining text
    only. *)
Lemma simple_indep (r : regex) :
  simple r = true ->
  forall (k1 k2 : kont),
    (forall t1 t2, rest t1 = rest t2 -> (k1 t1 = None <-> k2 t2 = None)) ->
    forall s1 s2, rest s1 = rest s2 ->
                  (m fl r k1 s1 = None <-> m fl r k2 s2 = None).
Proof.
  induction r; cbn [simple]; try discriminate; intros Hs k1 k2 Hk s1 s2 E;
    cbn [m].
  - now apply Hk.
  - now apply step_char_indep.
  - now apply step_char_indep.
  - now apply step_char_indep.
  - rewrite E. destruct (at_eol (rest s2)); [now apply Hk | tauto].
  - apply andb_true_iff in Hs. destruct Hs as [H1 H2].
    apply (IHr1 H1); [|assumption].
    intros t1 t2 Et. now apply (IHr2 H2).
  - apply andb_true_iff in Hs. destruct Hs as [H1 H2].
    pose proof (IHr1 H1 k1 k2 Hk s1 s2 E) as A.
    pose proof (IHr2 H2 k1 k2 Hk s1 s2 E) as B.
    destruct (m fl r1 k1 s1), (m fl r1 k2 s2);
      try tauto; try (split; discriminate).
    + destruct A as [_ A]. specialize (A eq_refl). discriminate.
    + destruct A as [A _]. specialize (A eq_refl). discriminate.
Qed.

(** The lazy loop over any character hands over at the first place where
    the continuation succeeds. *)
Lemma lazy_any_loop (k : kont) (stop : list ascii -> bool) :
  (forall s, k s = None <-> stop (rest s) = false) ->
  forall (fuel : nat) (s : mstate),
    List.length (rest s) < fuel ->
    rep_loop (step_char (any_matches fl)) false k fuel 0 None s
    = k (advance_n (List.length (take_until stop (rest s))) s).
Proof.
  intros Hk. induction fuel as [|fuel IH]; intros s Hlt; [lia|].
  cbn [rep_loop exhausted].
  destruct (k s) as [e|] eqn:Ek.
  - assert (Hs : stop (rest s) = true).
    { destruct (stop (rest s)) eqn:E; [reflexivity|].
      apply Hk in E. congruence. }
    destruct (rest s) as [|x xs] eqn:E; cbn [take_until].
    + cbn [List.length advance_n]. now rewrite Ek.
    + rewrite Hs. cbn [List.length advance_n]. now rewrite Ek.
  - assert (Hs : stop (rest s) = false) by now apply Hk.
    unfold step_char.
    destruct (rest s) as [|x xs] eqn:E; cbn [take_until].
    + cbn [List.length advance_n]. now rewrite Ek.
    + rewrite Hs, any_matches_all. cbn [rest advance List.length].
      destruct (Nat.ltb_spec (List.length xs) (S (List.length xs))); [|lia].
      cbn [dec option_map]. rewrite IH by (cbn [rest advance List.length] in *; lia).
      cbn [rest advance].
      rewrite (advance_n_cons _ _ _ _ E). reflexivity.
Qed.

Lemma m_cat (a b : regex) (k : kont) (s : mstate) :
  m fl (RCat a b) k s = m fl a (m fl b k) s.
Proof. reflexivity. Qed.

Lemma m_rep (g : bool) (lo : nat) (hi : option nat) (r : regex)
      (k : kont) (s : mstate) :
  m fl (RRep g lo hi r) k s
  = rep_loop (m fl r) g k (S (lo + List.length (rest s))) lo hi s.
Proof. reflexivity. Qed.

Lemma step_char_nil (p : ascii -> bool) (k : kont) (s : mstate) :
  rest s = [] -> step_char p k s = None.
Proof. intros E. unfold step_char. now rewrite E. Qed.

Lemma step_char_cons (p : ascii -> bool) (k : kont) (s : mstate)
      (x : ascii) (xs : list ascii) :
  rest s = x :: xs ->
  step_char p k s = if p x then k (advance s x xs) else None.
Proof. intros E. unfold step_char. now rewrite E. Qed.

Lemma rep_plus_unfold (p : ascii -> bool) (g : bool) (k : kont)
      (fuel : nat) (s : mstate) :
  rep_loop (step_char p) g k (S fuel) 1 None s
  = step_char p (rep_loop (step_char p) g k fuel 0 None) s.
Proof. reflexivity. Qed.

(** The greedy loop over one character class takes the whole run when the
    continuation cannot fail. *)
Lemma greedy_star_total (p : ascii -> bool) (k : kont) :
  (forall s, k s <> None) ->
  forall (fuel : nat) (s : mstate),
    List.length (rest s) < fuel ->
    rep_loop (step_char p) true k fuel 0 None s
    = k (advance_n (run_length p (rest s)) s).
Proof.
  intros Hk. induction fuel as [|fuel IH]; intros s Hlt; [lia|].
  cbn [rep_loop exhausted]. unfold step_char.
  destruct (rest s) as [|x xs] eqn:E; cbn [run_length]; [reflexivity|].
  destruct (p x); [|reflexivity].
  cbn [rest advance List.length].
  destruct (Nat.ltb_spec (List.length xs) (S (List.length xs))); [|lia].
  cbn [dec option_map]. rewrite IH by (cbn [rest advance List.length] in *; lia).
  cbn [rest advance]. rewrite (advance_n_cons _ _ _ _ E).
  destruct (k (advance_n (run_length p xs) (advance s x xs))) eqn:Ek;
    [reflexivity|].
  now apply Hk in Ek.
Qed.


Lemma greedy_plus_total (p : ascii -> bool) (k : kont) :
  (forall s, k s <> None) ->
  forall (fuel : nat) (s : mstate),
    List.length (rest s) <= fuel ->
    rep_loop (step_char p) true k (S fuel) 1 None s
    = match rest s with
      | x :: xs =>
          if p x then k (advance_n (S (run_length p xs)) s) else None
      | [] => None
      end.
Proof.
  intros Hk fuel s Hlt. rewrite rep_plus_unfold.
  destruct (rest s) as [|x xs] eqn:E;
    [now rewrite (step_char_nil _ _ _ E) | rewrite (step_char_cons _ _ _ _ _ E)].
  destruct (p x); [|reflexivity].
  rewrite greedy_star_total;
    [| assumption | cbn [rest advance List.length] in *; lia].
  cbn [rest advance]. now rewrite (advance_n_cons _ _ _ _ E).
Qed.

Section Tail.
Variable T : regex.
Hypothesis Tsimple : simple T = true.
Hypothesis Tend : accepts fl T [] = true.

Lemma tail_none_iff (st : list ascii) (s : mstate) :
  m fl T (m fl REps (fun e => Some e)) (set_cap 1 st s) = None
  <-> accepts fl T (rest s) = false.
Proof.
  unfold accepts.
  assert (Hk : forall t1 t2 : mstate,
             rest t1 = rest t2 ->
             (m fl REps (fun e => Some e) t1 = None
              <-> (fun e : mstate => Some e) t2 = None)).
  { intros t1 t2 _. cbn [m]. split; discriminate. }
  pose proof (simple_indep T Tsimple _ _ Hk (set_cap 1 st s)
                (init_state 0 None (rest s)) eq_refl) as H.
  destruct (m fl T (fun e => Some e) (init_state 0 None (rest s)));
    split; intros A; try discriminate; try reflexivity.
  - apply H in A. discriminate.
  - now apply H.
Qed.

(** Group 1 followed by the tail always matches, and captures the text
    before the first place the tail accepts. *)
Lemma capture_total (s : mstate) :
  exists e,
    m fl (RCat GRP (RCat T REps)) (fun e => Some e) s = Some e
    /\ lookup_cap 1 (caps e) = Some (take_until (accepts fl T) (rest s)).
Proof.
  cbn [m GRP Nat.add].
  change (m fl RAny) with (step_char (any_matches fl)).
  rewrite (lazy_any_loop
             (m fl REps (fun s' => m fl T (m fl REps (fun e => Some e))
                                     (set_cap 1 (rest s) s')))
             (accepts fl T)); [|intros s'; apply tail_none_iff | lia].
  cbn [m].
  set (n := List.length (take_until (accepts fl T) (rest s))).
  destruct (m fl T (fun s0 => Some s0) (set_cap 1 (rest s) (advance_n n s)))
    as [e|] eqn:E.
  - exists e. split; [reflexivity|].
    apply (simple_keeps_caps T Tsimple) in E.
    destruct E as [s' [E E']]. injection E as ->.
    rewrite E'. cbn [caps set_cap lookup_cap Nat.eqb].
    rewrite rest_advance_n, length_skipn.
    f_equal.
    pose proof (take_until_length (accepts fl T) (rest s)) as Hn.
    match goal with
    | |- firstn ?a _ = _ =>
        replace a with (List.length (take_until (accepts fl T) (rest s)))
          by lia
    end.
    apply take_until_prefix.
  - exfalso.
    apply (tail_none_iff (rest s) (advance_n n s)) in E.
    rewrite rest_advance_n in E. subst n.
    rewrite take_until_stops in E; [discriminate | assumption].
Qed.

Lemma capture_never_fails (s : mstate) :
  m fl (RCat GRP (RCat T REps)) (fun e => Some e) s <> None.
Proof.
  destruct (capture_total s) as [e [H _]]. congruence.
Qed.

(** Separators, then the capture: the separators are taken as a whole. *)
Lemma separators_then_capture (s : mstate) :
  m fl (RCat SEP (RCat GRP (RCat T REps))) (fun e => Some e) s
  = match rest s with
    | x :: xs =>
        if is_sep x
        then m fl (RCat GRP (RCat T REps)) (fun e => Some e)
               (advance_n (S (run_length is_sep xs)) s)
        else None
    | [] => None
    end.
Proof.
  rewrite m_cat. unfold SEP. rewrite m_rep.
  change (m fl (RSet false [CChar ":"; CSpace]))
    with (step_char (set_matches fl false [CChar ":"; CSpace])).
  rewrite greedy_plus_total;
    [| intros s'; apply capture_never_fails | lia].
  destruct (rest s) as [|x xs]; [reflexivity|].
  rewrite sep_set_is_sep.
  now rewrite (run_length_ext _ is_sep) by apply sep_set_is_sep.
Qed.

(** The keyword pattern at one position of the text. *)
Lemma keyword_match_here (kw : list ascii) (s : mstate) :
  match keyword_here kw (rest s) with
  | Some a =>
      exists e, m fl (kw_ast kw T) (fun e => Some e) s = Some e
                /\ lookup_cap 1 (caps e)
                   = Some (take_until (accepts fl T) a)
  | None => m fl (kw_ast kw T) (fun e => Some e) s = None
  end.
Proof.
  unfold kw_ast, keyword_here. rewrite m_lits.
  destruct (starts_ci kw (rest s)); [|reflexivity].
  rewrite separators_then_capture, rest_advance_n.
  destruct (skipn (List.length kw) (rest s)) as [|x xs] eqn:E; [reflexivity|].
  destruct (is_sep x); [|reflexivity].
  match goal with
  | |- context [m fl (RCat GRP (RCat T REps)) ?k ?s0] =>
      destruct (capture_total s0) as [e [He Hc]]
  end.
  exists e. split; [exact He|].
  rewrite Hc, rest_advance_n, rest_advance_n, E.
  cbn [skipn]. now rewrite skipn_run_length_seps.
Qed.

(** The search for a keyword pattern finds the first occurrence of the
    keyword that a separator follows. *)
Lemma keyword_search (kw : list ascii) (n : nat) (l : list ascii) :
  forall (p : nat) (pv : option ascii),
    match after_keyword kw l with
    | Some a =>
        exists r, search_at fl (kw_ast kw T, n) p pv l = Some r
                  /\ lookup_cap 1 (m_caps (fst (fst r)))
                     = Some (take_until (accepts fl T) a)
    | None => search_at fl (kw_ast kw T, n) p pv l = None
    end.
Proof.
  induction l as [|x l IH]; intros p pv;
    cbn [after_keyword search_at fst].
  - pose proof (keyword_match_here kw (init_state p pv [])) as H.
    cbn [rest init_state] in H.
    destruct (keyword_here kw []) as [a|].
    + destruct H as [e [-> Hc]]. eexists. split; [reflexivity|]. exact Hc.
    + now rewrite H.
  - pose proof (keyword_match_here kw (init_state p pv (x :: l))) as H.
    cbn [rest init_state] in H.
    destruct (keyword_here kw (x :: l)) as [a|].
    + destruct H as [e [-> Hc]]. eexists. split; [reflexivity|]. exact Hc.
    + rewrite H. apply IH.
Qed.

(** [re.search] with a keyword pattern. *)
Lemma re_search_keyword (pattern : string) (kw : list ascii) (n : nat)
      (text : string) :
  compile pattern = (kw_ast kw T, n) ->
  match after_keyword kw (list_ascii_of_string text) with
  | Some a =>
      exists mt, re_search pattern text fl = Some mt
                 /\ group_str mt 1
                    = string_of_list_ascii (take_until (accepts fl T) a)
  | None => re_search pattern text fl = None
  end.
Proof.
  intros Hc. unfold re_search. rewrite Hc.
  pose proof (keyword_search kw n (list_ascii_of_string text) 0 None) as H.
  destruct (after_keyword kw (list_ascii_of_string text)) as [a|].
  - destruct H as [r [-> Hcap]]. exists (fst (fst r)).
    split; [reflexivity|].
    unfold group_str, group. now rewrite Hcap.
  - now rewrite H.
Qed.

End Tail.
End IgnoreCaseDotAll.

Lemma accepts_alt_of (ws : list (list ascii * bool)) (l : list ascii) :
  accepts IGNORECASE_DOTALL (alt_of ws) l = stop_of ws l.
Proof.
  unfold accepts, stop_of.
  induction ws as [|[w a] ws IH]; cbn [alt_of fold_right existsb fst snd].
  - cbn [m rest init_state orb]. now destruct (at_eol l).
  - cbn [m]. rewrite (m_lits IGNORECASE_DOTALL eq_refl).
    cbn [rest init_state].
    destruct (starts_ci w l); cbn [andb orb]; [|exact IH].
    destruct a; cbn [negb orb m].
    + rewrite rest_advance_n. cbn [rest init_state].
      destruct (at_eol (skipn (List.length w) l)); [reflexivity | exact IH].
    + reflexivity.
Qed.

Lemma alt_of_simple (ws : list (list ascii * bool)) :
  simple (alt_of ws) = true.
Proof.
  induction ws as [|[w a] ws IH]; cbn [alt_of fold_right fst snd simple];
    [reflexivity|].
  fold (alt_of ws). rewrite IH, andb_true_r.
  induction w as [|c w IHw]; cbn [lits fold_right simple];
    [now destruct a | exact IHw].
Qed.

(** Every pattern of the two source files is within the syntax the pattern
    compiler reads. *)
Lemma source_patterns_parse :
  Forall (fun pattern => exists c, parse pattern = Some c)
         ([Toc.chapter_pattern; Toc.section_pattern]
            ++ Ocr.condition_patterns ++ Ocr.treatment_patterns
            ++ Ocr.medication_patterns ++ Ocr.skip_patterns
            ++ Ocr.validator_patterns ++ Ocr.cf_patterns
            ++ [Ocr.whitespace_pattern]
            ++ map Ocr.section_pattern_for Ocr.all_keywords).
Proof.
  repeat constructor; eexists; vm_compute; reflexivity.
Qed.

End ReFacts.

(* ================================================================== *)
(** * Properties of the location resolver *)
(* ================================================================== *)

Module ResolverFacts.
Import PyStr Rag Spec Examples.
Local Open Scope Z_scope.

Lemma resolve_snoc (chapters : list Chapter) (c : Chapter) (p : Z) :
  _find_chapter_section (chapters ++ [c])%list p
  = chapter_step p (_find_chapter_section chapters p) c.
Proof.
  unfold _find_chapter_section. now rewrite fold_left_app.
Qed.

Lemma sorted_snoc (chapters : list Chapter) (c : Chapter) :
  sorted_by_start_page (chapters ++ [c])%list ->
  sorted_by_start_page chapters /\
  Forall (fun a => start_page a < start_page c) chapters.
Proof.
  unfold sorted_by_start_page.
  induction chapters as [|a l IH]; simpl; intros H.
  - split; constructor.
  - apply StronglySorted_inv in H. destruct H as [Hl Ha].
    destruct (IH Hl) as [Hs Hc].
    rewrite Forall_app in Ha. destruct Ha as [Hal Hac].
    split.
    + constructor; assumption.
    + constructor; [now inversion Hac | assumption].
Qed.

(** The chapter half of the answer does not depend on the section half. *)
Lemma resolve_chapter_snoc (chapters : list Chapter) (c : Chapter) (p : Z) :
  fst (_find_chapter_section (chapters ++ [c])%list p)
  = if p >=? start_page c then Some (number c)
    else fst (_find_chapter_section chapters p).
Proof.
  rewrite resolve_snoc. unfold chapter_step.
  now destruct (p >=? start_page c).
Qed.

Lemma resolve_covering (chapters : list Chapter) (p : Z) :
  sorted_by_start_page chapters ->
  forall c, covers chapters p c ->
            fst (_find_chapter_section chapters p) = Some (number c).
Proof.
  induction chapters as [|c0 l IH] using rev_ind; intros Hs c [Hin [Hle Hmax]].
  - destruct Hin.
  - apply sorted_snoc in Hs. destruct Hs as [Hs Hlt].
    rewrite resolve_chapter_snoc.
    rewrite Forall_forall in Hlt.
    apply in_app_or in Hin.
    destruct (p >=? start_page c0) eqn:E.
    + apply Z.geb_le in E.
      destruct Hin as [Hin | [-> | []]]; [|reflexivity].
      specialize (Hlt _ Hin).
      assert (start_page c0 <= start_page c).
      { apply Hmax; [apply in_or_app; right; now left | assumption]. }
      lia.
    + assert (E' : p < start_page c0).
      { destruct (Z.geb_spec p (start_page c0)); [discriminate | lia]. }
      destruct Hin as [Hin | [-> | []]]; [|lia].
      apply IH; [assumption|].
      split; [assumption|]. split; [assumption|].
      intros c' Hc' Hle'. apply Hmax; [apply in_or_app; now left | assumption].
Qed.

Lemma resolve_none (chapters : list Chapter) (p : Z) :
  (forall c, In c chapters -> p < start_page c) ->
  fst (_find_chapter_section chapters p) = None.
Proof.
  induction chapters as [|c0 l IH] using rev_ind; intros H.
  - reflexivity.
  - rewrite resolve_chapter_snoc.
    assert (p < start_page c0) by (apply H, in_or_app; right; now left).
    destruct (Z.geb_spec p (start_page c0)); [lia|].
    apply IH. intros c Hc. apply H, in_or_app. now left.
Qed.

Lemma covers_own_start (chapters : list Chapter) (c : Chapter) :
  sorted_by_start_page chapters -> In c chapters ->
  covers chapters (start_page c) c.
Proof.
  intros _ Hin. split; [assumption|]. split; [lia|]. now intros.
Qed.

Lemma covering_exists (chapters : list Chapter) (p : Z) :
  sorted_by_start_page chapters ->
  (exists c0, In c0 chapters /\ start_page c0 <= p) ->
  exists c, covers chapters p c.
Proof.
  induction chapters as [|c1 l IH] using rev_ind; intros Hs [c0 [Hin Hle]].
  - destruct Hin.
  - apply sorted_snoc in Hs. destruct Hs as [Hs Hlt].
    rewrite Forall_forall in Hlt.
    destruct (Z_le_gt_dec (start_page c1) p) as [Hc1 | Hc1].
    + exists c1. split; [apply in_or_app; right; now left|].
      split; [assumption|].
      intros c' Hc' _. apply in_app_or in Hc'.
      destruct Hc' as [Hc' | [-> | []]]; [|lia].
      specialize (Hlt _ Hc'). lia.
    + apply in_app_or in Hin. destruct Hin as [Hin | [-> | []]]; [|lia].
      destruct (IH Hs (ex_intro _ c0 (conj Hin Hle))) as [c [Hc [Hcle Hmax]]].
      exists c. split; [apply in_or_app; now left|].
      split; [assumption|].
      intros c' Hc' Hle'. apply in_app_or in Hc'.
      destruct Hc' as [Hc' | [-> | []]]; [now apply Hmax | lia].
Qed.

(** C1. For a chapter list sorted by start page and any page [p]: when
    some chapter starts at or before [p], the resolver answers with the
    number of the chapter whose start page is the greatest one not above
    [p]; it answers [None] when every chapter starts after [p]; and the
    start page of every chapter resolves to that chapter. *)
Theorem resolver_returns_covering_chapter :
  forall (chapters : list Chapter) (p : Z),
    sorted_by_start_page chapters ->
    ((exists c0, In c0 chapters /\ start_page c0 <= p) ->
     exists c, covers chapters p c /\
               fst (_find_chapter_section chapters p) = Some (number c))
    /\ ((forall c, In c chapters -> p < start_page c) ->
        fst (_find_chapter_section chapters p) = None)
    /\ (forall c, In c chapters ->
                  fst (_find_chapter_section chapters (start_page c))
                  = Some (number c)).
Proof.
  intros chapters p Hs. split; [|split].
  - intros Hex. destruct (covering_exists chapters p Hs Hex) as [c Hc].
    exists c. split; [assumption|]. now apply resolve_covering.
  - apply resolve_none.
  - intros c Hin. apply resolve_covering; [assumption|].
    now apply covers_own_start.
Qed.

Lemma resolver_returns_covering_chapter_witness :
  sorted_by_start_page example_chapters /\
  fst (_find_chapter_section example_chapters 50) = Some 2.
Proof.
  assert (Hs : sorted_by_start_page example_chapters).
  { unfold sorted_by_start_page, example_chapters.
    repeat constructor; simpl; lia. }
  split; [exact Hs|].
  apply (proj2 (proj2 (resolver_returns_covering_chapter
                         example_chapters 0 Hs))
               (mkChapter 2 "Malaria" 50 [])).
  simpl. right. left. reflexivity.
Defined.

(** Without the strict order the last chapter of a tie wins. *)
Lemma resolver_tie_takes_last :
  fst (_find_chapter_section
         [mkChapter 1 "A" 10 []; mkChapter 2 "B" 10 []] 10)
  = Some 2.
Proof. reflexivity. Qed.

(** C2 (the code departs from the claim). The section half of the answer
    is not cleared when a later chapter matches: page 60 lies in chapter 2,
    which has no section, and the resolver still answers with section 101
    of chapter 1. *)
Theorem resolver_keeps_section_of_earlier_chapter :
  _find_chapter_section example_chapters 60 = (Some 2, Some "101")
  /\ (forall c, In c example_chapters -> number c = 2 -> sections c = []).
Proof.
  split; [reflexivity|].
  intros c [<- | [<- | []]]; simpl; intros H; [discriminate | reflexivity].
Qed.

End ResolverFacts.

(* ================================================================== *)
(** * Properties of the chunk builder *)
(* ================================================================== *)

Module ChunkFacts.
Import PyStr Rag Spec Examples.

Lemma slice_to_length (n : nat) (s : string) :
  String.length (slice_to n s) <= n.
Proof.
  unfold slice_to. revert s.
  induction n as [|n IH]; intros [|c s]; simpl; try lia.
  specialize (IH s). lia.
Qed.

Lemma truthy_opt_some (o : option string) :
  truthy_opt o = true <-> exists s, o = Some s /\ s <> EmptyString.
Proof.
  split.
  - destruct o as [[|c s]|]; simpl; try discriminate.
    intros _. exists (String c s). split; [reflexivity | discriminate].
  - intros [s [-> Hs]]. destruct s; [contradiction | reflexivity].
Qed.

(** Every chunk built from a condition row is cut at 2000 characters. *)
Lemma condition_chunk_content_bounded (chapters : list Chapter)
      (row : ConditionRow) (c : ChunkRow) :
  In c (condition_chunks chapters row) -> String.length (content c) <= 2000.
Proof.
  unfold condition_chunks. intros H.
  repeat (apply in_app_or in H; destruct H as [H | H]);
    match type of H with
    | In _ (if ?b then _ else _) => destruct b
    end;
    simpl in H; try contradiction;
    destruct H as [<- | []]; apply slice_to_length.
Qed.



(** C4 (the code departs from the claim). The medication chunk receives its
    content as built, without the cut at 2000 characters that the three
    condition chunks get: a strength of 2002 characters gives a chunk of
    2037. *)
Theorem medication_chunk_content_not_truncated :
  forall chapters : list Chapter,
    String.length (content (medication_chunk chapters long_strength_medication))
    = 2037
    /\ In (medication_chunk chapters long_strength_medication)
          (_create_content_chunks chapters [] [long_strength_medication]).
Proof.
  intros chapters. split.
  - cbn [medication_chunk content]. vm_compute. reflexivity.
  - unfold _create_content_chunks. simpl. left. reflexivity.
Qed.

End ChunkFacts.

(* ================================================================== *)
(** * Properties of the structure parser *)
(* ================================================================== *)

Module TocFacts.
Import PyStr Re Rag Toc Spec Examples Pages ReFacts.
Local Open Scope Z_scope.

Lemma section_line_starts_with_digit (line : string) (mt : Match) :
  re_match section_pattern line NOFLAGS = Some mt ->
  exists c rest, line = String c rest /\ is_digit c = true.
Proof.
  unfold re_match, match_here.
  set (cp := compile section_pattern). vm_compute in cp. subst cp.
  cbn [fst m].
  match goal with
  | |- context [rep_loop ?b ?g ?k ?f ?lo ?hi ?s] =>
      destruct (rep_loop b g k f lo hi s) eqn:E
  end; [|discriminate].
  intros _. apply rep_loop_mandatory_first in E.
  destruct E as [x [xs [H1 H2]]].
  destruct line as [|c line]; [discriminate|].
  cbn in H1. injection H1 as <- _. exists c, line. split; [reflexivity|].
  unfold set_matches in H2. cbn [existsb item_matches xorb] in H2.
  now rewrite orb_false_r in H2.
Qed.

Lemma chapter_line_starts_with_C (line : string) (mt : Match) :
  re_match chapter_pattern line NOFLAGS = Some mt ->
  exists rest, line = String "C" rest.
Proof.
  unfold re_match, match_here.
  set (cp := compile chapter_pattern). vm_compute in cp. subst cp.
  cbn [fst m].
  match goal with
  | |- context [step_char ?p ?k ?s] => destruct (step_char p k s) eqn:E
  end; [|discriminate].
  intros _. apply step_char_some in E.
  destruct E as [x [xs [H1 [H2 _]]]].
  destruct line as [|c line]; [discriminate|].
  cbn in H1. injection H1 as <- _.
  unfold char_matches in H2. cbn [ignorecase NOFLAGS] in H2.
  apply Ascii.eqb_eq in H2. subst c. now exists line.
Qed.






(** With chapters discovered out of order, the section of page 112 goes to
    the chapter starting at page 20, the first in the list that starts at
    or before it, not to the one starting at page 100. *)
Lemma out_of_order_assignment :
  process_line unordered_chapters scenario_b_line
  = [ mkChapter 9 "Appendix" 150 [];
      mkChapter 1 "General" 20 [scenario_b_section];
      mkChapter 5 "Malaria" 100 [] ].
Proof. vm_compute. reflexivity. Qed.

End TocFacts.

(* ================================================================== *)
(** * Properties of the validators and of treatment extraction *)
(* ================================================================== *)

Module ExtractorFacts.
Import PyStr Re Ocr Spec.
Local Open Scope Z_scope.

Lemma prefix_app (w post : string) : prefix w (w ++ post) = true.
Proof.
  induction w as [|a w IH]; simpl.
  - now destruct post.
  - destruct (ascii_dec a a); [assumption | contradiction].
Qed.

Lemma prefix_split (w s : string) :
  prefix w s = true -> exists post, s = w ++ post.
Proof.
  revert s. induction w as [|a w IH]; intros s H.
  - now exists s.
  - destruct s as [|b s]; simpl in H; [discriminate|].
    destruct (ascii_dec a b) as [->|]; [|discriminate].
    destruct (IH s H) as [post ->]. now exists post.
Qed.

Lemma contains_unfold (w s : string) :
  contains w s
  = (prefix w s ||
     match s with
     | EmptyString => false
     | String _ s' => contains w s'
     end)%bool.
Proof. now destruct s. Qed.

(** [needle in hay] holds exactly when [hay] has [needle] as a substring. *)
Lemma contains_spec (w s : string) :
  contains w s = true <-> exists pre post, s = pre ++ w ++ post.
Proof.
  split.
  - induction s as [|c s IH]; rewrite contains_unfold; intros H;
      apply orb_true_iff in H; destruct H as [H | H]; try discriminate.
    + apply prefix_split in H. destruct H as [post H].
      now exists EmptyString, post.
    + apply prefix_split in H. destruct H as [post H].
      now exists EmptyString, post.
    + destruct (IH H) as [pre [post ->]].
      now exists (String c pre), post.
  - intros [pre [post ->]].
    induction pre as [|c pre IH]; rewrite contains_unfold.
    + simpl append at 1. now rewrite prefix_app.
    + change (String c pre ++ w ++ post) with (String c (pre ++ w ++ post)).
      cbv iota. rewrite IH. apply orb_true_r.
Qed.

(** C8 as amended. The validator accepts a name exactly when it starts with
    a capital letter, has between 3 and 30 characters, and contains none of
    the stop-words as a substring. *)
Theorem medication_name_accepted_iff :
  forall name : string,
    _is_valid_medication_name name = true
    <-> (first_isupper name = true
         /\ 3 <= len name <= 30
         /\ forall w, In w skip_words ->
                      ~ exists pre post, name = pre ++ w ++ post).
Proof.
  intros name. unfold _is_valid_medication_name.
  destruct (Z.ltb_spec (len name) 3) as [H3 | H3]; cbn [orb].
  { split; [discriminate | intros [_ [? _]]; lia]. }
  destruct (Z.gtb_spec (len name) 30) as [H30 | H30]; cbv iota.
  { split; [discriminate | intros [_ [? _]]; lia]. }
  destruct (first_isupper name); cbn [negb]; cbv iota.
  2: { split; [discriminate | intros [? _]; discriminate]. }
  destruct (existsb (fun skip => contains skip name) skip_words) eqn:E.
  - split; [discriminate|]. intros [_ [_ H]]. exfalso.
    apply existsb_exists in E. destruct E as [w [Hw Hc]].
    apply (H w Hw). now apply contains_spec.
  - split; [|reflexivity]. intros _.
    split; [reflexivity|]. split; [lia|].
    intros w Hw Hsub. apply contains_spec in Hsub.
    assert (existsb (fun skip => contains skip name) skip_words = true)
      by (apply existsb_exists; now exists w).
    congruence.
Qed.

(** C8, the claim as stated fails: a name that starts with a capital, has
    twelve characters and equals no stop-word, but contains one, is
    refused. *)
Lemma medication_name_with_stop_word_inside_refused :
  first_isupper "Theophylline" = true
  /\ 3 <= len "Theophylline" <= 30
  /\ ~ In "Theophylline" skip_words
  /\ _is_valid_medication_name "Theophylline" = false.
Proof.
  split; [reflexivity|]. split; [vm_compute; split; discriminate|].
  split; [|reflexivity].
  simpl. intuition discriminate.
Qed.

Lemma classify_one_field (pattern cond : string) (page : Z) (txt : string) :
  truthy txt = true ->
  populated_fields (classify_treatment pattern cond page txt) = [txt].
Proof.
  intros H. unfold classify_treatment, populated_fields.
  repeat match goal with
         | |- context [if ?b then _ else _] => destruct b
         end;
    simpl; rewrite H; reflexivity.
Qed.

Lemma long_text_truthy (txt : string) : 5 < len txt -> truthy txt = true.
Proof.
  destruct txt; [unfold len; simpl; lia | reflexivity].
Qed.

(** What a record of the treatment step looks like. *)
Lemma treatment_record_shape (text cond : string) (page : Z)
      (t : MedicalTreatment) :
  In t (_extract_treatments_from_page text cond page) ->
  exists pattern mt,
    In pattern treatment_patterns
    /\ In mt (re_finditer pattern text IGNORECASE)
    /\ 5 < len (strip (group_str mt 1))
    /\ t = classify_treatment pattern cond page (strip (group_str mt 1)).
Proof.
  unfold _extract_treatments_from_page. intros H.
  apply in_flat_map in H. destruct H as [pattern [Hp H]].
  unfold treatments_of_pattern in H.
  apply in_flat_map in H. destruct H as [mt [Hm H]].
  destruct (Z.gtb_spec (len (strip (group_str mt 1))) 5) as [Hlen | Hlen];
    [|destruct H].
  destruct H as [<- | []].
  exists pattern, mt. repeat split; assumption.
Qed.

(** C10. Every record of the treatment step has exactly one non-empty field
    among first_line, second_line, dosage and duration: the marker whose
    pattern matched determines the field (first-line and drug markers fill
    first_line, second-line and alternative markers second_line, the dose
    marker dosage, the duration marker duration), the field holds the
    stripped text the marker introduces, the other three fields are empty,
    and the text has more than five characters. *)
Theorem treatment_record_has_one_field :
  forall (text cond : string) (page : Z) (t : MedicalTreatment),
    In t (_extract_treatments_from_page text cond page) ->
    exists pattern field mt txt,
      In (pattern, field) marker_fields
      /\ In mt (re_finditer pattern text IGNORECASE)
      /\ txt = strip (group_str mt 1)
      /\ t = record_with field cond page txt
      /\ populated_fields t = [txt]
      /\ 5 < len txt.
Proof.
  intros text cond page t H.
  apply treatment_record_shape in H.
  destruct H as [pattern [mt [Hp [Hm [Hlen ->]]]]].
  pose proof (classify_one_field pattern cond page _
                (long_text_truthy _ Hlen)) as Hone.
  assert (Hf : exists field,
             In (pattern, field) marker_fields
             /\ classify_treatment pattern cond page (strip (group_str mt 1))
                = record_with field cond page (strip (group_str mt 1))).
  { generalize (strip (group_str mt 1)). intros txt.
    destruct Hp as [<- | [<- | [<- | [<- | [<- | [<- | []]]]]]].
    - exists FirstLine. split; [vm_compute; tauto | vm_compute; reflexivity].
    - exists SecondLine. split; [vm_compute; tauto | vm_compute; reflexivity].
    - exists SecondLine. split; [vm_compute; tauto | vm_compute; reflexivity].
    - exists FirstLine. split; [vm_compute; tauto | vm_compute; reflexivity].
    - exists Dosage. split; [vm_compute; tauto | vm_compute; reflexivity].
    - exists Duration. split; [vm_compute; tauto | vm_compute; reflexivity]. }
  destruct Hf as [field [Hin Hrec]].
  exists pattern, field, mt, (strip (group_str mt 1)).
  repeat split; assumption.
Qed.

Lemma treatment_record_has_one_field_witness :
  exists pattern field mt txt,
    In (pattern, field) marker_fields
    /\ In mt (re_finditer pattern "First-line: Artesunate 2.4mg/kg IV"
                          IGNORECASE)
    /\ txt = strip (group_str mt 1)
    /\ mkTreatment "Severe Malaria" "Artesunate 2" "" "" "" 5
       = record_with field "Severe Malaria" 5 txt
    /\ populated_fields
         (mkTreatment "Severe Malaria" "Artesunate 2" "" "" "" 5) = [txt]
    /\ 5 < len txt.
Proof.
  apply (treatment_record_has_one_field
           "First-line: Artesunate 2.4mg/kg IV" "Severe Malaria" 5).
  vm_compute. left. reflexivity.
Defined.

End ExtractorFacts.

(* ================================================================== *)
(** * Properties of the page scan *)
(* ================================================================== *)

Module ScanFacts.
Import PyStr Re Ocr Spec Examples.
Local Open Scope Z_scope.

Lemma scan_snoc (pre : list (Z * string)) (pg : Z * string) :
  scan_pages (pre ++ [pg])%list = scan_page (scan_pages pre) pg.
Proof.
  unfold scan_pages. now rewrite fold_left_app.
Qed.

Lemma most_recent_snoc (pre : list (Z * string)) (pg : Z * string) :
  most_recent_condition (pre ++ [pg])%list
  = match rev (_extract_conditions_from_page (snd pg) (fst pg)) with
    | c :: _ => Some c
    | [] => most_recent_condition pre
    end.
Proof.
  unfold most_recent_condition, discovered.
  rewrite flat_map_app, rev_app_distr. simpl flat_map.
  rewrite app_nil_r.
  now destruct (rev (_extract_conditions_from_page (snd pg) (fst pg))).
Qed.

(** The slot of the loop holds the most recently discovered condition. *)
Lemma current_condition_is_most_recent (pages : list (Z * string)) :
  current_condition (scan_pages pages) = most_recent_condition pages.
Proof.
  induction pages as [|pg pre IH] using rev_ind.
  - reflexivity.
  - rewrite scan_snoc, most_recent_snoc. destruct pg as [page_no text].
    unfold scan_page. cbn [current_condition fst snd].
    now rewrite IH.
Qed.

Lemma classify_provenance (pattern cond : string) (page : Z) (txt : string) :
  condition_name (classify_treatment pattern cond page txt) = cond
  /\ t_page_number (classify_treatment pattern cond page txt) = page.
Proof.
  unfold classify_treatment.
  repeat match goal with
         | |- context [if ?b then _ else _] => destruct b
         end; split; reflexivity.
Qed.

(** The treatments a page adds to the scan. *)
Lemma scan_page_treatments (pre : list (Z * string)) (page_no : Z)
      (text : string) :
  treatments (scan_pages (pre ++ [(page_no, text)])%list)
  = (treatments (scan_pages pre)
     ++ match most_recent_condition (pre ++ [(page_no, text)])%list with
        | Some c => _extract_treatments_from_page text (name c) page_no
        | None => []
        end)%list.
Proof.
  rewrite most_recent_snoc, scan_snoc. cbn [fst snd].
  unfold scan_page. cbn [treatments].
  rewrite current_condition_is_most_recent.
  reflexivity.
Qed.

(** C5 as amended. In a sequential scan, a page is searched for treatment
    markers only when a condition has been discovered on it or before it;
    then every marker match whose capture has more than five characters
    becomes a record tagged with the name of the most recently discovered
    condition.  While no condition has been discovered the page adds no
    treatment record. *)
Theorem scan_tags_treatments_with_recent_condition :
  forall (pre : list (Z * string)) (page_no : Z) (text : string),
    let before := scan_pages pre in
    let after := scan_pages (pre ++ [(page_no, text)])%list in
    match most_recent_condition (pre ++ [(page_no, text)])%list with
    | None => treatments after = treatments before
    | Some c =>
        exists emitted,
          treatments after = (treatments before ++ emitted)%list
          /\ (forall t, In t emitted ->
                        condition_name t = name c /\ t_page_number t = page_no)
          /\ (forall pattern mt,
                 In pattern treatment_patterns ->
                 In mt (re_finditer pattern text IGNORECASE) ->
                 5 < len (strip (group_str mt 1)) ->
                 exists t, In t emitted
                           /\ populated_fields t = [strip (group_str mt 1)])
    end.
Proof.
  intros pre page_no text before after. subst before after.
  rewrite scan_page_treatments.
  destruct (most_recent_condition (pre ++ [(page_no, text)])%list) as [c|].
  2: { now rewrite app_nil_r. }
  exists (_extract_treatments_from_page text (name c) page_no).
  split; [reflexivity|]. split.
  - intros t Ht. apply ExtractorFacts.treatment_record_shape in Ht.
    destruct Ht as [pattern [mt [_ [_ [_ ->]]]]].
    apply classify_provenance.
  - intros pattern mt Hp Hm Hlen.
    exists (classify_treatment pattern (name c) page_no
              (strip (group_str mt 1))).
    split.
    + unfold _extract_treatments_from_page.
      apply in_flat_map. exists pattern. split; [assumption|].
      unfold treatments_of_pattern. apply in_flat_map.
      exists mt. split; [assumption|].
      destruct (Z.gtb_spec (len (strip (group_str mt 1))) 5); [|lia].
      now left.
    + apply ExtractorFacts.classify_one_field.
      now apply ExtractorFacts.long_text_truthy.
Qed.

(** C5, the claim as stated fails: a page with a first-line marker, scanned
    before any condition was discovered, leaves no treatment record. *)
Lemma marker_without_condition_emits_nothing :
  re_finditer "First[- ]line[:\s]+([^.\n]+)" (snd marker_only_page) IGNORECASE
  <> []
  /\ most_recent_condition [marker_only_page] = None
  /\ treatments (scan_pages [marker_only_page]) = [].
Proof.
  split; [vm_compute; discriminate|].
  split; vm_compute; reflexivity.
Qed.

(** C6, the claim as stated fails: the label of scenario C is none of the
    treatment markers, so its page yields no record at all, where the claim
    expects one with first_line set. *)
Lemma scenario_c_emits_nothing :
  _extract_treatments_from_page scenario_c_text "Severe Malaria" 1 = []
  /\ map (fun pattern => re_finditer pattern scenario_c_text IGNORECASE)
         treatment_patterns
     = [[]; []; []; []; []; []].
Proof.
  split; vm_compute; reflexivity.
Qed.

(** C6 as amended. With current condition Severe Malaria, the page text of
    scenario C yields no treatment record; under the first-line marker the
    same text yields one record, tagged with the condition, whose
    first_line is the capture up to the first full stop. *)
Theorem first_line_marker_scenario :
  forall page_num : Z,
    _extract_treatments_from_page scenario_c_text "Severe Malaria" page_num = []
    /\ _extract_treatments_from_page first_line_text "Severe Malaria" page_num
       = [mkTreatment "Severe Malaria" "Artesunate 2" "" "" "" page_num].
Proof.
  intros page_num. split; vm_compute; reflexivity.
Qed.

End ScanFacts.

(* ================================================================== *)
(** * Properties of section-content extraction *)
(* ================================================================== *)

Module SectionFacts.
Import PyStr Re Ocr Spec Shape Examples Pages ReFacts.

Lemma slice_to_short (n : nat) (s : string) :
  String.length s <= n -> slice_to n s = s.
Proof.
  unfold slice_to. revert s.
  induction n as [|n IH]; intros [|c s]; simpl; intros H;
    try reflexivity; try lia.
  rewrite IH; [reflexivity | lia].
Qed.

Lemma cut_is_slice (n : nat) (s : string) :
  (if (n <? String.length s)%nat then slice_to n s else s) = slice_to n s.
Proof.
  destruct (Nat.ltb_spec n (String.length s)); [reflexivity|].
  symmetry. now apply slice_to_short.
Qed.

Lemma accepts_T_cf (l : list ascii) :
  accepts IGNORECASE_DOTALL T_cf l = stop_cf l.
Proof.
  unfold T_cf. rewrite accepts_alt_of.
  unfold stop_of, stop_cf, cf_words.
  cbn [map existsb fst snd negb orb].
  rewrite !andb_true_r. now rewrite orb_false_r, !orb_assoc.
Qed.

Lemma accepts_T_generic (l : list ascii) :
  accepts IGNORECASE_DOTALL T_generic l = stop_generic l.
Proof. apply accepts_alt_of. Qed.

Lemma cf_patterns_shape :
  Forall2 (fun pattern kw =>
             compile pattern = (kw_ast (list_ascii_of_string kw) T_cf, 1))
          cf_patterns cf_keywords.
Proof. repeat constructor; vm_compute; reflexivity. Qed.

Lemma clinical_features_loop_spec (text : string)
      (patterns keywords : list string) :
  Forall2 (fun pattern kw =>
             compile pattern = (kw_ast (list_ascii_of_string kw) T_cf, 1))
          patterns keywords ->
  clinical_features_loop text patterns
  = match first_hit keywords text with
    | Some after => tidy 500 (take_until stop_cf after)
    | None => ""
    end.
Proof.
  induction 1 as [|pattern kw patterns keywords Hc _ IH];
    cbn [clinical_features_loop first_hit]; [reflexivity|].
  pose proof (re_search_keyword IGNORECASE_DOTALL eq_refl eq_refl T_cf
                eq_refl eq_refl pattern _ _ text Hc) as H.
  destruct (after_keyword (list_ascii_of_string kw)
                          (list_ascii_of_string text)) as [a|].
  - destruct H as [mt [-> Hg]]. rewrite Hg, cut_is_slice.
    unfold tidy. now rewrite (take_until_ext _ _ a accepts_T_cf).
  - now rewrite H.
Qed.

Lemma generic_patterns_shape :
  Forall (fun kw =>
            compile (section_pattern_for kw)
            = (kw_ast (list_ascii_of_string kw) T_generic, 1))
         all_keywords.
Proof. repeat constructor; vm_compute; reflexivity. Qed.

(** What the loop over the keywords returns, capture end included. *)
Lemma section_content_loop_spec (text : string) (keywords : list string) :
  Forall (fun kw =>
            compile (section_pattern_for kw)
            = (kw_ast (list_ascii_of_string kw) T_generic, 1))
         keywords ->
  section_content_loop text keywords
  = match first_hit keywords text with
    | Some after => tidy 300 (take_until stop_generic after)
    | None => ""
    end.
Proof.
  induction 1 as [|kw keywords Hc _ IH];
    cbn [section_content_loop first_hit]; [reflexivity|].
  assert (He : accepts IGNORECASE_DOTALL T_generic [] = true)
    by (vm_compute; reflexivity).
  pose proof (re_search_keyword IGNORECASE_DOTALL eq_refl eq_refl T_generic
                (alt_of_simple _) He _ _ _ text Hc) as H.
  destruct (after_keyword (list_ascii_of_string kw)
                          (list_ascii_of_string text)) as [a|].
  - destruct H as [mt [-> Hg]]. rewrite Hg, cut_is_slice.
    unfold tidy. now rewrite (take_until_ext _ _ a accepts_T_generic).
  - now rewrite H.
Qed.

Lemma lookup_section_shape (section_type : string) (keywords : list string) :
  lookup_section section_type medical_sections = Some keywords ->
  Forall (fun kw =>
            compile (section_pattern_for kw)
            = (kw_ast (list_ascii_of_string kw) T_generic, 1))
         keywords.
Proof.
  unfold medical_sections. cbn [lookup_section].
  repeat match goal with
         | |- context [String.eqb ?a ?b] => destruct (String.eqb a b)
         end;
    intros H; try discriminate; injection H as <-;
    repeat constructor; vm_compute; reflexivity.
Qed.

Lemma cut_bounded (n : nat) (s : string) :
  String.length (if (n <? String.length s)%nat then slice_to n s else s) <= n.
Proof.
  rewrite cut_is_slice. apply ChunkFacts.slice_to_length.
Qed.

Lemma section_content_bounded (text section_type : string) :
  String.length (_extract_section_content text section_type) <= 300.
Proof.
  unfold _extract_section_content.
  destruct (lookup_section section_type medical_sections) as [keywords|];
    [|simpl; lia].
  induction keywords as [|kw keywords IH]; cbn [section_content_loop];
    [simpl; lia|].
  destruct (re_search (section_pattern_for kw) text IGNORECASE_DOTALL);
    [apply cut_bounded | exact IH].
Qed.

Lemma clinical_features_bounded (text condition_name : string) :
  String.length (_extract_clinical_features text condition_name) <= 500.
Proof.
  unfold _extract_clinical_features.
  induction cf_patterns as [|pattern patterns IH];
    cbn [clinical_features_loop]; [simpl; lia|].
  destruct (re_search pattern text IGNORECASE_DOTALL);
    [apply cut_bounded | exact IH].
Qed.

Lemma take_until_longer (stop1 stop2 : list ascii -> bool) (l : list ascii) :
  (forall l', stop1 l' = true -> stop2 l' = true) ->
  exists more, take_until stop1 l = (take_until stop2 l ++ more)%list.
Proof.
  intros H. induction l as [|x l IH]; cbn [take_until]; [now exists []|].
  destruct (stop2 (x :: l)) eqn:E2.
  - now exists (if stop1 (x :: l) then [] else x :: take_until stop1 l).
  - destruct (stop1 (x :: l)) eqn:E1; [apply H in E1; congruence|].
    destruct IH as [more ->]. now exists more.
Qed.

Lemma stop_of_keyword (ws : list (list ascii * bool)) (l : list ascii) :
  existsb
    (fun wa : list ascii * bool =>
       starts_ci (fst wa) l
       && (negb (snd wa) || at_eol (skipn (List.length (fst wa)) l))) ws
  = true ->
  existsb (fun w => starts_ci w l) (map fst ws) = true.
Proof.
  induction ws as [|wa ws IH]; cbn [existsb map]; [discriminate|].
  intros H. apply orb_true_iff in H. apply orb_true_iff.
  destruct H as [H | H]; [left | right; now apply IH].
  now apply andb_true_iff in H.
Qed.

Lemma keyword_at_words (l : list ascii) :
  keyword_at l
  = existsb (fun w => starts_ci w l) (map fst generic_words).
Proof.
  unfold keyword_at.
  replace (map fst generic_words)
    with (map list_ascii_of_string all_keywords)
    by (vm_compute; reflexivity).
  induction all_keywords as [|kw kws IH]; cbn [existsb map];
    [reflexivity | now rewrite IH].
Qed.

(** The capture of a pattern of line 367 ends at a keyword or at the end of
    the text, never elsewhere. *)
Lemma stop_generic_any (l : list ascii) :
  stop_generic l = true -> stop_any_keyword l = true.
Proof.
  unfold stop_generic, stop_of. intros H.
  change (stop_any_keyword l) with (keyword_at l || at_eol l).
  apply orb_true_iff in H. apply orb_true_iff.
  destruct H as [H | H]; [left | now right].
  rewrite keyword_at_words. now apply stop_of_keyword.
Qed.

Lemma stop_generic_no_keyword (l : list ascii) :
  keyword_at l = false -> stop_generic l = at_eol l.
Proof.
  intros Hk. unfold stop_generic, stop_of.
  destruct (existsb _ generic_words) eqn:E; [|reflexivity].
  apply stop_of_keyword in E. rewrite <- keyword_at_words in E. congruence.
Qed.

(** Without a keyword anywhere in the text, the capture of a pattern of
    line 367 ends where the specification says: at the end of the text. *)
Lemma no_keyword_same_end (l : list ascii) :
  keyword_in l = false ->
  take_until stop_generic l = take_until stop_any_keyword l.
Proof.
  induction l as [|x l IH]; cbn [keyword_in take_until]; [reflexivity|].
  intros H. apply orb_false_iff in H. destruct H as [Hk Hin].
  rewrite (stop_generic_no_keyword _ Hk).
  change (stop_any_keyword (x :: l)) with (keyword_at (x :: l) || at_eol (x :: l)).
  rewrite Hk. cbn [orb]. now rewrite (IH Hin).
Qed.

(** C7 as amended. The generic extractor tries the keyword synonyms of the
    section type in order; for the first one that occurs in the text, letter
    case ignored, followed by at least one colon or whitespace character, it
    returns the text that follows those separators at least up to the next
    occurrence of any keyword of any section type, and exactly up to the
    end of the text when no keyword of any section type occurs in it,
    stripped, with whitespace collapsed and cut at 300 characters; it
    returns the empty text when no synonym occurs so, or the section type
    is unknown.  The clinical-features call site does the same with its own
    three synonyms, ends the capture at the next occurrence of
    investigations, treatment or complications or at the end of the text,
    and cuts at 500 characters. *)
Theorem section_content_after_first_keyword :
  (forall text section_type : string,
      match lookup_section section_type medical_sections with
      | None => _extract_section_content text section_type = ""
      | Some keywords =>
          match first_hit keywords text with
          | None => _extract_section_content text section_type = ""
          | Some after =>
              exists more rest,
                after
                = (take_until stop_any_keyword after ++ more ++ rest)%list
                /\ _extract_section_content text section_type
                   = tidy 300 (take_until stop_any_keyword after ++ more)
                /\ (keyword_in after = false ->
                    more = []
                    /\ _extract_section_content text section_type
                       = spec_section_content 300 keywords text)
          end
      end)
  /\ (forall text condition_name : string,
         _extract_clinical_features text condition_name
         = match first_hit cf_keywords text with
           | None => ""
           | Some after => tidy 500 (take_until stop_cf after)
           end)
  /\ (forall text section_type : string,
         String.length (_extract_section_content text section_type) <= 300)
  /\ (forall text condition_name : string,
         String.length (_extract_clinical_features text condition_name) <= 500).
Proof.
  split; [|split; [|split]].
  - intros text section_type. unfold _extract_section_content.
    destruct (lookup_section section_type medical_sections) as [keywords|] eqn:E;
      [|reflexivity].
    rewrite (section_content_loop_spec text keywords
               (lookup_section_shape _ _ E)).
    unfold spec_section_content.
    destruct (first_hit keywords text) as [after|]; [|reflexivity].
    destruct (take_until_longer stop_generic stop_any_keyword after
                stop_generic_any) as [more Hmore].
    exists more, (skipn (List.length (take_until stop_generic after)) after).
    split; [|split].
    + rewrite app_assoc, <- Hmore. apply take_until_split.
    + now rewrite Hmore.
    + intros Hno. pose proof (no_keyword_same_end after Hno) as Hsame.
      split; [|now rewrite Hsame].
      rewrite Hsame in Hmore.
      rewrite <- (app_nil_r (take_until stop_any_keyword after)) in Hmore at 1.
      apply app_inv_head in Hmore. now symmetry.
  - intros text condition_name. unfold _extract_clinical_features.
    rewrite (clinical_features_loop_spec text _ _ cf_patterns_shape).
    now destruct (first_hit cf_keywords text).
  - apply section_content_bounded.
  - apply clinical_features_bounded.
Qed.

(** A text that holds no keyword after the one that introduces it is
    returned up to its end. *)
Lemma capture_to_end_of_text :
  first_hit ["treatment"] treatment_to_the_end
  = Some (list_ascii_of_string "rest and fluids")
  /\ keyword_in (list_ascii_of_string "rest and fluids") = false
  /\ _extract_section_content treatment_to_the_end "treatment"
     = "rest and fluids".
Proof. repeat split; vm_compute; reflexivity. Qed.

(** C7, the claim as stated fails.  In the generic extractor the capture
    runs past the keyword of another section type: the keywords of line 367
    are joined with a dollar sign before the bar, so all but the last only
    end the capture at the end of the text.  At the clinical-features call
    site only three words end the capture, and management is not one of
    them.  In both cases the specification's reading gives the shorter
    text. *)
Lemma capture_runs_past_next_keyword :
  _extract_section_content treatment_then_investigations "treatment"
  = "rest. Investigations: none"
  /\ spec_section_content 300
       [ "treatment"; "management"; "therapy"; "drug therapy";
         "pharmacological treatment"; "medication" ]
       treatment_then_investigations
     = "rest."
  /\ _extract_clinical_features features_then_management "Malaria"
     = "fever. Management: rest"
  /\ spec_section_content 500
       [ "clinical features"; "signs and symptoms"; "clinical presentation";
         "presenting features"; "clinical manifestations" ]
       features_then_management
     = "fever.".
Proof.
  repeat split; vm_compute; reflexivity.
Qed.

End SectionFacts.

(* ================================================================== *)
(** * Further properties of the resolver *)
(* ================================================================== *)

Module ResolverLaws.
Import PyStr Rag Spec Notions Examples.
Local Open Scope Z_scope.
Local Open Scope list_scope.

Lemma section_fold_none (p : Z) (secs : list SectionD) (st : option string) :
  fold_left (section_step p) secs st = None ->
  st = None /\ Forall (fun sec => p < page sec) secs.
Proof.
  revert st. induction secs as [|sec secs IH]; simpl; intros st H.
  - split; [assumption | constructor].
  - apply IH in H. destruct H as [H1 H2]. unfold section_step in H1.
    destruct (Z.geb_spec p (page sec)); [discriminate|].
    split; [assumption|]. constructor; [lia | assumption].
Qed.

(** Where a section number kept by the inner loop comes from. *)
Lemma section_fold_some (p : Z) (secs : list SectionD) (st : option string)
      (s : string) :
  fold_left (section_step p) secs st = Some s ->
  st = Some s
  \/ exists sec, In sec secs /\ page sec <= p /\ sec_number sec = s.
Proof.
  revert st. induction secs as [|sec secs IH]; simpl; intros st H.
  - now left.
  - apply IH in H. destruct H as [H | [sec' [Hin [Hle Hn]]]].
    + unfold section_step in H.
      destruct (Z.geb_spec p (page sec)).
      * right. exists sec. injection H as <-. repeat split; [now left | lia].
      * now left.
    + right. exists sec'. repeat split; [now right | assumption | assumption].
Qed.

Lemma resolve_cons_invariant (p : Z) (chapters : list Chapter)
      (st : option Z * option string) :
  (fst st = None -> snd st = None) ->
  fst (fold_left (chapter_step p) chapters st) = None ->
  snd (fold_left (chapter_step p) chapters st) = None.
Proof.
  revert st. induction chapters as [|c l IH]; simpl; intros st Hst.
  - exact Hst.
  - apply IH. unfold chapter_step.
    destruct (p >=? start_page c); [discriminate | exact Hst].
Qed.

(** X1. The resolver never answers with a section and no chapter. *)
Theorem resolver_no_section_without_chapter :
  forall (chapters : list Chapter) (p : Z),
    fst (_find_chapter_section chapters p) = None ->
    snd (_find_chapter_section chapters p) = None.
Proof.
  intros chapters p. unfold _find_chapter_section.
  now apply resolve_cons_invariant.
Qed.

Lemma resolver_no_section_without_chapter_witness :
  fst (_find_chapter_section example_chapters 5) = None
  /\ snd (_find_chapter_section example_chapters 5) = None.
Proof.
  assert (H : fst (_find_chapter_section example_chapters 5) = None)
    by reflexivity.
  split; [exact H|].
  apply (resolver_no_section_without_chapter example_chapters 5 H).
Defined.

Lemma resolve_skip (p : Z) (post : list Chapter)
      (st : option Z * option string) :
  Forall (fun c => p < start_page c) post ->
  fold_left (chapter_step p) post st = st.
Proof.
  intros H. revert st. induction H as [|c l Hc _ IH]; simpl; intros st.
  - reflexivity.
  - rewrite IH. unfold chapter_step.
    destruct (Z.geb_spec p (start_page c)); [lia | reflexivity].
Qed.

(** X2. Whatever the order of the list, the chapter the resolver answers
    with is the last one in the list that starts at or before the page. *)
Theorem resolver_takes_last_chapter_in_list_order :
  forall (pre post : list Chapter) (c : Chapter) (p : Z),
    start_page c <= p ->
    Forall (fun c' => p < start_page c') post ->
    fst (_find_chapter_section (pre ++ c :: post) p) = Some (number c).
Proof.
  intros pre post c p Hc Hpost. unfold _find_chapter_section.
  rewrite fold_left_app. simpl. rewrite (resolve_skip p post _ Hpost).
  unfold chapter_step. destruct (Z.geb_spec p (start_page c)); [|lia].
  reflexivity.
Qed.


Lemma resolve_section_source (p : Z) (chapters : list Chapter)
      (st : option Z * option string) (s : string) :
  snd (fold_left (chapter_step p) chapters st) = Some s ->
  snd st = Some s
  \/ exists c sec, In c chapters /\ start_page c <= p /\ In sec (sections c)
                   /\ page sec <= p /\ sec_number sec = s.
Proof.
  revert st. induction chapters as [|c l IH]; simpl; intros st H.
  - now left.
  - apply IH in H. destruct H as [H | [c' [sec [Hc [Hs [Hin [Hp Hn]]]]]]].
    + unfold chapter_step in H.
      destruct (Z.geb_spec p (start_page c)) as [Hge | Hlt]; [|now left].
      cbn [snd] in H. apply section_fold_some in H.
      destruct H as [H | [sec [Hin [Hp Hn]]]]; [now left|].
      right. exists c, sec.
      split; [now left|]. split; [lia|]. now repeat split.
    + right. exists c', sec. repeat split; try assumption. now right.
Qed.

(** X3. A section the resolver answers with is a section of some chapter
    of the list that starts at or before the page, and its own page is at
    or before the page. *)
Theorem resolver_section_is_at_or_before_page :
  forall (chapters : list Chapter) (p : Z) (s : string),
    snd (_find_chapter_section chapters p) = Some s ->
    exists c sec,
      In c chapters /\ start_page c <= p /\ In sec (sections c)
      /\ page sec <= p /\ sec_number sec = s.
Proof.
  intros chapters p s H. unfold _find_chapter_section in H.
  apply resolve_section_source in H.
  destruct H as [H | H]; [discriminate | exact H].
Qed.

Lemma resolver_section_is_at_or_before_page_witness :
  snd (_find_chapter_section example_chapters 60) = Some "101"
  /\ exists c sec,
       In c example_chapters /\ start_page c <= 60 /\ In sec (sections c)
       /\ page sec <= 60 /\ sec_number sec = "101".
Proof.
  assert (H : snd (_find_chapter_section example_chapters 60) = Some "101")
    by reflexivity.
  split; [exact H|].
  apply (resolver_section_is_at_or_before_page example_chapters 60 "101" H).
Defined.

Lemma section_fold_last (p : Z) (spre spost : list SectionD) (sec : SectionD)
      (st : option string) :
  page sec <= p ->
  Forall (fun sec' => p < page sec') spost ->
  fold_left (section_step p) (spre ++ sec :: spost) st
  = Some (sec_number sec).
Proof.
  intros Hsec Hpost. rewrite fold_left_app. simpl.
  unfold section_step at 2.
  destruct (Z.geb_spec p (page sec)); [|lia].
  clear Hsec. induction Hpost as [|x l Hx _ IH]; simpl; [reflexivity|].
  unfold section_step at 2.
  destruct (Z.geb_spec p (page x)); [lia | exact IH].
Qed.

(** X4. When the last chapter of the list that starts at or before the
    page has a section at or before the page, the resolver answers with
    that chapter and with the last such section of it. *)
Theorem resolver_section_of_resolved_chapter :
  forall (pre post : list Chapter) (c : Chapter)
         (spre spost : list SectionD) (sec : SectionD) (p : Z),
    start_page c <= p ->
    Forall (fun c' => p < start_page c') post ->
    sections c = spre ++ sec :: spost ->
    page sec <= p ->
    Forall (fun sec' => p < page sec') spost ->
    _find_chapter_section (pre ++ c :: post) p
    = (Some (number c), Some (sec_number sec)).
Proof.
  intros pre post c spre spost sec p Hc Hpost Hs Hsec Hspost.
  unfold _find_chapter_section.
  rewrite fold_left_app. simpl. rewrite (resolve_skip p post _ Hpost).
  unfold chapter_step. destruct (Z.geb_spec p (start_page c)); [|lia].
  rewrite Hs. now rewrite section_fold_last.
Qed.

Lemma resolver_section_of_resolved_chapter_witness :
  _find_chapter_section example_chapters 30 = (Some 1, Some "101").
Proof.
  apply (resolver_section_of_resolved_chapter
           [] [mkChapter 2 "Malaria" 50 []]
           (mkChapter 1 "General" 10 [mkSection "101" "Fever" 12])
           [] [] (mkSection "101" "Fever" 12) 30).
  - simpl. lia.
  - repeat constructor.
  - reflexivity.
  - simpl. lia.
  - constructor.
Defined.

Lemma resolver_takes_last_chapter_in_list_order_witness :
  fst (_find_chapter_section Examples.unordered_chapters 120) = Some 5.
Proof.
  apply (resolver_takes_last_chapter_in_list_order
           [mkChapter 9 "Appendix" 150 []; mkChapter 1 "General" 20 []] []
           (mkChapter 5 "Malaria" 100 []) 120).
  - simpl. lia.
  - constructor.
Defined.

End ResolverLaws.

(* ================================================================== *)
(** * Further properties of structure parsing *)
(* ================================================================== *)

Module StructureLaws.
Import PyStr Re Rag Toc Spec Notions Examples.
Local Open Scope Z_scope.
Local Open Scope list_scope.

Lemma assign_section_skeleton (chapters : list Chapter) (section : SectionD) :
  map skeleton (assign_section chapters section) = map skeleton chapters.
Proof.
  induction chapters as [|c l IH]; simpl; [reflexivity|].
  destruct (start_page c <=? page section); simpl; [reflexivity|].
  now rewrite IH.
Qed.

Lemma assign_section_count (chapters : list Chapter) (section : SectionD) :
  section_count (assign_section chapters section)
  = (section_count chapters
     + if existsb (reaches section) chapters then 1 else 0)%nat.
Proof.
  unfold section_count.
  induction chapters as [|c l IH]; simpl; [reflexivity|].
  unfold reaches at 1.
  destruct (start_page c <=? page section); simpl.
  - rewrite !length_app. simpl. lia.
  - rewrite !length_app, IH. lia.
Qed.

(** X5. Assigning a section leaves the number, title and start page of
    every chapter, and their order, as they were; the total number of
    sections grows by one when some chapter starts at or before the
    section's page, and stays as it was otherwise (the section is then
    dropped). *)
Theorem assign_section_adds_at_most_one :
  forall (chapters : list Chapter) (section : SectionD),
    map skeleton (assign_section chapters section) = map skeleton chapters
    /\ section_count (assign_section chapters section)
       = (section_count chapters
          + if existsb (reaches section) chapters then 1 else 0)%nat.
Proof.
  intros. split; [apply assign_section_skeleton | apply assign_section_count].
Qed.

(** X6. With the chapters in non-decreasing order of start page, a section
    that is assigned at all is assigned to the first chapter of the list. *)
Theorem ascending_chapters_send_sections_to_first :
  forall (c0 : Chapter) (rest : list Chapter) (section : SectionD),
    ascending (c0 :: rest) ->
    (exists c, In c (c0 :: rest) /\ start_page c <= page section) ->
    assign_section (c0 :: rest) section = with_section c0 section :: rest.
Proof.
  intros c0 rest section Hs [c [Hin Hc]].
  apply StronglySorted_inv in Hs. destruct Hs as [_ Hall].
  rewrite Forall_forall in Hall.
  assert (start_page c0 <= page section).
  { destruct Hin as [<- | Hin]; [assumption|]. specialize (Hall _ Hin). lia. }
  simpl. destruct (Z.leb_spec (start_page c0) (page section)); [|lia].
  reflexivity.
Qed.

Lemma ascending_chapters_send_sections_to_first_witness :
  assign_section example_chapters scenario_b_section
  = [ with_section (mkChapter 1 "General" 10 [mkSection "101" "Fever" 12])
                   scenario_b_section;
      mkChapter 2 "Malaria" 50 [] ].
Proof.
  apply (ascending_chapters_send_sections_to_first
           (mkChapter 1 "General" 10 [mkSection "101" "Fever" 12])
           [mkChapter 2 "Malaria" 50 []] scenario_b_section).
  - unfold ascending. repeat constructor; simpl; lia.
  - exists (mkChapter 2 "Malaria" 50 []). split; [right; now left|].
    simpl. lia.
Defined.

Lemma resolve_sectionless (p : Z) (rest : list Chapter) (n : Z)
      (s : option string) :
  Forall (fun c => sections c = []) rest ->
  snd (fold_left (chapter_step p) rest (Some n, s)) = s.
Proof.
  intros H. revert n. induction H as [|c l Hc _ IH]; simpl; intros n.
  - reflexivity.
  - unfold chapter_step at 2. destruct (p >=? start_page c).
    + rewrite Hc. simpl. apply IH.
    + apply IH.
Qed.

(** X7. Assignment followed by resolution: when the first chapter starts
    at or before a section's page and the later chapters hold no sections,
    the resolver, asked for the section's page after the section was
    assigned, answers with that section. *)
Theorem assigned_section_is_resolved :
  forall (c0 : Chapter) (rest : list Chapter) (section : SectionD),
    start_page c0 <= page section ->
    Forall (fun c => sections c = []) rest ->
    snd (_find_chapter_section (assign_section (c0 :: rest) section)
                               (page section))
    = Some (sec_number section).
Proof.
  intros c0 rest section Hc Hrest.
  simpl. destruct (Z.leb_spec (start_page c0) (page section)); [|lia].
  unfold _find_chapter_section. simpl.
  unfold chapter_step at 2. cbn [start_page sections snd].
  destruct (Z.geb_spec (page section) (start_page c0)); [|lia].
  rewrite (resolve_sectionless _ _ _ _ Hrest).
  apply ResolverLaws.section_fold_last; [lia | constructor].
Qed.

Lemma assigned_section_is_resolved_witness :
  snd (_find_chapter_section
         (assign_section example_chapters scenario_b_section) 112)
  = Some "186".
Proof.
  apply (assigned_section_is_resolved
           (mkChapter 1 "General" 10 [mkSection "101" "Fever" 12])
           [mkChapter 2 "Malaria" 50 []] scenario_b_section).
  - simpl. lia.
  - repeat constructor.
Defined.

(** X8. Reading a line never drops or reorders chapters and never alters
    the number, title or start page of a chapter already read: it adds at
    most one chapter, at the end. *)
Theorem process_line_only_appends :
  forall (chapters : list Chapter) (line : string),
    exists extra,
      (List.length extra <= 1)%nat
      /\ map skeleton (process_line chapters line)
         = map skeleton chapters ++ extra.
Proof.
  intros chapters line. unfold process_line.
  destruct (chapter_of_line line) as [c|];
    destruct (section_of_line line) as [sec|];
    rewrite ?assign_section_skeleton, ?map_app.
  - exists [skeleton c]. split; [simpl; lia | reflexivity].
  - exists [skeleton c]. split; [simpl; lia | reflexivity].
  - exists []. split; [simpl; lia | now rewrite app_nil_r].
  - exists []. split; [simpl; lia | now rewrite app_nil_r].
Qed.

End StructureLaws.

(* ================================================================== *)
(** * Loops of the matcher over a character class *)
(* ================================================================== *)

Module LoopFacts.
Import PyStr Re Shape LineShape ReFacts.
Local Open Scope list_scope.
Local Open Scope nat_scope.

Lemma good_final (tl : list ascii) :
  good (fun s => Some s) tl (fun c => c).
Proof. intros s _. now exists s. Qed.

Lemma good_eps (fl : flags) (k : kont) (tl : list ascii) F :
  good k tl F -> good (m fl REps k) tl F.
Proof. intros H s E. exact (H s E). Qed.

Lemma good_step (p : ascii -> bool) (k : kont) (x : ascii) (tl : list ascii) F :
  p x = true -> good k tl F -> good (step_char p k) (x :: tl) F.
Proof.
  intros Hp Hk s E. rewrite (step_char_cons _ _ _ _ _ E), Hp.
  destruct (Hk (advance s x tl) eq_refl) as [e [He Hc]].
  exists e. split; [exact He | exact Hc].
Qed.

Lemma good_set_cap (k : kont) (i : nat) (cap tl : list ascii) F :
  good k tl F ->
  good (fun s' => k (set_cap i (cap ++ tl) s')) tl
       (fun c => F ((i, cap) :: c)).
Proof.
  intros Hk s E.
  destruct (Hk (set_cap i (cap ++ tl) s)) as [e [He Hc]]; [exact E|].
  exists e. split; [exact He|]. rewrite Hc. cbn [set_cap caps].
  rewrite E, length_app, Nat.add_sub.
  now rewrite firstn_app, firstn_all, Nat.sub_diag, app_nil_r.
Qed.

(** A group whose body reads [cap] captures it. *)
Lemma good_group (fl : flags) (r : regex) (k : kont) (i : nat)
      (cap tl : list ascii) F :
  (forall k', good k' tl (fun c => F ((i, cap) :: c)) ->
              good (m fl r k') (cap ++ tl) (fun c => F ((i, cap) :: c))) ->
  good k tl F ->
  good (m fl (RGroup i r) k) (cap ++ tl) (fun c => F ((i, cap) :: c)).
Proof.
  intros Hr Hk s E. cbn [m]. rewrite E.
  exact (Hr _ (good_set_cap k i cap tl F Hk) s E).
Qed.

(** A greedy loop over a character class reads a whole run of the class
    when what follows the run is matched by the continuation. *)
Lemma good_greedy_loop (p : ascii -> bool) (k : kont) (tl : list ascii) F :
  good k tl F -> head_fails p tl ->
  forall (run : list ascii) (lo : nat) (hi : option nat) (fuel : nat),
    Forall (fun x => p x = true) run ->
    lo <= List.length run ->
    (forall h, hi = Some h -> List.length run <= h) ->
    List.length run + List.length tl < fuel ->
    good (fun s => rep_loop (step_char p) true k fuel lo hi s) (run ++ tl) F.
Proof.
  intros Hk Htl run. induction run as [|x run IH];
    intros lo hi fuel Hrun Hlo Hhi Hfuel s E.
  - destruct fuel as [|fuel]; [lia|]. destruct lo; [|simpl in Hlo; lia].
    cbn [rep_loop]. destruct (exhausted hi); [exact (Hk s E)|].
    cbn [app] in E.
    replace (step_char p _ s) with (@None mstate).
    + exact (Hk s E).
    + destruct tl as [|y tl].
      * now rewrite (step_char_nil _ _ _ E).
      * rewrite (step_char_cons _ _ _ _ _ E). simpl in Htl. now rewrite Htl.
  - destruct fuel as [|fuel]; [lia|].
    inversion Hrun as [|? ? Hx Hrun']; subst.
    cbn [app] in E. cbn [rep_loop].
    assert (Hdec : forall h, dec hi = Some h -> List.length run <= h).
    { intros h Hh. destruct hi as [h0|]; [|discriminate].
      specialize (Hhi h0 eq_refl). simpl in Hhi, Hh. injection Hh as <-.
      lia. }
    destruct lo as [|lo].
    + assert (exhausted hi = false).
      { destruct hi as [[|h]|]; try reflexivity.
        specialize (Hhi 0 eq_refl). simpl in Hhi. lia. }
      rewrite H. rewrite (step_char_cons _ _ _ _ _ E), Hx.
      cbn [rest advance]. rewrite E. cbn [List.length].
      destruct (Nat.ltb_spec (List.length (run ++ tl))
                             (S (List.length (run ++ tl)))); [|lia].
      destruct (IH 0 (dec hi) fuel Hrun' ltac:(lia) Hdec
                   ltac:(simpl in Hfuel; lia)
                   (advance s x (run ++ tl)) eq_refl) as [e [He Hc]].
      rewrite He. exists e. split; [reflexivity | exact Hc].
    + rewrite (step_char_cons _ _ _ _ _ E), Hx.
      exact (IH lo (dec hi) fuel Hrun' ltac:(simpl in Hlo; lia) Hdec
                ltac:(simpl in Hfuel; lia)
                (advance s x (run ++ tl)) eq_refl).
Qed.


(** A lazy loop reads on while the continuation fails in front of the
    character it looks at, and stops where the continuation succeeds. *)
Lemma good_lazy_loop (p q : ascii -> bool) (k : kont) (tl : list ascii) F :
  good k tl F ->
  (forall s x xs, rest s = x :: xs -> q x = true -> k s = None) ->
  forall (pre : list ascii) (lo fuel : nat),
    Forall (fun x => p x = true) pre ->
    Forall (fun x => q x = true) (skipn lo pre) ->
    lo <= List.length pre ->
    List.length pre + List.length tl < fuel ->
    good (fun s => rep_loop (step_char p) false k fuel lo None s)
         (pre ++ tl) F.
Proof.
  intros Hk Hfail pre. induction pre as [|x pre IH];
    intros lo fuel Hp Hq Hlo Hfuel s E.
  - destruct fuel as [|fuel]; [lia|]. destruct lo; [|simpl in Hlo; lia].
    cbn [rep_loop exhausted]. cbn [app] in E.
    destruct (Hk s E) as [e [He Hc]]. rewrite He.
    exists e. split; [reflexivity | exact Hc].
  - destruct fuel as [|fuel]; [lia|].
    inversion Hp as [|? ? Hx Hp']; subst.
    cbn [app] in E. cbn [rep_loop].
    destruct lo as [|lo].
    + cbn [skipn] in Hq. inversion Hq as [|? ? Hqx Hq']; subst.
      cbn [exhausted]. rewrite (Hfail s x (pre ++ tl) E Hqx).
      rewrite (step_char_cons _ _ _ _ _ E), Hx.
      cbn [rest advance]. rewrite E. cbn [List.length].
      destruct (Nat.ltb_spec (List.length (pre ++ tl))
                             (S (List.length (pre ++ tl)))); [|lia].
      exact (IH 0 fuel Hp' Hq' ltac:(lia) ltac:(simpl in Hfuel; lia)
                (advance s x (pre ++ tl)) eq_refl).
    + rewrite (step_char_cons _ _ _ _ _ E), Hx.
      exact (IH lo fuel Hp' Hq ltac:(simpl in Hlo; lia)
                ltac:(simpl in Hfuel; lia)
                (advance s x (pre ++ tl)) eq_refl).
Qed.

(** A loop with a mandatory first turn fails in front of a character its
    class does not hold. *)
Lemma mandatory_loop_fails (p : ascii -> bool) (g : bool) (k : kont)
      (fuel lo : nat) (hi : option nat) (s : mstate) (x : ascii)
      (xs : list ascii) :
  rest s = x :: xs -> p x = false ->
  rep_loop (step_char p) g k fuel (S lo) hi s = None.
Proof.
  intros E Hp. destruct fuel as [|fuel]; [reflexivity|].
  cbn [rep_loop]. now rewrite (step_char_cons _ _ _ _ _ E), Hp.
Qed.

Lemma list_of_append (a b : string) :
  list_ascii_of_string (a ++ b)
  = list_ascii_of_string a ++ list_ascii_of_string b.
Proof. induction a; simpl; [reflexivity | now rewrite IHa]. Qed.

Lemma all_chars_forall (p : ascii -> bool) (s : string) :
  all_chars p s = true ->
  Forall (fun x => p x = true) (list_ascii_of_string s).
Proof.
  induction s as [|c s IH]; simpl; intros H; [constructor|].
  apply andb_true_iff in H. destruct H as [H1 H2].
  constructor; [assumption | now apply IH].
Qed.

Lemma run_of_length (p : ascii -> bool) (s : string) :
  run_of p s -> 1 <= List.length (list_ascii_of_string s).
Proof.
  intros [Hne _]. destruct s; [contradiction | simpl; lia].
Qed.


Section Wrappers.
Variable fl : flags.

Lemma good_cat_char (c : ascii) (r : regex) (k : kont) (x : ascii)
      (tl : list ascii) F :
  char_matches fl c x = true ->
  good (m fl r k) tl F ->
  good (m fl (RCat (RChar c) r) k) (x :: tl) F.
Proof.
  intros Hc Hr s E. rewrite m_cat.
  exact (good_step (char_matches fl c) (m fl r k) x tl F Hc Hr s E).
Qed.

Lemma good_greedy (b : regex) (p : ascii -> bool) (lo : nat)
      (hi : option nat) (r : regex) (k : kont) (run tl : list ascii) F :
  m fl b = step_char p ->
  good (m fl r k) tl F ->
  head_fails p tl ->
  Forall (fun x => p x = true) run ->
  lo <= List.length run ->
  (forall h, hi = Some h -> List.length run <= h) ->
  good (m fl (RCat (RRep true lo hi b) r) k) (run ++ tl) F.
Proof.
  intros Hb Hr Htl Hrun Hlo Hhi s E. rewrite m_cat, m_rep, Hb, E.
  apply (good_greedy_loop p (m fl r k) tl F Hr Htl run lo hi _ Hrun Hlo Hhi);
    [|exact E].
  rewrite length_app. lia.
Qed.

Lemma good_greedy_group (b : regex) (p : ascii -> bool) (i lo : nat)
      (hi : option nat) (r : regex) (k : kont) (cap tl : list ascii) F :
  m fl b = step_char p ->
  good (m fl r k) tl F ->
  head_fails p tl ->
  Forall (fun x => p x = true) cap ->
  lo <= List.length cap ->
  (forall h, hi = Some h -> List.length cap <= h) ->
  good (m fl (RCat (RGroup i (RCat (RRep true lo hi b) REps)) r) k)
       (cap ++ tl) (fun c => F ((i, cap) :: c)).
Proof.
  intros Hb Hr Htl Hcap Hlo Hhi s E. rewrite m_cat.
  apply (good_group fl (RCat (RRep true lo hi b) REps) (m fl r k) i cap tl F);
    [|exact Hr | exact E].
  intros k' Hk'. replace cap with (cap ++ []) at 1 by apply app_nil_r.
  rewrite <- app_assoc.
  apply (good_greedy b p lo hi REps k' cap ([] ++ tl)); assumption.
Qed.

Lemma good_lazy_group (b : regex) (p q : ascii -> bool) (i : nat)
      (r : regex) (k : kont) (cap tl : list ascii) F :
  m fl b = step_char p ->
  good (m fl r k) tl F ->
  (forall s x xs, rest s = x :: xs -> q x = true -> m fl r k s = None) ->
  Forall (fun x => p x = true) cap ->
  Forall (fun x => q x = true) (skipn 1 cap) ->
  1 <= List.length cap ->
  good (m fl (RCat (RGroup i (RCat (RRep false 1 None b) REps)) r) k)
       (cap ++ tl) (fun c => F ((i, cap) :: c)).
Proof.
  intros Hb Hr Hfail Hp Hq Hlen s E. rewrite m_cat.
  cbn [m]. rewrite Hb, E.
  refine (good_lazy_loop p q
            (fun s' => m fl r k (set_cap i (cap ++ tl) s')) tl
            (fun c => F ((i, cap) :: c))
            (good_set_cap (m fl r k) i cap tl F Hr) _
            cap 1 _ Hp Hq Hlen _ s E).
  - intros s' x xs E' Hx. apply (Hfail _ x xs); [exact E' | exact Hx].
  - rewrite length_app. lia.
Qed.

Lemma greedy_fails_in_front (b : regex) (p : ascii -> bool) (lo : nat)
      (hi : option nat) (r : regex) (k : kont) (s : mstate) (x : ascii)
      (xs : list ascii) :
  m fl b = step_char p ->
  rest s = x :: xs -> p x = false ->
  m fl (RCat (RRep true (S lo) hi b) r) k s = None.
Proof.
  intros Hb E Hx. rewrite m_cat, m_rep, Hb.
  now apply (mandatory_loop_fails p true _ _ lo hi s x xs).
Qed.

End Wrappers.

Lemma space_class (x : ascii) :
  set_matches NOFLAGS false [CSpace] x = is_space x.
Proof.
  unfold set_matches. cbn [existsb item_matches xorb].
  now rewrite orb_false_r.
Qed.

Lemma digit_class (x : ascii) :
  set_matches NOFLAGS false [CDigit] x = is_digit x.
Proof.
  unfold set_matches. cbn [existsb item_matches xorb].
  now rewrite orb_false_r.
Qed.

End LoopFacts.

(* ================================================================== *)
(** * The lines of a table of contents *)
(* ================================================================== *)

Module TocLineFacts.
Import PyStr Re Rag Toc Spec Shape LineShape Examples Pages ReFacts LoopFacts.
Local Open Scope list_scope.
Local Open Scope nat_scope.

Lemma digit_is_no_space (x : ascii) : is_digit x = true -> is_space x = false.
Proof.
  destruct x as [[] [] [] [] [] [] [] []]; vm_compute; congruence.
Qed.

Lemma digit_is_no_dot (x : ascii) : is_digit x = true -> is_dot x = false.
Proof.
  destruct x as [[] [] [] [] [] [] [] []]; vm_compute; congruence.
Qed.

Lemma space_is_no_dot (x : ascii) : is_space x = true -> is_dot x = false.
Proof.
  destruct x as [[] [] [] [] [] [] [] []]; vm_compute; congruence.
Qed.

Lemma run_of_list (p : ascii -> bool) (s : string) :
  run_of p s ->
  Forall (fun x => p x = true) (list_ascii_of_string s)
  /\ 1 <= List.length (list_ascii_of_string s).
Proof.
  intros [Hne Hall]. split; [now apply all_chars_forall|].
  destruct s; [congruence | cbn; lia].
Qed.

Lemma head_of_run (p q : ascii -> bool) (s : string) (tl : list ascii) :
  run_of p s -> (forall x, p x = true -> q x = false) ->
  head_fails q (list_ascii_of_string s ++ tl).
Proof.
  intros [Hne Hall] Hpq. destruct s as [|c s]; [congruence|].
  cbn in *. apply andb_true_iff in Hall. now apply Hpq.
Qed.

Lemma not_headed_list (p : ascii -> bool) (s : string) :
  not_headed p s -> head_fails p (list_ascii_of_string s).
Proof. destruct s; exact (fun H => H). Qed.

Lemma head_fails_ext (p q : ascii -> bool) (l : list ascii) :
  (forall x, p x = q x) -> head_fails q l -> head_fails p l.
Proof. intros H. destruct l; [exact (fun h => h)|]. cbn. now rewrite H. Qed.

(** What the chapter pattern and the section pattern share after the
    leading number and its full stop. *)
Lemma good_entry_tail (b : regex) (pb : ascii -> bool)
      (ws2 title dots ws3 page tail : string) :
  m NOFLAGS b = step_char pb ->
  (forall x, title_char x = true -> pb x = true) ->
  run_of is_space ws2 -> title_text title -> run_of is_dot dots ->
  all_chars is_space ws3 = true -> run_of is_digit page ->
  not_headed is_digit tail ->
  good (m NOFLAGS (entry_tail b) (fun s => Some s))
       (list_ascii_of_string ws2 ++ list_ascii_of_string title
        ++ list_ascii_of_string dots ++ list_ascii_of_string ws3
        ++ list_ascii_of_string page ++ list_ascii_of_string tail)
       (fun c => (3, list_ascii_of_string page)
                 :: (2, list_ascii_of_string title) :: c).
Proof.
  intros Hb Hpb Hws2 [Htitle Hhead] Hdots Hws3 Hpage Htail.
  unfold entry_tail.
  destruct (run_of_list _ _ Hws2) as [Aws2 Lws2].
  destruct (run_of_list _ _ Htitle) as [Atitle Ltitle].
  destruct (run_of_list _ _ Hdots) as [Adots Ldots].
  destruct (run_of_list _ _ Hpage) as [Apage Lpage].
  set (TL := list_ascii_of_string tail).
  set (P := list_ascii_of_string page).
  set (W3 := list_ascii_of_string ws3).
  set (D := list_ascii_of_string dots).
  set (T := list_ascii_of_string title).
  set (W2 := list_ascii_of_string ws2).
  (* the page number *)
  assert (G5 : good (m NOFLAGS
                       (RCat (RGroup 3 (RCat (RRep true 1 None
                                                (RSet false [CDigit])) REps))
                             REps) (fun s => Some s))
                    (P ++ TL) (fun c => (3, P) :: c)).
  { apply (good_greedy_group NOFLAGS (RSet false [CDigit])
             (set_matches NOFLAGS false [CDigit]) 3 1 None REps
             (fun s => Some s) P TL (fun c => c)).
    - reflexivity.
    - apply good_eps, good_final.
    - apply (head_fails_ext _ is_digit _ digit_class).
      exact (not_headed_list _ _ Htail).
    - eapply Forall_impl; [|exact Apage]. intros x Hx. cbv beta. now rewrite digit_class.
    - exact Lpage.
    - discriminate. }
  (* the whitespace before it *)
  assert (G4 : good (m NOFLAGS
                       (RCat (RRep true 0 None (RSet false [CSpace]))
                       (RCat (RGroup 3 (RCat (RRep true 1 None
                                                (RSet false [CDigit])) REps))
                             REps)) (fun s => Some s))
                    (W3 ++ P ++ TL) (fun c => (3, P) :: c)).
  { apply (good_greedy NOFLAGS (RSet false [CSpace])
             (set_matches NOFLAGS false [CSpace]) 0 None).
    - reflexivity.
    - exact G5.
    - apply (head_fails_ext _ is_space _ space_class).
      exact (head_of_run is_digit is_space page TL Hpage digit_is_no_space).
    - eapply Forall_impl; [|exact (all_chars_forall _ _ Hws3)].
      intros x Hx. cbv beta. now rewrite space_class.
    - lia.
    - discriminate. }
  (* the leader dots *)
  assert (H3 : head_fails is_dot (W3 ++ P ++ TL)).
  { destruct ws3 as [|c ws3].
    - exact (head_of_run is_digit is_dot page TL Hpage digit_is_no_dot).
    - cbn in Hws3 |- *. apply andb_true_iff in Hws3.
      now apply space_is_no_dot. }
  assert (G3 : good (m NOFLAGS
                       (RCat (RRep true 1 None (RChar "."))
                       (RCat (RRep true 0 None (RSet false [CSpace]))
                       (RCat (RGroup 3 (RCat (RRep true 1 None
                                                (RSet false [CDigit])) REps))
                             REps))) (fun s => Some s))
                    (D ++ W3 ++ P ++ TL) (fun c => (3, P) :: c)).
  { apply (good_greedy NOFLAGS (RChar ".") is_dot 1 None).
    - reflexivity.
    - exact G4.
    - exact H3.
    - exact Adots.
    - exact Ldots.
    - discriminate. }
  (* the title, read lazily up to the first full stop *)
  assert (G2 : good (m NOFLAGS
                       (RCat (RGroup 2 (RCat (RRep false 1 None b) REps))
                       (RCat (RRep true 1 None (RChar "."))
                       (RCat (RRep true 0 None (RSet false [CSpace]))
                       (RCat (RGroup 3 (RCat (RRep true 1 None
                                                (RSet false [CDigit])) REps))
                             REps)))) (fun s => Some s))
                    (T ++ D ++ W3 ++ P ++ TL)
                    (fun c => (3, P) :: (2, T) :: c)).
  { apply (good_lazy_group NOFLAGS b pb (fun x => negb (is_dot x)) 2 _
             (fun s => Some s) T (D ++ W3 ++ P ++ TL)
             (fun c => (3, P) :: c)).
    - exact Hb.
    - exact G3.
    - intros s x xs E Hx.
      apply (greedy_fails_in_front NOFLAGS (RChar ".") is_dot 0 None _ _ s x xs);
        [reflexivity | exact E |].
      now apply negb_true_iff.
    - eapply Forall_impl; [|exact Atitle]. exact Hpb.
    - assert (Aq : Forall (fun x => negb (is_dot x) = true) T).
      { eapply Forall_impl; [|exact Atitle]. intros x Hx.
        unfold title_char in Hx. now apply andb_true_iff in Hx. }
      destruct T; [constructor|]. inversion Aq; assumption.
    - exact Ltitle. }
  (* the whitespace before the title *)
  apply (good_greedy NOFLAGS (RSet false [CSpace])
           (set_matches NOFLAGS false [CSpace]) 1 None).
  - reflexivity.
  - exact G2.
  - apply (head_fails_ext _ is_space _ space_class).
    destruct Htitle as [Hne _]. unfold T.
    destruct title as [|c title]; [congruence|]. exact Hhead.
  - eapply Forall_impl; [|exact Aws2]. intros x Hx. cbv beta. now rewrite space_class.
  - exact Lws2.
  - discriminate.
Qed.


Lemma chapter_pattern_shape :
  compile chapter_pattern
  = (RCat (RChar "C") (RCat (RChar "h") (RCat (RChar "a") (RCat (RChar "p")
    (RCat (RChar "t") (RCat (RChar "e") (RCat (RChar "r")
    (RCat (RRep true 1 None (RSet false [CSpace]))
    (RCat (RGroup 1 (RCat (RRep true 1 None (RSet false [CDigit])) REps))
    (RCat (RChar ".") (entry_tail RAny)))))))))), 3).
Proof. vm_compute. reflexivity. Qed.

Lemma section_pattern_shape :
  compile section_pattern
  = (RCat (RGroup 1 (RCat (RRep true 1 (Some 3) (RSet false [CDigit])) REps))
    (RCat (RChar ".") (entry_tail (RSet true [CChar "."]))), 3).
Proof. vm_compute. reflexivity. Qed.

Lemma match_of_good (r : regex) (n : nat) (l : list ascii) F :
  good (m NOFLAGS r (fun s => Some s)) l F ->
  exists mt, match_here NOFLAGS (r, n) 0 None l = Some mt
             /\ m_caps mt = F [].
Proof.
  intros H. destruct (H (init_state 0 None l) eq_refl) as [e [He Hc]].
  unfold match_here. cbn [fst snd]. rewrite He.
  eexists. split; [reflexivity|]. exact Hc.
Qed.

Lemma chapter_line_match
        (ws1 num ws2 title dots ws3 page tail : string) :
  run_of is_space ws1 -> run_of is_digit num -> run_of is_space ws2 ->
  title_text title -> run_of is_dot dots -> all_chars is_space ws3 = true ->
  run_of is_digit page -> not_headed is_digit tail ->
  chapter_of_line
    ("Chapter" ++ ws1 ++ num ++ "." ++ ws2 ++ title ++ dots ++ ws3 ++ page
     ++ tail)%string
  = Some (mkChapter (int_of_digits num) (strip title) (int_of_digits page) []).
Proof.
  intros Hws1 Hnum Hws2 Htitle Hdots Hws3 Hpage Htail.
  assert (GT := good_entry_tail RAny (any_matches NOFLAGS)
                  ws2 title dots ws3 page tail eq_refl).
  specialize (GT (fun x Hx => proj2 (proj1 (andb_true_iff _ _) Hx))
                 Hws2 Htitle Hdots Hws3 Hpage Htail).
  set (TL := (list_ascii_of_string ws2 ++ list_ascii_of_string title
        ++ list_ascii_of_string dots ++ list_ascii_of_string ws3
        ++ list_ascii_of_string page ++ list_ascii_of_string tail)) in *.
  set (F := fun c : list (nat * list ascii) =>
              (3, list_ascii_of_string page)
              :: (2, list_ascii_of_string title) :: c) in *.
  destruct (run_of_list _ _ Hws1) as [Aws1 Lws1].
  destruct (run_of_list _ _ Hnum) as [Anum Lnum].
  assert (G0 := good_cat_char NOFLAGS "." (entry_tail RAny)
                  (fun s => Some s) "." TL F eq_refl GT).
  assert (G1 : good (m NOFLAGS
             (RCat (RGroup 1 (RCat (RRep true 1 None (RSet false [CDigit]))
                                   REps))
                   (RCat (RChar ".") (entry_tail RAny))) (fun s => Some s))
             (list_ascii_of_string num ++ "."%char :: TL)
             (fun c => F ((1, list_ascii_of_string num) :: c))).
  { apply (good_greedy_group NOFLAGS (RSet false [CDigit])
             (set_matches NOFLAGS false [CDigit]) 1 1 None).
    - reflexivity.
    - exact G0.
    - reflexivity.
    - eapply Forall_impl; [|exact Anum]. intros x Hx. cbv beta.
      now rewrite digit_class.
    - exact Lnum.
    - discriminate. }
  assert (G2 : good (m NOFLAGS
             (RCat (RRep true 1 None (RSet false [CSpace]))
             (RCat (RGroup 1 (RCat (RRep true 1 None (RSet false [CDigit]))
                                   REps))
                   (RCat (RChar ".") (entry_tail RAny)))) (fun s => Some s))
             (list_ascii_of_string ws1 ++ list_ascii_of_string num
              ++ "."%char :: TL)
             (fun c => F ((1, list_ascii_of_string num) :: c))).
  { apply (good_greedy NOFLAGS (RSet false [CSpace])
             (set_matches NOFLAGS false [CSpace]) 1 None).
    - reflexivity.
    - exact G1.
    - apply (head_fails_ext _ is_space _ space_class).
      exact (head_of_run is_digit is_space num _ Hnum digit_is_no_space).
    - eapply Forall_impl; [|exact Aws1]. intros x Hx. cbv beta.
      now rewrite space_class.
    - exact Lws1.
    - discriminate. }
  assert (G3 := good_cat_char NOFLAGS "r" _ _ "r" _ _ eq_refl G2).
  assert (G4 := good_cat_char NOFLAGS "e" _ _ "e" _ _ eq_refl G3).
  assert (G5 := good_cat_char NOFLAGS "t" _ _ "t" _ _ eq_refl G4).
  assert (G6 := good_cat_char NOFLAGS "p" _ _ "p" _ _ eq_refl G5).
  assert (G7 := good_cat_char NOFLAGS "a" _ _ "a" _ _ eq_refl G6).
  assert (G8 := good_cat_char NOFLAGS "h" _ _ "h" _ _ eq_refl G7).
  assert (G9 := good_cat_char NOFLAGS "C" _ _ "C" _ _ eq_refl G8).
  destruct (match_of_good _ 3 _ _ G9) as [mt [Hm Hc]].
  unfold chapter_of_line, re_match. rewrite chapter_pattern_shape.
  repeat rewrite list_of_append. cbn [list_ascii_of_string app].
  unfold TL in Hm. rewrite Hm.
  unfold group_str, group. rewrite Hc. unfold F.
  cbn [lookup_cap Nat.eqb option_map].
  now rewrite !string_of_list_ascii_of_string.
Qed.


Lemma section_line_match (num ws2 title dots ws3 page tail : string) :
  run_of is_digit num -> String.length num <= 3 -> run_of is_space ws2 ->
  title_text title -> run_of is_dot dots -> all_chars is_space ws3 = true ->
  run_of is_digit page -> not_headed is_digit tail ->
  exists mt,
    re_match section_pattern
      (num ++ "." ++ ws2 ++ title ++ dots ++ ws3 ++ page ++ tail)%string
      NOFLAGS = Some mt
    /\ group_str mt 1 = num /\ group_str mt 2 = title
    /\ group_str mt 3 = page.
Proof.
  intros Hnum Hlen Hws2 Htitle Hdots Hws3 Hpage Htail.
  assert (GT := good_entry_tail (RSet true [CChar "."])
                  (set_matches NOFLAGS true [CChar "."])
                  ws2 title dots ws3 page tail eq_refl).
  assert (Hcls : forall x, title_char x = true ->
                           set_matches NOFLAGS true [CChar "."] x = true).
  { intros x Hx. apply andb_true_iff in Hx. destruct Hx as [Hx _].
    unfold set_matches. cbn [existsb item_matches].
    rewrite orb_false_r. exact Hx. }
  specialize (GT Hcls Hws2 Htitle Hdots Hws3 Hpage Htail).
  set (TL := (list_ascii_of_string ws2 ++ list_ascii_of_string title
        ++ list_ascii_of_string dots ++ list_ascii_of_string ws3
        ++ list_ascii_of_string page ++ list_ascii_of_string tail)) in *.
  set (F := fun c : list (nat * list ascii) =>
              (3, list_ascii_of_string page)
              :: (2, list_ascii_of_string title) :: c) in *.
  destruct (run_of_list _ _ Hnum) as [Anum Lnum].
  assert (G0 := good_cat_char NOFLAGS "." _ (fun s => Some s) "." TL F
                  eq_refl GT).
  assert (G1 : good (m NOFLAGS
             (RCat (RGroup 1 (RCat (RRep true 1 (Some 3)
                                      (RSet false [CDigit])) REps))
                   (RCat (RChar ".") (entry_tail (RSet true [CChar "."]))))
             (fun s => Some s))
             (list_ascii_of_string num ++ "."%char :: TL)
             (fun c => F ((1, list_ascii_of_string num) :: c))).
  { apply (good_greedy_group NOFLAGS (RSet false [CDigit])
             (set_matches NOFLAGS false [CDigit]) 1 1 (Some 3)).
    - reflexivity.
    - exact G0.
    - reflexivity.
    - eapply Forall_impl; [|exact Anum]. intros x Hx. cbv beta.
      now rewrite digit_class.
    - exact Lnum.
    - intros h [= <-]. clear -Hlen.
      revert Hlen. generalize 3. induction num; cbn; intros; lia || idtac.
      destruct n; [lia|]. apply le_n_S, IHnum. lia. }
  destruct (match_of_good _ 3 _ _ G1) as [mt [Hm Hc]].
  exists mt. unfold re_match. rewrite section_pattern_shape.
  repeat rewrite list_of_append. cbn [list_ascii_of_string app].
  unfold TL in Hm. split; [exact Hm|].
  unfold group_str, group. rewrite Hc. unfold F.
  cbn [lookup_cap Nat.eqb option_map].
  now rewrite !string_of_list_ascii_of_string.
Qed.

Lemma no_section_on_letter_line (c : ascii) (line : string) :
  is_digit c = false -> section_of_line (String c line) = None.
Proof.
  intros Hc. unfold section_of_line.
  destruct (re_match section_pattern (String c line) NOFLAGS) as [mt|] eqn:E;
    [|reflexivity].
  apply TocFacts.section_line_starts_with_digit in E.
  destruct E as [c' [line' [E Hd]]]. injection E as <- _. congruence.
Qed.

Lemma no_chapter_on_digit_line (c : ascii) (line : string) :
  is_digit c = true -> chapter_of_line (String c line) = None.
Proof.
  intros Hc. unfold chapter_of_line.
  destruct (re_match chapter_pattern (String c line) NOFLAGS) as [mt|] eqn:E;
    [|reflexivity].
  apply TocFacts.chapter_line_starts_with_C in E.
  destruct E as [line' E]. injection E as -> _. discriminate Hc.
Qed.

(** X9. A line made of the word Chapter, whitespace, a number, a full
    stop, whitespace, a title without full stop, leader dots, optional
    whitespace and a page number adds exactly that chapter, with the title
    stripped and no sections, at the end of the list; the line is not also
    read as a section. *)
Theorem chapter_line_appends_chapter :
  forall (chapters : list Chapter)
         (ws1 num ws2 title dots ws3 page tail : string),
    run_of is_space ws1 -> run_of is_digit num -> run_of is_space ws2 ->
    title_text title -> run_of is_dot dots -> all_chars is_space ws3 = true ->
    run_of is_digit page -> not_headed is_digit tail ->
    process_line chapters
      ("Chapter" ++ ws1 ++ num ++ "." ++ ws2 ++ title ++ dots ++ ws3 ++ page
       ++ tail)%string
    = chapters
      ++ [mkChapter (int_of_digits num) (strip title) (int_of_digits page) []].
Proof.
  intros chapters ws1 num ws2 title dots ws3 page tail
         Hws1 Hnum Hws2 Htitle Hdots Hws3 Hpage Htail.
  unfold process_line.
  rewrite (chapter_line_match ws1 num ws2 title dots ws3 page tail)
    by assumption.
  cbn [append].
  now rewrite (no_section_on_letter_line "C" _ eq_refl).
Qed.

Lemma chapter_line_appends_chapter_witness :
  process_line example_chapters chapter_line
  = example_chapters ++ [mkChapter 1 "General" 10 []].
Proof.
  apply (chapter_line_appends_chapter example_chapters
           " " "1" " " "General " "....." " " "10" "");
    try (split; [discriminate | reflexivity]).
  - split; [split; [discriminate | reflexivity] | reflexivity].
  - reflexivity.
  - exact I.
Defined.

(** X10. A line made of a number of one to three digits, a full stop,
    whitespace, a title without full stop, leader dots, optional whitespace
    and a page number is read as a section exactly when the number exceeds
    100: the section, with the number kept as text and the title stripped,
    is then assigned among the chapters read so far; a line whose number is
    100 or less changes nothing.  Such a line never adds a chapter. *)
Theorem section_line_assigns_section :
  forall (chapters : list Chapter)
         (num ws2 title dots ws3 page tail : string),
    run_of is_digit num -> String.length num <= 3 -> run_of is_space ws2 ->
    title_text title -> run_of is_dot dots -> all_chars is_space ws3 = true ->
    run_of is_digit page -> not_headed is_digit tail ->
    process_line chapters
      (num ++ "." ++ ws2 ++ title ++ dots ++ ws3 ++ page ++ tail)%string
    = if (int_of_digits num >? 100)%Z
      then assign_section chapters
             (mkSection num (strip title) (int_of_digits page))
      else chapters.
Proof.
  intros chapters num ws2 title dots ws3 page tail
         Hnum Hlen Hws2 Htitle Hdots Hws3 Hpage Htail.
  destruct (section_line_match num ws2 title dots ws3 page tail
              Hnum Hlen Hws2 Htitle Hdots Hws3 Hpage Htail)
    as [mt [Hm [H1 [H2 H3]]]].
  unfold process_line, section_of_line. rewrite Hm, H1, H2, H3.
  destruct Hnum as [Hne Hall].
  destruct num as [|c num]; [congruence|].
  cbn [all_chars] in Hall. apply andb_true_iff in Hall.
  destruct Hall as [Hc _].
  cbn [append]. rewrite (no_chapter_on_digit_line c _ Hc).
  now destruct (int_of_digits (String c num) >? 100)%Z.
Qed.

Lemma section_line_assigns_section_witness :
  process_line example_chapters scenario_b_line
  = assign_section example_chapters scenario_b_section.
Proof.
  apply (section_line_assigns_section example_chapters
           "186" " " "Severe Malaria" ".........." "" "112" "");
    try (split; [discriminate | reflexivity]).
  - cbn. lia.
  - split; [split; [discriminate | reflexivity] | reflexivity].
  - reflexivity.
  - exact I.
Defined.

End TocLineFacts.

(* ================================================================== *)
(** * Further properties of merging and of the chunks *)
(* ================================================================== *)

Module ChunkLaws.
Import PyStr Rag Spec Notions Examples.
Local Open Scope Z_scope.

Lemma lookup_title_none (chapters : list Chapter) :
  lookup_chapter_title chapters None = "".
Proof. induction chapters; simpl; [reflexivity | assumption]. Qed.

Lemma lookup_title_unique (chapters : list Chapter) (c : Chapter) :
  NoDup (map number chapters) -> In c chapters ->
  lookup_chapter_title chapters (Some (number c)) = title c.
Proof.
  induction chapters as [|c0 l IH]; simpl; intros Hnd Hin; [destruct Hin|].
  inversion Hnd as [|? ? Hnot Hnd']; subst.
  destruct (Z.eqb_spec (number c0) (number c)) as [E | E].
  - destruct Hin as [-> | Hin]; [reflexivity|].
    exfalso. apply Hnot. rewrite E. now apply in_map.
  - destruct Hin as [-> | Hin]; [contradiction|]. now apply IH.
Qed.

Lemma chunk_of_condition (chapters : list Chapter) (row : ConditionRow)
      (k : ChunkRow) :
  In k (condition_chunks chapters row) ->
  exists text ty,
    In ty condition_chunk_types
    /\ k = condition_chunk row
             (lookup_chapter_title chapters (chapter_num row)) text ty.
Proof.
  unfold condition_chunks, condition_chunk_types. intros H.
  repeat (apply in_app_or in H; destruct H as [H | H]);
    match type of H with
    | In _ (if ?b then _ else _) => destruct b
    end;
    simpl in H; try contradiction;
    destruct H as [<- | []]; do 2 eexists;
    (split; [|reflexivity]); simpl; tauto.
Qed.

(** X11. A condition whose page lies before every chapter (a NULL page
    counts as page 0) is merged with no chapter and no section, its
    citation reads Chapter None, and its chunks carry an empty chapter
    title. *)
Theorem condition_before_first_chapter :
  forall (chapters : list Chapter) (rowid : Z) (row : OcrCondition),
    (forall c, In c chapters ->
               page_or_zero (oc_page_number row) < start_page c) ->
    let merged := merge_condition chapters rowid row in
    chapter_num merged = None
    /\ section_num merged = None
    /\ ref merged
       = "Chapter None, Page " ++ str_of_int (page_or_zero (oc_page_number row))
    /\ forall k, In k (condition_chunks chapters merged) ->
                 chapter_title k = "" /\ reference_citation k = ref merged.
Proof.
  intros chapters rowid row H. unfold merge_condition.
  pose proof (ResolverFacts.resolve_none chapters _ H) as Hc.
  pose proof (ResolverLaws.resolve_cons_invariant
                (page_or_zero (oc_page_number row)) chapters (None, None)
                (fun _ => eq_refl)) as Hs.
  fold (_find_chapter_section chapters (page_or_zero (oc_page_number row)))
    in Hs.
  specialize (Hs Hc).
  destruct (_find_chapter_section chapters (page_or_zero (oc_page_number row)))
    as [cn sn].
  simpl in Hc, Hs. subst cn sn. cbv zeta.
  split; [reflexivity|]. split; [reflexivity|]. split; [reflexivity|].
  intros k Hk. apply chunk_of_condition in Hk.
  destruct Hk as [text [ty [_ ->]]]. simpl.
  split; [apply lookup_title_none | reflexivity].
Qed.

Lemma condition_before_first_chapter_witness :
  let row := mkOcrCondition 1 "Severe Malaria" None (Some "Fever") None None
                            None in
  let merged := merge_condition example_chapters 1 row in
  chapter_num merged = None
  /\ section_num merged = None
  /\ ref merged = "Chapter None, Page " ++ str_of_int 0
  /\ forall k, In k (condition_chunks example_chapters merged) ->
               chapter_title k = "" /\ reference_citation k = ref merged.
Proof.
  apply (condition_before_first_chapter example_chapters 1
           (mkOcrCondition 1 "Severe Malaria" None (Some "Fever") None None
                           None)).
  intros c [<- | [<- | []]]; simpl; lia.
Defined.

(** X12. With the chapters strictly sorted by start page and numbered
    without repetition, every chunk of a merged condition carries the
    number and the title of the chapter that covers the condition's
    page. *)
Theorem merged_condition_chunks_carry_covering_chapter :
  forall (chapters : list Chapter) (rowid : Z) (row : OcrCondition)
         (c : Chapter) (k : ChunkRow),
    sorted_by_start_page chapters ->
    NoDup (map number chapters) ->
    covers chapters (page_or_zero (oc_page_number row)) c ->
    In k (condition_chunks chapters (merge_condition chapters rowid row)) ->
    chapter_number k = Some (number c) /\ chapter_title k = title c.
Proof.
  intros chapters rowid row c k Hs Hnd Hc Hk.
  apply chunk_of_condition in Hk. destruct Hk as [text [ty [_ ->]]].
  unfold merge_condition.
  pose proof (ResolverFacts.resolve_covering chapters _ Hs c Hc) as Hr.
  destruct (_find_chapter_section chapters (page_or_zero (oc_page_number row)))
    as [cn sn].
  simpl in Hr. subst cn. simpl.
  split; [reflexivity|].
  apply lookup_title_unique; [assumption | apply Hc].
Qed.

Lemma merged_condition_chunks_carry_covering_chapter_witness :
  let row := mkOcrCondition 1 "Severe Malaria" None (Some "Fever") None None
                            (Some 60) in
  let k := condition_chunk (merge_condition example_chapters 1 row) "Malaria"
             "Clinical features of Severe Malaria: Fever"
             "clinical_features" in
  chapter_number k = Some 2 /\ chapter_title k = "Malaria".
Proof.
  apply (merged_condition_chunks_carry_covering_chapter example_chapters 1
           (mkOcrCondition 1 "Severe Malaria" None (Some "Fever") None None
                           (Some 60))
           (mkChapter 2 "Malaria" 50 [])).
  - unfold sorted_by_start_page, example_chapters.
    repeat constructor; simpl; lia.
  - simpl. repeat constructor; simpl; intuition discriminate.
  - split; [simpl; tauto|]. split; [simpl; lia|].
    intros c' [<- | [<- | []]] _; simpl; lia.
  - vm_compute. left. reflexivity.
Defined.

Lemma condition_chunks_length (chapters : list Chapter) (row : ConditionRow) :
  List.length (condition_chunks chapters row) = field_count row.
Proof.
  unfold condition_chunks, field_count. cbn [filter].
  destruct (truthy_opt (treatment row)), (truthy_opt (clinical row)),
    (truthy_opt (investigations row)); reflexivity.
Qed.

(** X13. The builder writes one chunk for each text field of each
    condition row that holds text, none for a field that is empty or NULL,
    and one for every medication row. *)
Theorem chunk_count :
  forall (chapters : list Chapter) (conditions : list ConditionRow)
         (medications : list MedicationRow),
    List.length (_create_content_chunks chapters conditions medications)
    = (list_sum (map field_count conditions) + List.length medications)%nat.
Proof.
  intros. unfold _create_content_chunks.
  rewrite length_app, length_map. f_equal.
  induction conditions as [|row l IH]; simpl; [reflexivity|].
  now rewrite length_app, IH, condition_chunks_length.
Qed.

(** X14. Every chunk the builder writes is either built from one of the
    condition rows, with one of the three condition types and a content of
    at most 2000 characters, or from one of the medication rows, with type
    medication; in both cases it carries the row's identifier, name, page,
    chapter and section numbers and citation. *)
Theorem chunk_provenance :
  forall (chapters : list Chapter) (conditions : list ConditionRow)
         (medications : list MedicationRow) (k : ChunkRow),
    In k (_create_content_chunks chapters conditions medications) ->
    (exists row,
        In row conditions
        /\ In (chunk_type k) condition_chunk_types
        /\ (String.length (content k) <= 2000)%nat
        /\ source_id k = condition_id row
        /\ condition_name k = name row
        /\ page_number k = page_num row
        /\ chapter_number k = chapter_num row
        /\ section_number k = section_num row
        /\ reference_citation k = ref row)
    \/ (exists row,
           In row medications
           /\ chunk_type k = "medication"
           /\ source_id k = med_id row
           /\ condition_name k = med_name row
           /\ page_number k = med_page_num row
           /\ chapter_number k = med_chapter_num row
           /\ section_number k = med_section_num row
           /\ reference_citation k = med_ref row).
Proof.
  intros chapters conditions medications k H.
  unfold _create_content_chunks in H. apply in_app_or in H.
  destruct H as [H | H].
  - left. apply in_flat_map in H. destruct H as [row [Hrow Hk]].
    exists row. split; [assumption|].
    pose proof (ChunkFacts.condition_chunk_content_bounded _ _ _ Hk) as Hb.
    apply chunk_of_condition in Hk. destruct Hk as [text [ty [Hty ->]]].
    split; [exact Hty|]. split; [exact Hb|]. now repeat split.
  - right. apply in_map_iff in H. destruct H as [row [<- Hrow]].
    exists row. now repeat split.
Qed.

Lemma chunk_provenance_witness :
  let k := medication_chunk example_chapters long_strength_medication in
  (exists row,
      In row [example_condition]
      /\ In (chunk_type k) condition_chunk_types
      /\ (String.length (content k) <= 2000)%nat
      /\ source_id k = condition_id row
      /\ condition_name k = name row
      /\ page_number k = page_num row
      /\ chapter_number k = chapter_num row
      /\ section_number k = section_num row
      /\ reference_citation k = ref row)
  \/ (exists row,
         In row [long_strength_medication]
         /\ chunk_type k = "medication"
         /\ source_id k = med_id row
         /\ condition_name k = med_name row
         /\ page_number k = med_page_num row
         /\ chapter_number k = med_chapter_num row
         /\ section_number k = med_section_num row
         /\ reference_citation k = med_ref row).
Proof.
  apply (chunk_provenance example_chapters [example_condition]
           [long_strength_medication]).
  unfold _create_content_chunks. apply in_or_app. right. simpl. now left.
Defined.

Lemma merge_from_carried (chapters : list Chapter) (rows : list OcrCondition) :
  forall rowid,
    map carried (merge_from (merge_condition chapters) rowid rows)
    = map carried_ocr rows.
Proof.
  induction rows as [|row l IH]; intros rowid; simpl; [reflexivity|].
  rewrite IH. f_equal. unfold merge_condition, carried, carried_ocr.
  now destruct (_find_chapter_section chapters
                  (page_or_zero (oc_page_number row))).
Qed.

(** X15. Merging keeps every OCR condition, in the order read, with its
    name and its three text fields unchanged, whether or not a chapter
    covers it; a NULL page becomes page 0. *)
Theorem merge_keeps_conditions :
  forall (chapters : list Chapter) (rows : list OcrCondition),
    map carried (merge_conditions chapters rows) = map carried_ocr rows.
Proof.
  intros. apply merge_from_carried.
Qed.

Lemma append_assoc (a b c : string) : (a ++ b) ++ c = a ++ (b ++ c).
Proof. induction a; simpl; [reflexivity | now rewrite IHa]. Qed.

Lemma append_empty (a : string) : a ++ "" = a.
Proof. induction a; simpl; [reflexivity | now rewrite IHa]. Qed.

(** X16. The text of the chunk of a merged medication is the name followed
    by the strength and the route, each only when it holds text; the
    dosage part never appears, since merging leaves dosage_info NULL. *)
Theorem merged_medication_text :
  forall (chapters : list Chapter) (rowid : Z) (row : OcrMedication),
    content (medication_chunk chapters (merge_medication chapters rowid row))
    = "Medication: " ++ om_generic_name row
        ++ attribute_text ", Strength: " (om_strength row)
        ++ attribute_text ", Route: " (om_route row).
Proof.
  intros. unfold merge_medication.
  destruct (_find_chapter_section chapters (page_or_zero (om_page_number row)))
    as [cn sn].
  cbn [medication_chunk content]. unfold medication_content, attribute_text.
  cbn [med_name strength route dosage truthy_opt].
  destruct (truthy_opt (om_strength row)), (truthy_opt (om_route row));
    rewrite ?append_assoc, ?append_empty; reflexivity.
Qed.

End ChunkLaws.

(* ================================================================== *)
(** * Further properties of the page extractors and of the scan *)
(* ================================================================== *)

Module PageLaws.
Import PyStr Re Ocr Spec Notions Examples Pages Driver.
Local Open Scope Z_scope.

Lemma condition_of_line_shape (text line : string) (page_num : Z)
      (patterns : list string) (c : MedicalCondition) :
  condition_of_line text line page_num patterns = Some c ->
  exists pattern mt,
    In pattern patterns
    /\ re_search pattern line NOFLAGS = Some mt
    /\ name c = strip (group_str mt 1)
    /\ _is_valid_medical_condition (name c) = true
    /\ page_number c = page_num
    /\ clinical_features c = _extract_clinical_features text (name c)
    /\ investigations c = _extract_section_content text "investigations"
    /\ treatment c = _extract_section_content text "treatment".
Proof.
  induction patterns as [|pattern rest IH]; simpl; [discriminate|].
  destruct (re_search pattern line NOFLAGS) as [mt|] eqn:E.
  - destruct (_is_valid_medical_condition (strip (group_str mt 1))) eqn:V;
      simpl.
    + intros H. injection H as <-. exists pattern, mt. simpl.
      repeat split; try reflexivity; [now left | assumption | assumption].
    + intros H. destruct (IH H) as [p [m' [Hin Hr]]].
      exists p, m'. split; [now right | exact Hr].
  - intros H. destruct (IH H) as [p [m' [Hin Hr]]].
    exists p, m'. split; [now right | exact Hr].
Qed.

(** X17. Every condition the page step returns was read from a line of the
    page that, stripped, has between 5 and 100 characters and matches none
    of the skip patterns; its name is the stripped first group of a
    condition pattern found in that line, the validator accepts the name,
    and the condition carries the page number. *)
Theorem page_condition_origin :
  forall (text : string) (page_num : Z) (c : MedicalCondition),
    In c (_extract_conditions_from_page text page_num) ->
    exists raw pattern mt,
      In raw (split_on newline text)
      /\ 5 <= len (strip raw) <= 100
      /\ (forall skip, In skip skip_patterns -> found skip (strip raw) = false)
      /\ In pattern condition_patterns
      /\ re_search pattern (strip raw) NOFLAGS = Some mt
      /\ name c = strip (group_str mt 1)
      /\ _is_valid_medical_condition (name c) = true
      /\ page_number c = page_num.
Proof.
  intros text page_num c H. unfold _extract_conditions_from_page in H.
  apply in_flat_map in H. destruct H as [raw [Hraw H]].
  unfold conditions_of_line in H.
  destruct (Z.ltb_spec (len (strip raw)) 5); [destruct H|].
  destruct (Z.gtb_spec (len (strip raw)) 100); [destruct H|].
  cbn [orb] in H.
  destruct (existsb (fun pattern => found pattern (strip raw)) skip_patterns)
    eqn:Es; [destruct H|].
  destruct (condition_of_line text (strip raw) page_num condition_patterns)
    as [c'|] eqn:Ec; [|destruct H].
  destruct H as [<- | []].
  apply condition_of_line_shape in Ec.
  destruct Ec as [pattern [mt [Hp [Hr [Hn [Hv [Hpg _]]]]]]].
  exists raw, pattern, mt.
  split; [assumption|]. split; [lia|]. split.
  - intros skip Hskip. destruct (found skip (strip raw)) eqn:F; [|reflexivity].
    assert (existsb (fun pattern => found pattern (strip raw)) skip_patterns
            = true) by (apply existsb_exists; now exists skip).
    congruence.
  - now repeat split.
Qed.

Lemma page_condition_origin_witness :
  exists raw pattern mt,
    In raw (split_on newline two_conditions_text)
    /\ 5 <= len (strip raw) <= 100
    /\ (forall skip, In skip skip_patterns -> found skip (strip raw) = false)
    /\ In pattern condition_patterns
    /\ re_search pattern (strip raw) NOFLAGS = Some mt
    /\ name severe_malaria = strip (group_str mt 1)
    /\ _is_valid_medical_condition (name severe_malaria) = true
    /\ page_number severe_malaria = 40.
Proof.
  apply (page_condition_origin two_conditions_text 40 severe_malaria).
  vm_compute. left. reflexivity.
Defined.

Lemma conditions_of_line_fields (text : string) (page_num : Z) (raw : string)
      (c : MedicalCondition) :
  In c (conditions_of_line text page_num raw) ->
  clinical_features c = _extract_clinical_features text ""
  /\ investigations c = _extract_section_content text "investigations"
  /\ treatment c = _extract_section_content text "treatment".
Proof.
  unfold conditions_of_line. intros H.
  destruct ((len (strip raw) <? 5) || (len (strip raw) >? 100));
    [destruct H|].
  destruct (existsb (fun pattern => found pattern (strip raw)) skip_patterns);
    [destruct H|].
  destruct (condition_of_line text (strip raw) page_num condition_patterns)
    as [c'|] eqn:Ec; [|destruct H].
  destruct H as [<- | []].
  apply condition_of_line_shape in Ec.
  destruct Ec as [pattern [mt [_ [_ [_ [_ [_ [H1 [H2 H3]]]]]]]]].
  now repeat split.
Qed.

(** X18. The clinical features, investigations and treatment texts of a
    condition are read off the whole page and do not depend on the
    condition: all conditions found on one page carry the same three texts,
    of at most 500, 300 and 300 characters. *)
Theorem page_conditions_share_texts :
  forall (text : string) (page_num : Z) (c1 c2 : MedicalCondition),
    In c1 (_extract_conditions_from_page text page_num) ->
    In c2 (_extract_conditions_from_page text page_num) ->
    clinical_features c1 = clinical_features c2
    /\ investigations c1 = investigations c2
    /\ treatment c1 = treatment c2
    /\ (String.length (clinical_features c1) <= 500)%nat
    /\ (String.length (investigations c1) <= 300)%nat
    /\ (String.length (treatment c1) <= 300)%nat.
Proof.
  intros text page_num c1 c2 H1 H2.
  unfold _extract_conditions_from_page in *.
  apply in_flat_map in H1. destruct H1 as [raw1 [_ H1]].
  apply in_flat_map in H2. destruct H2 as [raw2 [_ H2]].
  apply conditions_of_line_fields in H1, H2.
  destruct H1 as [A1 [B1 C1]]. destruct H2 as [A2 [B2 C2]].
  rewrite A1, B1, C1, A2, B2, C2.
  repeat split;
    [ apply SectionFacts.clinical_features_bounded
    | apply SectionFacts.section_content_bounded
    | apply SectionFacts.section_content_bounded ].
Qed.

Lemma page_conditions_share_texts_witness :
  clinical_features severe_malaria = clinical_features chronic_hepatitis
  /\ investigations severe_malaria = investigations chronic_hepatitis
  /\ treatment severe_malaria = treatment chronic_hepatitis
  /\ (String.length (clinical_features severe_malaria) <= 500)%nat
  /\ (String.length (investigations severe_malaria) <= 300)%nat
  /\ (String.length (treatment severe_malaria) <= 300)%nat.
Proof.
  apply (page_conditions_share_texts two_conditions_text 40
           severe_malaria chronic_hepatitis).
  - vm_compute. left. reflexivity.
  - vm_compute. right. left. reflexivity.
Defined.

(** X19. The page step returns at most one condition for each line of the
    page. *)
Theorem at_most_one_condition_per_line :
  forall (text : string) (page_num : Z),
    (List.length (_extract_conditions_from_page text page_num)
     <= List.length (split_on newline text))%nat.
Proof.
  intros text page_num. unfold _extract_conditions_from_page.
  induction (split_on newline text) as [|raw l IH]; simpl; [lia|].
  rewrite length_app.
  assert (List.length (conditions_of_line text page_num raw) <= 1)%nat.
  { unfold conditions_of_line.
    destruct ((len (strip raw) <? 5) || (len (strip raw) >? 100));
      [simpl; lia|].
    destruct (existsb (fun pattern => found pattern (strip raw))
                      skip_patterns); [simpl; lia|].
    destruct (condition_of_line text (strip raw) page_num condition_patterns);
      simpl; lia. }
  lia.
Qed.


(** A name that starts with a digit is found by the leading-number
    pattern. *)
Lemma leading_digit_found (c : ascii) (s : string) :
  is_digit c = true -> found "^\d+" (String c s) = true.
Proof.
  intros Hd. unfold found, re_search.
  set (cp := compile "^\d+"). vm_compute in cp. subst cp.
  cbn [list_ascii_of_string search_at fst].
  rewrite !ReFacts.m_cat. cbn [m pos init_state Nat.eqb].
  change (m NOFLAGS (RSet false [CDigit]))
    with (step_char (set_matches NOFLAGS false [CDigit])).
  rewrite ReFacts.greedy_plus_total;
    [| intros s0; discriminate | cbn [rest]; lia].
  unfold set_matches. cbn [existsb item_matches xorb rest init_state].
  rewrite Hd. reflexivity.
Qed.

(** X20. A name the condition validator accepts has between 5 and 60
    characters, contains none of the organisation words, does not start
    with a digit, and either contains a medical indicator, letter case
    ignored, or starts with a capital and has at most four words. *)
Theorem valid_condition_name_properties :
  forall name : string,
    _is_valid_medical_condition name = true ->
    5 <= len name <= 60
    /\ (forall w, In w organisation_words -> contains w name = false)
    /\ (forall c s, name = String c s -> is_digit c = false)
    /\ ((exists w, In w medical_indicators
                   /\ contains w (str_lower name) = true)
        \/ (first_isupper name = true
            /\ Z.of_nat (List.length (split_ws name)) <= 4)).
Proof.
  intros name. unfold _is_valid_medical_condition.
  destruct (Z.ltb_spec (len name) 5); [discriminate|].
  destruct (Z.gtb_spec (len name) 60); [discriminate|]. cbn [orb].
  destruct (existsb (fun skip => contains skip name) organisation_words)
    eqn:Eo; [discriminate|].
  destruct (existsb (fun pattern => found pattern name) validator_patterns)
    eqn:Ev; [discriminate|].
  intros Hacc. split; [lia|]. split; [|split].
  - intros w Hw. destruct (contains w name) eqn:E; [|reflexivity].
    assert (Hex : existsb (fun skip => contains skip name) organisation_words
                  = true)
      by (apply existsb_exists; now exists w).
    congruence.
  - intros c s -> . destruct (is_digit c) eqn:Ed; [|reflexivity].
    cbn [validator_patterns existsb] in Ev.
    rewrite (leading_digit_found c s Ed) in Ev. discriminate.
  - destruct (existsb (fun indicator => contains indicator (str_lower name))
                      medical_indicators) eqn:Ei.
    + left. apply existsb_exists in Ei. exact Ei.
    + right. destruct (first_isupper name); [|discriminate].
      destruct (Z.leb_spec (Z.of_nat (List.length (split_ws name))) 4);
        [|discriminate].
      now split.
Qed.

Lemma valid_condition_name_properties_witness :
  5 <= len "Severe Malaria" <= 60
  /\ (forall w, In w organisation_words ->
                contains w "Severe Malaria" = false)
  /\ (forall c s, "Severe Malaria" = String c s -> is_digit c = false)
  /\ ((exists w, In w medical_indicators
                 /\ contains w (str_lower "Severe Malaria") = true)
      \/ (first_isupper "Severe Malaria" = true
          /\ Z.of_nat (List.length (split_ws "Severe Malaria")) <= 4)).
Proof.
  apply (valid_condition_name_properties "Severe Malaria").
  vm_compute. reflexivity.
Defined.

Lemma search_at_ngroups (fl : flags) (c : regex * nat) (l : list ascii) :
  forall (p : nat) (pv : option ascii) (mt : Match) (pv' : option ascii)
         (l' : list ascii),
    search_at fl c p pv l = Some (mt, pv', l') -> m_ngroups mt = snd c.
Proof.
  induction l as [|x l IH]; intros p pv mt pv' l'; cbn [search_at];
    destruct (m fl (fst c) (fun s => Some s) (init_state p pv _)) as [e|];
    intros H; try discriminate.
  - injection H as <- _ _. reflexivity.
  - injection H as <- _ _. reflexivity.
  - now apply IH in H.
Qed.

Lemma finditer_from_ngroups (fl : flags) (c : regex * nat) (fuel : nat) :
  forall (p : nat) (pv : option ascii) (l : list ascii) (mt : Match),
    In mt (finditer_from fuel fl c p pv l) -> m_ngroups mt = snd c.
Proof.
  induction fuel as [|fuel IH]; intros p pv l mt; cbn [finditer_from];
    [intros []|].
  destruct (search_at fl c p pv l) as [[[mt0 pv'] l']|] eqn:E; [|intros []].
  intros [<- | H].
  - now apply search_at_ngroups in E.
  - destruct (Nat.eqb (m_end mt0) (m_start mt0)).
    + destruct l' as [|x l'']; [destruct H | now apply IH in H].
    + now apply IH in H.
Qed.

(** X21. Every medication the page step returns has a name the medication
    validator accepts, carries the page number, has a strength, and has a
    route only when one was captured: a route is never the empty text. *)
Theorem page_medication_properties :
  forall (text : string) (page_num : Z) (md : Medication),
    In md (_extract_medications_from_page text page_num) ->
    _is_valid_medication_name (med_name md) = true
    /\ med_page_number md = page_num
    /\ (exists s, med_strength md = Some s)
    /\ med_route md <> Some "".
Proof.
  intros text page_num md H. unfold _extract_medications_from_page in H.
  apply in_flat_map in H. destruct H as [pattern [Hp H]].
  apply in_flat_map in H. destruct H as [mt [Hm H]].
  unfold re_finditer in Hm. apply finditer_from_ngroups in Hm.
  assert (Hg : (3 <= m_ngroups mt)%nat).
  { rewrite Hm. destruct Hp as [<- | [<- | []]]; vm_compute; lia. }
  unfold medication_of_match in H.
  destruct (_is_valid_medication_name (strip (group_str mt 1))) eqn:V;
    [|destruct H].
  destruct H as [<- | []]. cbn [negb med_name med_page_number med_strength
                                     med_route].
  split; [assumption|]. split; [reflexivity|]. split.
  - destruct (Nat.leb_spec 3 (m_ngroups mt)); [|lia]. eexists. reflexivity.
  - destruct (4 <=? m_ngroups mt)%nat; [|discriminate].
    destruct (group mt 4) as [[|a r]|]; simpl; discriminate.
Qed.

Lemma page_medication_properties_witness :
  let md := mkMedication "Paracetamol" 3 (Some "500mg") (Some "oral") in
  _is_valid_medication_name (med_name md) = true
  /\ med_page_number md = 3
  /\ (exists s, med_strength md = Some s)
  /\ med_route md <> Some "".
Proof.
  apply (page_medication_properties "Give Paracetamol 500 mg oral" 3).
  vm_compute. left. reflexivity.
Defined.


Lemma scan_lists (pages : list (Z * string)) :
  conditions (scan_pages pages) = discovered pages
  /\ medications (scan_pages pages)
     = flat_map (fun pg => _extract_medications_from_page (snd pg) (fst pg))
                pages
  /\ pages_processed (scan_pages pages) = Z.of_nat (List.length pages).
Proof.
  induction pages as [|[page_no text] pre IH] using rev_ind.
  - repeat split.
  - destruct IH as [Hc [Hm Hp]].
    rewrite ScanFacts.scan_snoc. unfold scan_page, discovered.
    cbn [conditions medications pages_processed].
    rewrite !flat_map_app, length_app, Hc, Hm, Hp. cbn [flat_map fst snd].
    rewrite !app_nil_r. repeat split. simpl List.length. lia.
Qed.

(** X22. The scan returns the conditions and the medications of the pages
    in page order, nothing dropped and nothing merged, and counts every
    page. *)
Theorem scan_accumulates_in_page_order :
  forall pages : list (Z * string),
    conditions (scan_pages pages) = discovered pages
    /\ medications (scan_pages pages)
       = flat_map (fun pg => _extract_medications_from_page (snd pg) (fst pg))
                  pages
    /\ pages_processed (scan_pages pages) = Z.of_nat (List.length pages).
Proof.
  exact scan_lists.
Qed.

Lemma most_recent_is_discovered (pages : list (Z * string))
      (c : MedicalCondition) :
  most_recent_condition pages = Some c -> In c (discovered pages).
Proof.
  unfold most_recent_condition. intros H.
  apply in_rev. destruct (rev (discovered pages)); [discriminate|].
  injection H as ->. now left.
Qed.

(** X23. Every treatment record of a scan names a condition the scan
    discovered: the reference from a treatment to its condition always
    resolves within the result of the same scan. *)
Theorem scan_treatments_name_discovered_conditions :
  forall (pages : list (Z * string)) (t : MedicalTreatment),
    In t (treatments (scan_pages pages)) ->
    exists c, In c (conditions (scan_pages pages))
              /\ name c = condition_name t.
Proof.
  intros pages t.
  rewrite (proj1 (scan_lists pages)).
  induction pages as [|[page_no text] pre IH] using rev_ind.
  - intros [].
  - rewrite ScanFacts.scan_page_treatments. intros H.
    apply in_app_or in H. destruct H as [H | H].
    + destruct (IH H) as [c [Hc Hn]]. exists c. split; [|assumption].
      unfold discovered. rewrite flat_map_app. apply in_or_app. now left.
    + destruct (most_recent_condition (pre ++ [(page_no, text)])) as [c|] eqn:E;
        [|destruct H].
      exists c. split; [now apply most_recent_is_discovered|].
      apply ExtractorFacts.treatment_record_shape in H.
      destruct H as [pattern [mt [_ [_ [_ ->]]]]].
      symmetry. apply ScanFacts.classify_provenance.
Qed.

Lemma scan_treatments_name_discovered_conditions_witness :
  exists c, In c (conditions (scan_pages [two_conditions_page]))
            /\ name c = condition_name artesunate_record.
Proof.
  apply (scan_treatments_name_discovered_conditions [two_conditions_page]
           artesunate_record).
  vm_compute. left. reflexivity.
Defined.

Lemma py_range_length (a b : Z) :
  Z.of_nat (List.length (py_range a b)) = Z.max 0 (b - a).
Proof.
  unfold py_range. rewrite length_map, length_seq. lia.
Qed.

Lemma flat_map_of_map {A B C : Type} (f : B -> list C) (g : A -> B)
      (l : list A) :
  flat_map f (map g l) = flat_map (fun a => f (g a)) l.
Proof.
  induction l as [|a l IH]; cbn [map flat_map]; [reflexivity | now rewrite IH].
Qed.

(** The pages the loop of the driver visits, by page number. *)
Lemma driver_pages (page_text : Z -> string) (start_page end_page : Z) :
  map (fun page_num => (page_num + 1, page_text page_num))
      (py_range (start_page - 1) end_page)
  = map (fun p => (p, page_text (p - 1))) (page_numbers start_page end_page).
Proof.
  unfold py_range, page_numbers. rewrite !map_map.
  replace (end_page - (start_page - 1)) with (end_page - start_page + 1)
    by lia.
  apply map_ext. intros k. f_equal; [lia | f_equal; lia].
Qed.

Lemma page_numbers_length (first last : Z) :
  first <= last ->
  Z.of_nat (List.length (page_numbers first last)) = last - first + 1.
Proof.
  intros H. unfold page_numbers. rewrite length_map, length_seq. lia.
Qed.

(** X24. Started at a page of the document, the driver scans exactly the
    pages numbered from [start_page] to the smaller of
    [start_page + max_pages] and the number of pages, both included and in
    this order, each page number with the text of that page of the
    document: its conditions and medications are those of these pages, and
    it counts one page more than [max_pages] when the document is long
    enough. *)
Theorem driver_page_range :
  forall (page_text : Z -> string) (total_pages start_page max_pages : Z),
    1 <= start_page -> start_page < total_pages -> 0 <= max_pages ->
    let last_page := Z.min (start_page + max_pages) total_pages in
    exists st,
      extract_medical_content page_text total_pages start_page max_pages
      = Some st
      /\ st = scan_pages (map (fun p => (p, page_text (p - 1)))
                              (page_numbers start_page last_page))
      /\ conditions st
         = flat_map (fun p => _extract_conditions_from_page
                                (page_text (p - 1)) p)
                    (page_numbers start_page last_page)
      /\ medications st
         = flat_map (fun p => _extract_medications_from_page
                                (page_text (p - 1)) p)
                    (page_numbers start_page last_page)
      /\ pages_processed st = last_page - start_page + 1.
Proof.
  intros page_text total_pages start_page max_pages H1 H Hm last_page.
  unfold extract_medical_content.
  destruct (Z.geb_spec start_page total_pages); [lia|].
  fold last_page. rewrite driver_pages.
  eexists. split; [reflexivity|]. split; [reflexivity|].
  destruct (scan_lists (map (fun p => (p, page_text (p - 1)))
                            (page_numbers start_page last_page)))
    as [Hc [Hmd Hp]].
  rewrite Hc, Hmd, Hp. unfold discovered.
  rewrite !flat_map_of_map, length_map. cbn [fst snd].
  repeat split. apply page_numbers_length. unfold last_page. lia.
Qed.

Lemma driver_page_range_witness :
  exists st,
    extract_medical_content blank_document 100 30 50 = Some st
    /\ st = scan_pages (map (fun p => (p, blank_document (p - 1)))
                            (page_numbers 30 80))
    /\ conditions st
       = flat_map (fun p => _extract_conditions_from_page
                              (blank_document (p - 1)) p)
                  (page_numbers 30 80)
    /\ medications st
       = flat_map (fun p => _extract_medications_from_page
                              (blank_document (p - 1)) p)
                  (page_numbers 30 80)
    /\ pages_processed st = 51.
Proof.
  apply (driver_page_range blank_document 100 30 50); lia.
Defined.

(** X25. Which field a marker fills: first-line text goes to first_line,
    second-line and alternative text to second_line, a dose to dosage, a
    duration to duration, and the text after the drug marker, for which the
    chain has no case, to first_line. *)
Theorem marker_field_table :
  forall (cond : string) (page : Z) (txt : string),
    map (fun pattern => classify_treatment pattern cond page txt)
        treatment_patterns
    = [ mkTreatment cond txt "" "" "" page;
        mkTreatment cond "" txt "" "" page;
        mkTreatment cond "" txt "" "" page;
        mkTreatment cond txt "" "" "" page;
        mkTreatment cond "" "" txt "" page;
        mkTreatment cond "" "" "" txt page ].
Proof.
  intros. vm_compute. reflexivity.
Qed.

End PageLaws.

(* ================================================================== *)
(** * Whitespace of the extracted texts *)
(* ================================================================== *)

Module SpacingFacts.
Import PyStr Re Ocr Shape Notions ReFacts LoopFacts.
Local Open Scope list_scope.
Local Open Scope nat_scope.

Lemma pos_advance_n (n : nat) (s : mstate) :
  n <= List.length (rest s) -> pos (advance_n n s) = pos s + n.
Proof.
  revert s. induction n as [|n IH]; intros s H; simpl; [lia|].
  destruct (rest s) as [|x xs] eqn:E; [simpl in H; lia|].
  rewrite IH; [simpl; lia | simpl in *; lia].
Qed.

Lemma run_length_le (p : ascii -> bool) (l : list ascii) :
  run_length p l <= List.length l.
Proof.
  induction l as [|x l IH]; simpl; [lia|]. destruct (p x); simpl; lia.
Qed.

(** What the whitespace pattern does at one position. *)
Lemma whitespace_here (p : nat) (pv : option ascii) (l : list ascii) :
  m NOFLAGS (fst (compile whitespace_pattern)) (fun s => Some s)
    (init_state p pv l)
  = match l with
    | x :: xs =>
        if is_space x
        then Some (advance_n (S (run_length is_space xs)) (init_state p pv l))
        else None
    | [] => None
    end.
Proof.
  set (cp := compile whitespace_pattern). vm_compute in cp. subst cp.
  cbn [fst]. rewrite m_cat, m_rep.
  change (m NOFLAGS (RSet false [CSpace]))
    with (step_char (set_matches NOFLAGS false [CSpace])).
  rewrite greedy_plus_total;
    [| intros s; discriminate | cbn [rest init_state]; lia].
  cbn [rest init_state]. destruct l as [|x xs]; [reflexivity|].
  rewrite space_class. destruct (is_space x); [|reflexivity].
  cbn [m]. now rewrite (run_length_ext _ is_space xs space_class).
Qed.

(** A search for whitespace skips characters that are none and then reads
    at least one character. *)
Lemma whitespace_search (l : list ascii) :
  forall (p : nat) (pv : option ascii),
    match search_at NOFLAGS (compile whitespace_pattern) p pv l with
    | None => Forall (fun c => is_space c = false) l
    | Some (mt, _, l') =>
        Forall (fun c => is_space c = false) (firstn (m_start mt - p) l)
        /\ m_start mt < m_end mt
        /\ List.length l' < List.length l
    end.
Proof.
  induction l as [|x xs IH]; intros p pv; cbn [search_at];
    rewrite whitespace_here; [constructor|].
  destruct (is_space x) eqn:Ex.
  - cbn [m_start m_end]. rewrite Nat.sub_diag. cbn [firstn].
    pose proof (run_length_le is_space xs) as Hr.
    rewrite pos_advance_n, rest_advance_n;
      cbn [rest pos init_state List.length]; [|lia].
    split; [constructor|]. split; [lia|].
    cbn [skipn]. rewrite length_skipn. lia.
  - specialize (IH (S p) (Some x)).
    destruct (search_at NOFLAGS (compile whitespace_pattern) (S p) (Some x) xs)
      as [[[mt pv'] l']|] eqn:E.
    + destruct IH as [H1 [H2 H3]].
      assert (S p <= m_start mt).
      { clear -E. revert E. generalize (S p) as q, (Some x) as pv.
        induction xs as [|y ys IH]; intros q pv; cbn [search_at];
          rewrite whitespace_here.
        - discriminate.
        - destruct (is_space y).
          + intros [= <- _ _]. cbn. lia.
          + intros H. apply IH in H. lia. }
      replace (m_start mt - p) with (S (m_start mt - S p)) by lia.
      cbn [firstn]. split; [constructor; assumption|].
      split; [assumption | cbn [List.length]; lia].
    + constructor; assumption.
Qed.

Lemma plain_spaced_app (a b : list ascii) :
  plain_spaced_chars a -> plain_spaced_chars b -> plain_spaced_chars (a ++ b).
Proof. intros Ha Hb. apply Forall_app. now split. Qed.

Lemma no_space_plain (l : list ascii) :
  Forall (fun c => is_space c = false) l -> plain_spaced_chars l.
Proof.
  intros H. eapply Forall_impl; [|exact H]. intros c Hc Hs. congruence.
Qed.

Lemma sub_whitespace_plain (fuel : nat) :
  forall (p : nat) (pv : option ascii) (l : list ascii),
    List.length l < fuel ->
    plain_spaced_chars
      (sub_from fuel NOFLAGS (compile whitespace_pattern) [" "%char] p pv l).
Proof.
  induction fuel as [|fuel IH]; intros p pv l Hl; [lia|].
  cbn [sub_from]. pose proof (whitespace_search l p pv) as Hs.
  destruct (search_at NOFLAGS (compile whitespace_pattern) p pv l)
    as [[[mt pv'] l']|]; [|now apply no_space_plain].
  destruct Hs as [H1 [H2 H3]].
  apply plain_spaced_app; [now apply no_space_plain|].
  apply plain_spaced_app; [constructor; [reflexivity | constructor]|].
  destruct (Nat.eqb_spec (m_end mt) (m_start mt)); [lia|].
  apply IH. lia.
Qed.

Lemma normalize_whitespace_plain (s : string) :
  plain_spaced (normalize_whitespace s).
Proof.
  unfold plain_spaced, normalize_whitespace, re_sub.
  rewrite list_ascii_of_string_of_list_ascii.
  apply (sub_whitespace_plain _ 0 None). lia.
Qed.

Lemma slice_to_plain (n : nat) (s : string) :
  plain_spaced s -> plain_spaced (slice_to n s).
Proof.
  unfold plain_spaced, slice_to. revert n.
  induction s as [|c s IH]; intros n H; destruct n; cbn; try constructor.
  - inversion H; assumption.
  - apply IH. inversion H; assumption.
Qed.

Lemma empty_plain : plain_spaced "".
Proof. constructor. Qed.

Lemma section_content_loop_plain (text : string) (keywords : list string) :
  plain_spaced (section_content_loop text keywords).
Proof.
  induction keywords as [|keyword keywords IH]; cbn [section_content_loop];
    [apply empty_plain|].
  destruct (re_search (section_pattern_for keyword) text IGNORECASE_DOTALL)
    as [mt|]; [|exact IH].
  cbv zeta.
  destruct (Nat.ltb 300 _);
    [apply slice_to_plain|]; apply normalize_whitespace_plain.
Qed.

Lemma clinical_features_loop_plain (text : string) (patterns : list string) :
  plain_spaced (clinical_features_loop text patterns).
Proof.
  induction patterns as [|pattern patterns IH]; cbn [clinical_features_loop];
    [apply empty_plain|].
  destruct (re_search pattern text IGNORECASE_DOTALL) as [mt|]; [|exact IH].
  cbv zeta.
  destruct (Nat.ltb 500 _);
    [apply slice_to_plain|]; apply normalize_whitespace_plain.
Qed.

(** X26. The texts the two section extractors return are single-spaced:
    they hold no newline, tab or other whitespace character than the plain
    space, whatever the page text, the section type and the condition
    name. *)
Theorem extracted_texts_are_plain_spaced :
  forall (text section_type condition_name : string),
    plain_spaced (_extract_section_content text section_type)
    /\ plain_spaced (_extract_clinical_features text condition_name).
Proof.
  intros text section_type condition_name. split.
  - unfold _extract_section_content.
    destruct (lookup_section section_type medical_sections) as [keywords|];
      [apply section_content_loop_plain | apply empty_plain].
  - apply clinical_features_loop_plain.
Qed.

End SpacingFacts.
